(** * lab-control-lib: camera acquisition core and scan manager

    A shallow embedding of [lclib/camera.py] (class [CameraBase]) and
    [lclib/manager.py] (class [ManagerBase]), with the reply parsing of
    [lclib/mecademic.py] and the tags of [lclib/datalogger.py].

    - Python [int] is [Z]; Python [float] is the binary64 number of the
      primitive type [float], with its IEEE 754 arithmetic and comparisons.
    - Python [str] is [string]; the case functions are the ASCII ones.
    - A raised exception is the [Raise]/[Throw] result, tagged with its class.
    - Dictionaries are [gmap]s; dictionaries that are shared by reference
      (the metadata bundles of the camera) live in a heap of objects. *)

From Stdlib Require Import ZArith PrimFloat Ascii String List Lia.
From Stdlib Require Import Sorted.
From stdpp Require Import gmap strings list fin_maps.

Local Open Scope Z_scope.
Local Open Scope string_scope.

#[local] Set Warnings "-inexact-float".

(* ===================================================================== *)
(** ** Python values and results                                           *)
(* ===================================================================== *)

(** The exception classes the modelled code raises or catches.
    [NotModelled] is not a Python exception: it marks an input of a
    builtin ([str.format]) outside the fragment modelled here. *)
Inductive exn : Type :=
  | RuntimeError | ValueError | IndexError | KeyError | TypeError
  | NameError | AttributeError | ZeroDivisionError | NotModelled.

Inductive result (A : Type) : Type :=
  | Ok (a : A)
  | Raise (e : exn).
Arguments Ok {A} a.
Arguments Raise {A} e.

(** Location of a heap-allocated dictionary object. *)
Definition loc := positive.

Inductive pyval : Type :=
  | PNone
  | PBool (b : bool)
  | PInt (z : Z)
  | PNum (x : float)
  | PStr (s : string)
  | PRef (l : loc).

(** A dictionary with string keys. *)
Abbreviation dict := (gmap string pyval).

(** [d.update(other)]: the keys of [other] win. *)
Definition dict_update (d other : dict) : dict := other ∪ d.

(* ===================================================================== *)
(** ** Strings: [str.lower], decimal rendering, [str.format], [os.path.join] *)
(* ===================================================================== *)

Module PyStr.

Definition lower_char (c : ascii) : ascii :=
  let n := nat_of_ascii c in
  if (Nat.leb 65 n && Nat.leb n 90)%bool then ascii_of_nat (n + 32) else c.

(** [s.lower()] on ASCII text. *)
Fixpoint lower (s : string) : string :=
  match s with
  | EmptyString => EmptyString
  | String c r => String (lower_char c) (lower r)
  end.

(** [c in s] for a character. *)
Fixpoint mem_char (c : ascii) (s : string) : bool :=
  match s with
  | EmptyString => false
  | String d r => (Ascii.eqb c d || mem_char c r)%bool
  end.

(** [all(c in alphabet for c in s)]. *)
Fixpoint all_in (alphabet s : string) : bool :=
  match s with
  | EmptyString => true
  | String c r => (mem_char c alphabet && all_in alphabet r)%bool
  end.

Definition digit_char (d : N) : ascii := ascii_of_N (48 + d).

(** Decimal digits of [n], most significant first. *)
Fixpoint dec_digits (fuel : nat) (n : N) : string :=
  match fuel with
  | O => EmptyString
  | S f =>
      if (n <? 10)%N then String (digit_char n) EmptyString
      else dec_digits f (n / 10)%N +:+ String (digit_char (n mod 10)%N) EmptyString
  end.

Definition str_N (n : N) : string := dec_digits (S (N.size_nat n)) n.

(** [str(z)]. *)
Definition str_int (z : Z) : string :=
  if (z <? 0)%Z then String "-"%char (str_N (Z.abs_N z)) else str_N (Z.abs_N z).

Fixpoint repeat_char (c : ascii) (n : nat) : string :=
  match n with
  | O => EmptyString
  | S k => String c (repeat_char c k)
  end.

(** [format(z, '0<width>d')]: sign first, then zeros up to [width]. *)
Definition zero_pad (width : nat) (z : Z) : string :=
  let ds := str_N (Z.abs_N z) in
  let sign := if (z <? 0)%Z then String "-"%char EmptyString else EmptyString in
  sign +:+ repeat_char "0"%char (width - String.length sign - String.length ds) +:+ ds.

(** [format(z, '<width>d')]: right-aligned, padded with spaces. *)
Definition space_pad (width : nat) (z : Z) : string :=
  let s := str_int z in
  repeat_char " "%char (width - String.length s) +:+ s.

Definition is_digit (c : ascii) : bool :=
  let n := nat_of_ascii c in (Nat.leb 48 n && Nat.leb n 57)%bool.

Fixpoint all_digits (s : string) : bool :=
  match s with
  | EmptyString => true
  | String c r => (is_digit c && all_digits r)%bool
  end.

(** Value of a string of decimal digits. *)
Fixpoint nat_of_digits (acc : nat) (s : string) : nat :=
  match s with
  | EmptyString => acc
  | String c r => nat_of_digits (10 * acc + (nat_of_ascii c - 48)) r
  end.

(** Split at the first [sep]: the text before it, and the text after it
    when [sep] occurs. *)
Fixpoint split_at (sep : ascii) (s : string) : string * option string :=
  match s with
  | EmptyString => (EmptyString, None)
  | String c r =>
      if Ascii.eqb c sep then (EmptyString, Some r)
      else let '(a, b) := split_at sep r in (String c a, b)
  end.

(** The format specifications modelled: empty, and [[0][width][d]]. *)
Definition render_spec (spec : string) (z : Z) : result string :=
  let body :=
    match spec with
    | String "0"%char r => (true, r)
    | _ => (false, spec)
    end in
  let '(zero, r) := body in
  let (w, ty) := split_at "d"%char r in
  if negb (all_digits w) then Raise NotModelled
  else match ty with
       | Some (String _ _) => Raise NotModelled
       | _ =>
           let width := nat_of_digits 0 w in
           Ok (if zero then zero_pad width z else space_pad width z)
       end.

(** How the replacement fields seen so far were numbered. *)
Inductive numbering : Type :=
  | NumNone
  | NumAuto (next : nat)
  | NumManual.

(** One replacement field [{name[:spec]}] applied to the argument tuple
    [(z,)]; returns the text and the numbering state. *)
Definition render_field (num : numbering) (field : string) (z : Z)
  : result (string * numbering) :=
  let (name, spec) := split_at ":"%char field in
  let spec := default EmptyString spec in
  let index : result (nat * numbering) :=
    match name with
    | EmptyString =>
        match num with
        | NumManual => Raise ValueError
        | NumNone => Ok (O, NumAuto 1)
        | NumAuto k => Ok (k, NumAuto (S k))
        end
    | _ =>
        if all_digits name then
          match num with
          | NumAuto _ => Raise ValueError
          | _ => Ok (nat_of_digits 0 name, NumManual)
          end
        else if (mem_char "."%char name || mem_char "["%char name
                 || mem_char "!"%char name)%bool
        then Raise NotModelled
        else Raise KeyError
    end in
  match index with
  | Raise e => Raise e
  | Ok (O, num') =>
      match render_spec spec z with
      | Ok txt => Ok (txt, num')
      | Raise e => Raise e
      end
  | Ok (S _, _) => Raise IndexError
  end.

Definition prepend (c : ascii) (r : result string) : result string :=
  match r with Ok s => Ok (String c s) | Raise e => Raise e end.

Definition prepend_str (a : string) (r : result string) : result string :=
  match r with Ok s => Ok (a +:+ s) | Raise e => Raise e end.

(** The scanner of [template.format(z)]. [fld] is [None] in literal text
    and [Some f] inside a replacement field whose text so far is [f]. *)
Fixpoint format_go (z : Z) (num : numbering) (fld : option string) (s : string)
  : result string :=
  match fld, s with
  | None, EmptyString => Ok EmptyString
  | None, String "{"%char (String "{"%char r) => prepend "{"%char (format_go z num None r)
  | None, String "{"%char r => format_go z num (Some EmptyString) r
  | None, String "}"%char (String "}"%char r) => prepend "}"%char (format_go z num None r)
  | None, String "}"%char _ => Raise ValueError
  | None, String c r => prepend c (format_go z num None r)
  | Some f, EmptyString => Raise ValueError
  | Some f, String "}"%char r =>
      match render_field num f z with
      | Ok (txt, num') => prepend_str txt (format_go z num' None r)
      | Raise e => Raise e
      end
  | Some f, String "{"%char r =>
      Raise (if mem_char ":"%char f then NotModelled else ValueError)
  | Some f, String c r => format_go z num (Some (f +:+ String c EmptyString)) r
  end.

(** [template.format(z)] with the single positional argument [z]. *)
Definition format (template : string) (z : Z) : result string :=
  format_go z NumNone None template.

Definition starts_with_sep (s : string) : bool :=
  match s with String "/"%char _ => true | _ => false end.

Fixpoint ends_with_sep (s : string) : bool :=
  match s with
  | EmptyString => false
  | String c EmptyString => Ascii.eqb c "/"%char
  | String _ r => ends_with_sep r
  end.

(** One step of [posixpath.join]. *)
Definition join2 (path b : string) : string :=
  if starts_with_sep b then b
  else if (String.eqb path EmptyString || ends_with_sep path)%bool then path +:+ b
  else path +:+ "/" +:+ b.

(** [os.path.join(a, *p)] on a POSIX host. *)
Definition os_path_join (a : string) (p : list string) : string :=
  fold_left join2 p a.

(** Last character of a string. *)
Fixpoint last_char (s : string) : option ascii :=
  match s with
  | EmptyString => None
  | String c EmptyString => Some c
  | String _ r => last_char r
  end.

(** The text holds no brace, hence no replacement field and no escape. *)
Definition no_braces (s : string) : bool :=
  (negb (mem_char "{"%char s) && negb (mem_char "}"%char s))%bool.

End PyStr.

(* ===================================================================== *)
(** ** Outcomes of stateful methods                                        *)
(* ===================================================================== *)

(** A method run on a state [S]: it returns a value, raises (the state
    reached when the exception leaves the method is kept), or never
    returns to its caller ([Blocked]: an unbounded wait that nothing
    will end). *)
Inductive outcome (S A : Type) : Type :=
  | Return (a : A) (s : S)
  | Throw (e : exn) (s : S)
  | Blocked (s : S).
Arguments Return {S A} a s.
Arguments Throw {S A} e s.
Arguments Blocked {S A} s.

(** The state a method leaves, however it ends. *)
Definition state_of {S A} (o : outcome S A) : S :=
  match o with Return _ s | Throw _ s | Blocked s => s end.

Definition as_str (v : pyval) : result string :=
  match v with PStr s => Ok s | _ => Raise TypeError end.

Definition is_none (v : pyval) : bool :=
  match v with PNone => true | _ => false end.

(* ===================================================================== *)
(** ** [lclib/manager.py]: class [ManagerBase]                             *)
(* ===================================================================== *)

Module Manager.

(** An attribute that [__init__] may leave without a value: reading it
    before it was assigned raises [AttributeError]. *)
Inductive attribute (A : Type) : Type :=
  | Unassigned
  | Assigned (v : A).
Arguments Unassigned {A}.
Arguments Assigned {A} v.

(** [_scan_number] is what [next_scan()] returned last, a number or
    [None]; [__init__] leaves it unassigned when its [next_scan()]
    raised. *)
Record manager : Type := mkManager {
  config : dict;                     (* self.config, persisted *)
  _running : bool;
  _scan_name : option string;
  _label : option string;
  _base_file_name : option string;
  _scan_number : attribute (option Z);
  counter : Z;
  scan_info : dict;
  last_scan_info : dict;
  dirs : gset string                 (* directories present under the data host *)
}.

Definition with_config (c : dict) (m : manager) : manager :=
  mkManager c (_running m) (_scan_name m) (_label m) (_base_file_name m)
            (_scan_number m) (counter m) (scan_info m) (last_scan_info m) (dirs m).

Definition with_counter (c : Z) (m : manager) : manager :=
  mkManager (config m) (_running m) (_scan_name m) (_label m) (_base_file_name m)
            (_scan_number m) c (scan_info m) (last_scan_info m) (dirs m).

Definition with_dirs (d : gset string) (m : manager) : manager :=
  mkManager (config m) (_running m) (_scan_name m) (_label m) (_base_file_name m)
            (_scan_number m) (counter m) (scan_info m) (last_scan_info m) d.

Definition _VALID_CHAR : string :=
  "abcdefghijklmnopqrstuvwxyzABCDEFGHIJKLMNOPQRSTUVWXYZ0123456789_-:".

Definition _valid_name (s : string) : bool := PyStr.all_in _VALID_CHAR s.

(** The counter field [start_scan] appends to the scan name. *)
Definition counter_field : string := "_{0:06d}".

(** Property [investigation]: [self.config.get('investigation')]. *)
Definition investigation (m : manager) : pyval :=
  default PNone (config m !! "investigation").

(** Property [experiment]: [self.config['experiment']]. *)
Definition experiment (m : manager) : result pyval :=
  match config m !! "experiment" with
  | Some v => Ok v
  | None => Raise KeyError
  end.

(** Property [base_path]: [self.config['data_path']]. *)
Definition base_path (m : manager) : result pyval :=
  match config m !! "data_path" with
  | Some v => Ok v
  | None => Raise KeyError
  end.

(** Property [path]. *)
Definition path (m : manager) : result string :=
  match experiment m with
  | Raise e => Raise e
  | Ok ex =>
      let inv := investigation m in
      if (is_none ex || is_none inv)%bool then Raise RuntimeError
      else match as_str inv, as_str ex with
           | Ok i, Ok x => Ok (PyStr.os_path_join i [x])
           | _, _ => Raise TypeError
           end
  end.

(** Property [scan_name]. *)
Definition scan_name (m : manager) : option string :=
  if _running m then _scan_name m else None.

(** Property [scan_path]: [None] when no scan is running. *)
Definition scan_path (m : manager) : result (option string) :=
  if negb (_running m) then Ok None
  else match path m with
       | Raise e => Raise e
       | Ok p =>
           match scan_name m with
           | Some n => Ok (Some (PyStr.os_path_join p [n]))
           | None => Raise TypeError
           end
       end.

(** [_check_path]: makes sure the experiment directory exists; only a
    [RuntimeError] (experiment or investigation unset) is swallowed. *)
Definition _check_path (m : manager) : outcome manager unit :=
  match base_path m with
  | Raise e => Throw e m
  | Ok bp =>
      match path m with
      | Raise RuntimeError => Return tt m
      | Raise e => Throw e m
      | Ok p =>
          match as_str bp with
          | Raise e => Throw e m
          | Ok b =>
              let full_path := PyStr.os_path_join b [p] in
              Return tt (with_dirs ({[full_path]} ∪ dirs m) m)
          end
      end
  end.

(** Setter of [investigation]. *)
Definition set_investigation (v : option string) (m : manager) : outcome manager unit :=
  match v with
  | None => Throw RuntimeError m
  | Some v =>
      if _running m then Throw RuntimeError m
      else if negb (_valid_name v) then Throw RuntimeError m
      else Return tt (with_config (<["experiment" := PNone]>
                                     (<["investigation" := PStr v]> (config m))) m)
  end.

(** Setter of [experiment]. *)
Definition set_experiment (v : option string) (m : manager) : outcome manager unit :=
  match v with
  | None => Throw RuntimeError m
  | Some v =>
      if _running m then Throw RuntimeError m
      else if is_none (investigation m) then Throw RuntimeError m
      else if negb (_valid_name v) then Throw RuntimeError m
      else _check_path (with_config (<["experiment" := PStr v]> (config m)) m)
  end.

(** [next_prefix]. *)
Definition next_prefix (m : manager) : outcome manager string :=
  if negb (_running m) then Throw RuntimeError m
  else match _base_file_name m with
       | None => Throw AttributeError m
       | Some b =>
           match PyStr.format b (counter m) with
           | Raise e => Throw e m
           | Ok prefix => Return prefix (with_counter (counter m + 1) m)
           end
       end.

(** [get_counter]. *)
Definition get_counter (m : manager) : Z := counter m.

(** [start_scan(label, localmeta)]. The three readings of the outside
    world are arguments: [ns] is what [next_scan()] returned (the
    directory listing itself is not modelled), [today] the date text
    and [start_time] the time stamp. *)
Definition start_scan (ns : option Z) (today : string) (start_time : pyval)
    (label : option string) (localmeta : option dict) (m : manager)
  : outcome manager dict :=
  if _running m then Throw RuntimeError m
  else
    let m1 := mkManager (config m) (_running m) (_scan_name m) (_label m)
                (_base_file_name m) (Assigned ns) (counter m) (scan_info m)
                (last_scan_info m) (dirs m) in
    match ns with
    | None => Throw TypeError m1
    | Some n =>
        let scan_name0 := PyStr.zero_pad 6 n +:+ "_" +:+ today in
        let scan_name :=
          match label with
          | Some l => scan_name0 +:+ "_" +:+ l
          | None => scan_name0
          end in
        let m2 := mkManager (config m) true (Some scan_name) label
                    (Some (scan_name +:+ counter_field)) (Assigned ns) 0 (scan_info m)
                    (last_scan_info m) (dirs m) in
        match base_path m2 with
        | Raise e => Throw e m2
        | Ok bp =>
            match path m2 with
            | Raise e => Throw e m2
            | Ok p =>
                match as_str bp with
                | Raise e => Throw e m2
                | Ok b =>
                    let m3 := with_dirs ({[PyStr.os_path_join b [p; scan_name]]} ∪ dirs m2) m2 in
                    let info : dict :=
                      <["scan_number" := PInt n]>
                        (<["scan_name" := PStr scan_name]>
                          (<["investigation" := investigation m3]>
                            (<["experiment" := default PNone (config m3 !! "experiment")]>
                              (<["path" := PStr p]>
                                (<["start_time" := start_time]> ∅))))) in
                    match localmeta with
                    | None => Throw TypeError m3
                    | Some lm =>
                        let info' := dict_update info lm in
                        Return info'
                          (mkManager (config m3) (_running m3) (_scan_name m3) (_label m3)
                             (_base_file_name m3) (_scan_number m3) (counter m3) info'
                             (last_scan_info m3) (dirs m3))
                    end
                end
            end
        end
    end.

End Manager.

(* ===================================================================== *)
(** ** [lclib/camera.py]: class [CameraBase]                               *)
(* ===================================================================== *)

Module Camera.

(** Raw frame data. *)
Definition frame := list N.

(** State of the thread behind [loop_future]. *)
Inductive thread : Type := Alive | Finished.

(** [self.config]: the keys the modelled methods read or write.
    [settings_exposure_time] is [config['settings']['exposure_time']]. *)
Record camconfig : Type := mkConfig {
  do_save : bool;
  file_format : string;
  do_broadcast : bool;
  magnification : float;
  counter : Z;
  save_mode : string;
  roll_fps : float;
  save_path : option string;
  file_prefix : option string;
  settings_exposure_time : float;
  settings_exposure_number : Z
}.

Definition cfg_with_file_format (v : string) (g : camconfig) : camconfig :=
  let 'mkConfig do_save file_format do_broadcast magnification counter save_mode
      roll_fps save_path file_prefix settings_exposure_time settings_exposure_number := g in
  mkConfig do_save v do_broadcast magnification counter save_mode roll_fps save_path
      file_prefix settings_exposure_time settings_exposure_number.

Definition cfg_with_do_broadcast (v : bool) (g : camconfig) : camconfig :=
  let 'mkConfig do_save file_format do_broadcast magnification counter save_mode
      roll_fps save_path file_prefix settings_exposure_time settings_exposure_number := g in
  mkConfig do_save file_format v magnification counter save_mode roll_fps save_path
      file_prefix settings_exposure_time settings_exposure_number.

Definition cfg_with_counter (v : Z) (g : camconfig) : camconfig :=
  let 'mkConfig do_save file_format do_broadcast magnification counter save_mode
      roll_fps save_path file_prefix settings_exposure_time settings_exposure_number := g in
  mkConfig do_save file_format do_broadcast magnification v save_mode roll_fps save_path
      file_prefix settings_exposure_time settings_exposure_number.

Definition cfg_with_save_mode (v : string) (g : camconfig) : camconfig :=
  let 'mkConfig do_save file_format do_broadcast magnification counter save_mode
      roll_fps save_path file_prefix settings_exposure_time settings_exposure_number := g in
  mkConfig do_save file_format do_broadcast magnification counter v roll_fps save_path
      file_prefix settings_exposure_time settings_exposure_number.

Definition cfg_with_roll_fps (v : float) (g : camconfig) : camconfig :=
  let 'mkConfig do_save file_format do_broadcast magnification counter save_mode
      roll_fps save_path file_prefix settings_exposure_time settings_exposure_number := g in
  mkConfig do_save file_format do_broadcast magnification counter save_mode v save_path
      file_prefix settings_exposure_time settings_exposure_number.

Definition cfg_with_save_path (v : option string) (g : camconfig) : camconfig :=
  let 'mkConfig do_save file_format do_broadcast magnification counter save_mode
      roll_fps save_path file_prefix settings_exposure_time settings_exposure_number := g in
  mkConfig do_save file_format do_broadcast magnification counter save_mode roll_fps v
      file_prefix settings_exposure_time settings_exposure_number.

Definition cfg_with_file_prefix (v : option string) (g : camconfig) : camconfig :=
  let 'mkConfig do_save file_format do_broadcast magnification counter save_mode
      roll_fps save_path file_prefix settings_exposure_time settings_exposure_number := g in
  mkConfig do_save file_format do_broadcast magnification counter save_mode roll_fps
      save_path v settings_exposure_time settings_exposure_number.

Definition cfg_with_settings_exposure_time (v : float) (g : camconfig) : camconfig :=
  let 'mkConfig do_save file_format do_broadcast magnification counter save_mode
      roll_fps save_path file_prefix settings_exposure_time settings_exposure_number := g in
  mkConfig do_save file_format do_broadcast magnification counter save_mode roll_fps
      save_path file_prefix v settings_exposure_number.

Definition cfg_with_settings_exposure_number (v : Z) (g : camconfig) : camconfig :=
  let 'mkConfig do_save file_format do_broadcast magnification counter save_mode
      roll_fps save_path file_prefix settings_exposure_time settings_exposure_number := g in
  mkConfig do_save file_format do_broadcast magnification counter save_mode roll_fps
      save_path file_prefix settings_exposure_time v.

(** The invariant of the configuration: the two validated entries. *)
Definition config_ok (g : camconfig) : Prop :=
  save_mode g ∈ ["ram"; "append"; "single"] /\ file_format g ∈ ["hdf5"; "tiff"].

(** Two configurations that differ at most in the recorded exposure
    settings. *)
Definition same_config_but_exposure (g g' : camconfig) : Prop :=
  do_save g' = do_save g /\ file_format g' = file_format g
  /\ do_broadcast g' = do_broadcast g /\ magnification g' = magnification g
  /\ counter g' = counter g /\ save_mode g' = save_mode g
  /\ roll_fps g' = roll_fps g /\ save_path g' = save_path g
  /\ file_prefix g' = file_prefix g.

(** The attributes of a camera object. [exposure_time] and
    [exposure_number] are the device registers behind the abstract
    [_get_exposure_*] and [_set_exposure_*]; the [threading.Event]s are
    booleans; [metadata] and [localmeta] refer to dictionaries of [heap];
    [ntrig] counts the calls of [_trigger]. *)
Record camera : Type := mkCamera {
  name : string;
  BASE_PATH : string;
  MAX_FPS : float;
  config : camconfig;
  exposure_time : float;
  exposure_number : Z;
  armed : bool;
  closing : bool;
  rolling : bool;
  auto_armed : bool;
  filename : option string;
  end_acquisition : bool;
  _scan_path : option string;
  abort_flag : bool;
  enqueue_lock : bool;
  _exposure_time_before_roll : option float;
  _exposure_number_before_roll : option Z;
  metadata : loc;
  localmeta : loc;
  heap : gmap loc dict;
  do_acquire : bool;
  acquire_done : bool;
  frame_queue_empty_flag : bool;
  stop_rolling_flag : bool;
  frame_queue : list (frame * loc);
  loop_future : option thread;
  ntrig : nat
}.

Definition with_config (v : camconfig) (c : camera) : camera :=
  let 'mkCamera name BASE_PATH MAX_FPS config exposure_time exposure_number armed
      closing rolling auto_armed filename end_acquisition _scan_path abort_flag
      enqueue_lock _exposure_time_before_roll _exposure_number_before_roll metadata
      localmeta heap do_acquire acquire_done frame_queue_empty_flag stop_rolling_flag
      frame_queue loop_future ntrig := c in
  mkCamera name BASE_PATH MAX_FPS v exposure_time exposure_number armed closing rolling
      auto_armed filename end_acquisition _scan_path abort_flag enqueue_lock
      _exposure_time_before_roll _exposure_number_before_roll metadata localmeta heap
      do_acquire acquire_done frame_queue_empty_flag stop_rolling_flag frame_queue
      loop_future ntrig.

Definition with_exposure_time (v : float) (c : camera) : camera :=
  let 'mkCamera name BASE_PATH MAX_FPS config exposure_time exposure_number armed
      closing rolling auto_armed filename end_acquisition _scan_path abort_flag
      enqueue_lock _exposure_time_before_roll _exposure_number_before_roll metadata
      localmeta heap do_acquire acquire_done frame_queue_empty_flag stop_rolling_flag
      frame_queue loop_future ntrig := c in
  mkCamera name BASE_PATH MAX_FPS config v exposure_number armed closing rolling
      auto_armed filename end_acquisition _scan_path abort_flag enqueue_lock
      _exposure_time_before_roll _exposure_number_before_roll metadata localmeta heap
      do_acquire acquire_done frame_queue_empty_flag stop_rolling_flag frame_queue
      loop_future ntrig.

Definition with_exposure_number (v : Z) (c : camera) : camera :=
  let 'mkCamera name BASE_PATH MAX_FPS config exposure_time exposure_number armed
      closing rolling auto_armed filename end_acquisition _scan_path abort_flag
      enqueue_lock _exposure_time_before_roll _exposure_number_before_roll metadata
      localmeta heap do_acquire acquire_done frame_queue_empty_flag stop_rolling_flag
      frame_queue loop_future ntrig := c in
  mkCamera name BASE_PATH MAX_FPS config exposure_time v armed closing rolling
      auto_armed filename end_acquisition _scan_path abort_flag enqueue_lock
      _exposure_time_before_roll _exposure_number_before_roll metadata localmeta heap
      do_acquire acquire_done frame_queue_empty_flag stop_rolling_flag frame_queue
      loop_future ntrig.

Definition with_armed (v : bool) (c : camera) : camera :=
  let 'mkCamera name BASE_PATH MAX_FPS config exposure_time exposure_number armed
      closing rolling auto_armed filename end_acquisition _scan_path abort_flag
      enqueue_lock _exposure_time_before_roll _exposure_number_before_roll metadata
      localmeta heap do_acquire acquire_done frame_queue_empty_flag stop_rolling_flag
      frame_queue loop_future ntrig := c in
  mkCamera name BASE_PATH MAX_FPS config exposure_time exposure_number v closing rolling
      auto_armed filename end_acquisition _scan_path abort_flag enqueue_lock
      _exposure_time_before_roll _exposure_number_before_roll metadata localmeta heap
      do_acquire acquire_done frame_queue_empty_flag stop_rolling_flag frame_queue
      loop_future ntrig.

Definition with_rolling (v : bool) (c : camera) : camera :=
  let 'mkCamera name BASE_PATH MAX_FPS config exposure_time exposure_number armed
      closing rolling auto_armed filename end_acquisition _scan_path abort_flag
      enqueue_lock _exposure_time_before_roll _exposure_number_before_roll metadata
      localmeta heap do_acquire acquire_done frame_queue_empty_flag stop_rolling_flag
      frame_queue loop_future ntrig := c in
  mkCamera name BASE_PATH MAX_FPS config exposure_time exposure_number armed closing v
      auto_armed filename end_acquisition _scan_path abort_flag enqueue_lock
      _exposure_time_before_roll _exposure_number_before_roll metadata localmeta heap
      do_acquire acquire_done frame_queue_empty_flag stop_rolling_flag frame_queue
      loop_future ntrig.

Definition with_auto_armed (v : bool) (c : camera) : camera :=
  let 'mkCamera name BASE_PATH MAX_FPS config exposure_time exposure_number armed
      closing rolling auto_armed filename end_acquisition _scan_path abort_flag
      enqueue_lock _exposure_time_before_roll _exposure_number_before_roll metadata
      localmeta heap do_acquire acquire_done frame_queue_empty_flag stop_rolling_flag
      frame_queue loop_future ntrig := c in
  mkCamera name BASE_PATH MAX_FPS config exposure_time exposure_number armed closing
      rolling v filename end_acquisition _scan_path abort_flag enqueue_lock
      _exposure_time_before_roll _exposure_number_before_roll metadata localmeta heap
      do_acquire acquire_done frame_queue_empty_flag stop_rolling_flag frame_queue
      loop_future ntrig.

Definition with_filename (v : option string) (c : camera) : camera :=
  let 'mkCamera name BASE_PATH MAX_FPS config exposure_time exposure_number armed
      closing rolling auto_armed filename end_acquisition _scan_path abort_flag
      enqueue_lock _exposure_time_before_roll _exposure_number_before_roll metadata
      localmeta heap do_acquire acquire_done frame_queue_empty_flag stop_rolling_flag
      frame_queue loop_future ntrig := c in
  mkCamera name BASE_PATH MAX_FPS config exposure_time exposure_number armed closing
      rolling auto_armed v end_acquisition _scan_path abort_flag enqueue_lock
      _exposure_time_before_roll _exposure_number_before_roll metadata localmeta heap
      do_acquire acquire_done frame_queue_empty_flag stop_rolling_flag frame_queue
      loop_future ntrig.

Definition with_end_acquisition (v : bool) (c : camera) : camera :=
  let 'mkCamera name BASE_PATH MAX_FPS config exposure_time exposure_number armed
      closing rolling auto_armed filename end_acquisition _scan_path abort_flag
      enqueue_lock _exposure_time_before_roll _exposure_number_before_roll metadata
      localmeta heap do_acquire acquire_done frame_queue_empty_flag stop_rolling_flag
      frame_queue loop_future ntrig := c in
  mkCamera name BASE_PATH MAX_FPS config exposure_time exposure_number armed closing
      rolling auto_armed filename v _scan_path abort_flag enqueue_lock
      _exposure_time_before_roll _exposure_number_before_roll metadata localmeta heap
      do_acquire acquire_done frame_queue_empty_flag stop_rolling_flag frame_queue
      loop_future ntrig.

Definition with_scan_path (v : option string) (c : camera) : camera :=
  let 'mkCamera name BASE_PATH MAX_FPS config exposure_time exposure_number armed
      closing rolling auto_armed filename end_acquisition _scan_path abort_flag
      enqueue_lock _exposure_time_before_roll _exposure_number_before_roll metadata
      localmeta heap do_acquire acquire_done frame_queue_empty_flag stop_rolling_flag
      frame_queue loop_future ntrig := c in
  mkCamera name BASE_PATH MAX_FPS config exposure_time exposure_number armed closing
      rolling auto_armed filename end_acquisition v abort_flag enqueue_lock
      _exposure_time_before_roll _exposure_number_before_roll metadata localmeta heap
      do_acquire acquire_done frame_queue_empty_flag stop_rolling_flag frame_queue
      loop_future ntrig.

Definition with_abort_flag (v : bool) (c : camera) : camera :=
  let 'mkCamera name BASE_PATH MAX_FPS config exposure_time exposure_number armed
      closing rolling auto_armed filename end_acquisition _scan_path abort_flag
      enqueue_lock _exposure_time_before_roll _exposure_number_before_roll metadata
      localmeta heap do_acquire acquire_done frame_queue_empty_flag stop_rolling_flag
      frame_queue loop_future ntrig := c in
  mkCamera name BASE_PATH MAX_FPS config exposure_time exposure_number armed closing
      rolling auto_armed filename end_acquisition _scan_path v enqueue_lock
      _exposure_time_before_roll _exposure_number_before_roll metadata localmeta heap
      do_acquire acquire_done frame_queue_empty_flag stop_rolling_flag frame_queue
      loop_future ntrig.

Definition with_enqueue_lock (v : bool) (c : camera) : camera :=
  let 'mkCamera name BASE_PATH MAX_FPS config exposure_time exposure_number armed
      closing rolling auto_armed filename end_acquisition _scan_path abort_flag
      enqueue_lock _exposure_time_before_roll _exposure_number_before_roll metadata
      localmeta heap do_acquire acquire_done frame_queue_empty_flag stop_rolling_flag
      frame_queue loop_future ntrig := c in
  mkCamera name BASE_PATH MAX_FPS config exposure_time exposure_number armed closing
      rolling auto_armed filename end_acquisition _scan_path abort_flag v
      _exposure_time_before_roll _exposure_number_before_roll metadata localmeta heap
      do_acquire acquire_done frame_queue_empty_flag stop_rolling_flag frame_queue
      loop_future ntrig.

Definition with_exposure_time_before_roll (v : option float) (c : camera) : camera :=
  let 'mkCamera name BASE_PATH MAX_FPS config exposure_time exposure_number armed
      closing rolling auto_armed filename end_acquisition _scan_path abort_flag
      enqueue_lock _exposure_time_before_roll _exposure_number_before_roll metadata
      localmeta heap do_acquire acquire_done frame_queue_empty_flag stop_rolling_flag
      frame_queue loop_future ntrig := c in
  mkCamera name BASE_PATH MAX_FPS config exposure_time exposure_number armed closing
      rolling auto_armed filename end_acquisition _scan_path abort_flag enqueue_lock v
      _exposure_number_before_roll metadata localmeta heap do_acquire acquire_done
      frame_queue_empty_flag stop_rolling_flag frame_queue loop_future ntrig.

Definition with_exposure_number_before_roll (v : option Z) (c : camera) : camera :=
  let 'mkCamera name BASE_PATH MAX_FPS config exposure_time exposure_number armed
      closing rolling auto_armed filename end_acquisition _scan_path abort_flag
      enqueue_lock _exposure_time_before_roll _exposure_number_before_roll metadata
      localmeta heap do_acquire acquire_done frame_queue_empty_flag stop_rolling_flag
      frame_queue loop_future ntrig := c in
  mkCamera name BASE_PATH MAX_FPS config exposure_time exposure_number armed closing
      rolling auto_armed filename end_acquisition _scan_path abort_flag enqueue_lock
      _exposure_time_before_roll v metadata localmeta heap do_acquire acquire_done
      frame_queue_empty_flag stop_rolling_flag frame_queue loop_future ntrig.

Definition with_metadata (v : loc) (c : camera) : camera :=
  let 'mkCamera name BASE_PATH MAX_FPS config exposure_time exposure_number armed
      closing rolling auto_armed filename end_acquisition _scan_path abort_flag
      enqueue_lock _exposure_time_before_roll _exposure_number_before_roll metadata
      localmeta heap do_acquire acquire_done frame_queue_empty_flag stop_rolling_flag
      frame_queue loop_future ntrig := c in
  mkCamera name BASE_PATH MAX_FPS config exposure_time exposure_number armed closing
      rolling auto_armed filename end_acquisition _scan_path abort_flag enqueue_lock
      _exposure_time_before_roll _exposure_number_before_roll v localmeta heap
      do_acquire acquire_done frame_queue_empty_flag stop_rolling_flag frame_queue
      loop_future ntrig.

Definition with_localmeta (v : loc) (c : camera) : camera :=
  let 'mkCamera name BASE_PATH MAX_FPS config exposure_time exposure_number armed
      closing rolling auto_armed filename end_acquisition _scan_path abort_flag
      enqueue_lock _exposure_time_before_roll _exposure_number_before_roll metadata
      localmeta heap do_acquire acquire_done frame_queue_empty_flag stop_rolling_flag
      frame_queue loop_future ntrig := c in
  mkCamera name BASE_PATH MAX_FPS config exposure_time exposure_number armed closing
      rolling auto_armed filename end_acquisition _scan_path abort_flag enqueue_lock
      _exposure_time_before_roll _exposure_number_before_roll metadata v heap do_acquire
      acquire_done frame_queue_empty_flag stop_rolling_flag frame_queue loop_future
      ntrig.

Definition with_heap (v : gmap loc dict) (c : camera) : camera :=
  let 'mkCamera name BASE_PATH MAX_FPS config exposure_time exposure_number armed
      closing rolling auto_armed filename end_acquisition _scan_path abort_flag
      enqueue_lock _exposure_time_before_roll _exposure_number_before_roll metadata
      localmeta heap do_acquire acquire_done frame_queue_empty_flag stop_rolling_flag
      frame_queue loop_future ntrig := c in
  mkCamera name BASE_PATH MAX_FPS config exposure_time exposure_number armed closing
      rolling auto_armed filename end_acquisition _scan_path abort_flag enqueue_lock
      _exposure_time_before_roll _exposure_number_before_roll metadata localmeta v
      do_acquire acquire_done frame_queue_empty_flag stop_rolling_flag frame_queue
      loop_future ntrig.

Definition with_do_acquire (v : bool) (c : camera) : camera :=
  let 'mkCamera name BASE_PATH MAX_FPS config exposure_time exposure_number armed
      closing rolling auto_armed filename end_acquisition _scan_path abort_flag
      enqueue_lock _exposure_time_before_roll _exposure_number_before_roll metadata
      localmeta heap do_acquire acquire_done frame_queue_empty_flag stop_rolling_flag
      frame_queue loop_future ntrig := c in
  mkCamera name BASE_PATH MAX_FPS config exposure_time exposure_number armed closing
      rolling auto_armed filename end_acquisition _scan_path abort_flag enqueue_lock
      _exposure_time_before_roll _exposure_number_before_roll metadata localmeta heap v
      acquire_done frame_queue_empty_flag stop_rolling_flag frame_queue loop_future
      ntrig.

Definition with_acquire_done (v : bool) (c : camera) : camera :=
  let 'mkCamera name BASE_PATH MAX_FPS config exposure_time exposure_number armed
      closing rolling auto_armed filename end_acquisition _scan_path abort_flag
      enqueue_lock _exposure_time_before_roll _exposure_number_before_roll metadata
      localmeta heap do_acquire acquire_done frame_queue_empty_flag stop_rolling_flag
      frame_queue loop_future ntrig := c in
  mkCamera name BASE_PATH MAX_FPS config exposure_time exposure_number armed closing
      rolling auto_armed filename end_acquisition _scan_path abort_flag enqueue_lock
      _exposure_time_before_roll _exposure_number_before_roll metadata localmeta heap
      do_acquire v frame_queue_empty_flag stop_rolling_flag frame_queue loop_future
      ntrig.

Definition with_frame_queue_empty_flag (v : bool) (c : camera) : camera :=
  let 'mkCamera name BASE_PATH MAX_FPS config exposure_time exposure_number armed
      closing rolling auto_armed filename end_acquisition _scan_path abort_flag
      enqueue_lock _exposure_time_before_roll _exposure_number_before_roll metadata
      localmeta heap do_acquire acquire_done frame_queue_empty_flag stop_rolling_flag
      frame_queue loop_future ntrig := c in
  mkCamera name BASE_PATH MAX_FPS config exposure_time exposure_number armed closing
      rolling auto_armed filename end_acquisition _scan_path abort_flag enqueue_lock
      _exposure_time_before_roll _exposure_number_before_roll metadata localmeta heap
      do_acquire acquire_done v stop_rolling_flag frame_queue loop_future ntrig.

Definition with_stop_rolling_flag (v : bool) (c : camera) : camera :=
  let 'mkCamera name BASE_PATH MAX_FPS config exposure_time exposure_number armed
      closing rolling auto_armed filename end_acquisition _scan_path abort_flag
      enqueue_lock _exposure_time_before_roll _exposure_number_before_roll metadata
      localmeta heap do_acquire acquire_done frame_queue_empty_flag stop_rolling_flag
      frame_queue loop_future ntrig := c in
  mkCamera name BASE_PATH MAX_FPS config exposure_time exposure_number armed closing
      rolling auto_armed filename end_acquisition _scan_path abort_flag enqueue_lock
      _exposure_time_before_roll _exposure_number_before_roll metadata localmeta heap
      do_acquire acquire_done frame_queue_empty_flag v frame_queue loop_future ntrig.

Definition with_frame_queue (v : list (frame * loc)) (c : camera) : camera :=
  let 'mkCamera name BASE_PATH MAX_FPS config exposure_time exposure_number armed
      closing rolling auto_armed filename end_acquisition _scan_path abort_flag
      enqueue_lock _exposure_time_before_roll _exposure_number_before_roll metadata
      localmeta heap do_acquire acquire_done frame_queue_empty_flag stop_rolling_flag
      frame_queue loop_future ntrig := c in
  mkCamera name BASE_PATH MAX_FPS config exposure_time exposure_number armed closing
      rolling auto_armed filename end_acquisition _scan_path abort_flag enqueue_lock
      _exposure_time_before_roll _exposure_number_before_roll metadata localmeta heap
      do_acquire acquire_done frame_queue_empty_flag stop_rolling_flag v loop_future
      ntrig.

Definition with_loop_future (v : option thread) (c : camera) : camera :=
  let 'mkCamera name BASE_PATH MAX_FPS config exposure_time exposure_number armed
      closing rolling auto_armed filename end_acquisition _scan_path abort_flag
      enqueue_lock _exposure_time_before_roll _exposure_number_before_roll metadata
      localmeta heap do_acquire acquire_done frame_queue_empty_flag stop_rolling_flag
      frame_queue loop_future ntrig := c in
  mkCamera name BASE_PATH MAX_FPS config exposure_time exposure_number armed closing
      rolling auto_armed filename end_acquisition _scan_path abort_flag enqueue_lock
      _exposure_time_before_roll _exposure_number_before_roll metadata localmeta heap
      do_acquire acquire_done frame_queue_empty_flag stop_rolling_flag frame_queue v
      ntrig.

Definition with_ntrig (v : nat) (c : camera) : camera :=
  let 'mkCamera name BASE_PATH MAX_FPS config exposure_time exposure_number armed
      closing rolling auto_armed filename end_acquisition _scan_path abort_flag
      enqueue_lock _exposure_time_before_roll _exposure_number_before_roll metadata
      localmeta heap do_acquire acquire_done frame_queue_empty_flag stop_rolling_flag
      frame_queue loop_future ntrig := c in
  mkCamera name BASE_PATH MAX_FPS config exposure_time exposure_number armed closing
      rolling auto_armed filename end_acquisition _scan_path abort_flag enqueue_lock
      _exposure_time_before_roll _exposure_number_before_roll metadata localmeta heap
      do_acquire acquire_done frame_queue_empty_flag stop_rolling_flag frame_queue
      loop_future v.

(** What the camera does to its collaborators and its log, in program
    order. Debug and info messages are not recorded. *)
Inductive level : Type := Warning | Error | Exception.

Inductive event : Type :=
  | Log (lvl : level) (msg : string)
  | LogFpsTooHigh (fps max_fps : float)   (* logger.warning(f'Requested FPS ({fps}) is
                                             higher than the maximum allowed value
                                             ({self.MAX_FPS}).') *)
  | FileOpen (fname : option string)      (* file_writer.open(filename=...) *)
  | FileClose (fname : option string)     (* file_writer.close(filename=...) *)
  | FileSetMode (mode : string)           (* file_writer.set_mode(mode) *)
  | StreamerOn                            (* frame_streamer.on() *)
  | StreamerOff                           (* frame_streamer.off() *)
  | HookArm                               (* self._arm() *)
  | HookDisarm                            (* self._disarm() *)
  | HookRearm                             (* self._rearm() *)
  | TriggerCalled                         (* self._trigger() entered *)
  | TriggerReturned                       (* self._trigger() returned *)
  | TriggerRaised (e : exn)               (* self._trigger() raised *)
  | AcquireDoneSet                        (* self.acquire_done.set() *)
  | RollOffCalled                         (* self.roll_off() entered *)
  | ThreadStarted.                        (* Future(self.acquisition_loop) *)

(** The camera, the manager [manager.getManager()] gives ([None] when
    not connected), and the events so far. *)
Record world : Type := mkWorld {
  cam : camera;
  man : option Manager.manager;
  trace : list event
}.

Definition M (A : Type) : Type := world -> outcome world A.

Definition ret {A} (a : A) : M A := fun w => Return a w.

Definition bind {A B} (m : M A) (k : A -> M B) : M B :=
  fun w =>
    match m w with
    | Return a w' => k a w'
    | Throw e w' => Throw e w'
    | Blocked w' => Blocked w'
    end.

Declare Scope cam_scope.
Delimit Scope cam_scope with cam.
Notation "x <- m ;; k" := (bind m (fun x => k))
  (at level 20, m at level 99, k at level 200, only parsing) : cam_scope.
Notation "m ;;; k" := (bind m (fun _ => k))
  (at level 100, k at level 200, right associativity, only parsing) : cam_scope.
Local Open Scope cam_scope.

Definition get : M camera := fun w => Return (cam w) w.
Definition get_manager : M (option Manager.manager) := fun w => Return (man w) w.
Definition modify (f : camera -> camera) : M unit :=
  fun w => Return tt (mkWorld (f (cam w)) (man w) (trace w)).
Definition emit (e : event) : M unit :=
  fun w => Return tt (mkWorld (cam w) (man w) (trace w ++ [e])).
Definition raise {A} (e : exn) : M A := fun w => Throw e w.
Definition blocked {A} : M A := fun w => Blocked w.
Definition lift {A} (r : result A) : M A :=
  match r with Ok a => ret a | Raise e => raise e end.
Definition when (b : bool) (m : M unit) : M unit := if b then m else ret tt.

(** [try: m  except <classes selected by h>: ...]. *)
Definition try_except {A} (m : M A) (h : exn -> option (M A)) : M A :=
  fun w =>
    match m w with
    | Throw e w' => match h e with Some k => k w' | None => Throw e w' end
    | r => r
    end.

(** Truth value of an optional number: [None] and zero are false (a
    float is false when it equals [0.0], so [-0.0] is and a NaN is not). *)
Definition truthy_float (q : option float) : bool :=
  match q with Some x => negb (x =? 0)%float | None => false end.
Definition truthy_Z (z : option Z) : bool :=
  match z with Some x => negb (x =? 0)%Z | None => false end.

(** Setters of the properties [exposure_time] and [exposure_number]. *)
Definition set_exposure_time (v : float) : M unit :=
  modify (fun c => with_config (cfg_with_settings_exposure_time v (config c))
                     (with_exposure_time v c)).

Definition set_exposure_number (v : Z) : M unit :=
  modify (fun c => with_config (cfg_with_settings_exposure_number v (config c))
                     (with_exposure_number v c)).

(** Setter of the property [counter], and [reset_counter]. *)
Definition set_counter (v : Z) : M unit :=
  modify (fun c => with_config (cfg_with_counter v (config c)) c).

Definition reset_counter (value : Z) : M unit := set_counter value.

(** [live_on] and [live_off]. *)
Definition live_on : M unit :=
  emit StreamerOn ;;;
  modify (fun c => with_config (cfg_with_do_broadcast true (config c)) c).

Definition live_off : M unit :=
  emit StreamerOff ;;;
  modify (fun c => with_config (cfg_with_do_broadcast false (config c)) c).

Definition is_live (c : camera) : bool := do_broadcast (config c).

(** Setter of [save_mode]. *)
Definition set_save_mode (mode : string) : M unit :=
  let mode := PyStr.lower mode in
  if negb (bool_decide (mode ∈ ["ram"; "append"; "single"])) then raise RuntimeError
  else
    modify (fun c => with_config (cfg_with_save_mode mode (config c)) c) ;;;
    emit (FileSetMode mode).

(** Setter of [file_format]. *)
Definition set_file_format (value : string) : M unit :=
  if bool_decide (PyStr.lower value ∈ ["h5"; "hdf"; "hdf5"]) then
    modify (fun c => with_config (cfg_with_file_format "hdf5" (config c)) c)
  else if bool_decide (PyStr.lower value ∈ ["tif"; "tiff"]) then
    modify (fun c => with_config (cfg_with_file_format "tiff" (config c)) c)
  else raise RuntimeError.

(** [_build_filename(prefix, path)]; [None] is Python's [None]. *)
Definition _build_filename (c : camera) (prefix path : option string) : result string :=
  match prefix with
  | None => Raise AttributeError
  | Some p =>
      let formatted :=
        match PyStr.format p (counter (config c)) with
        | Raise NameError => Ok p
        | r => r
        end in
      match formatted with
      | Raise e => Raise e
      | Ok prefix' =>
          match path with
          | None => Raise TypeError
          | Some d =>
              let full_file_prefix := PyStr.os_path_join (BASE_PATH c) [d; prefix'] in
              if String.eqb (file_format (config c)) "hdf5" then Ok (full_file_prefix +:+ ".h5")
              else if String.eqb (file_format (config c)) "tiff" then Ok (full_file_prefix +:+ ".tif")
              else Raise RuntimeError
          end
      end
  end.

(** The statements of [enqueue_frame] in program order, each as the
    change it makes to the object: taking the lock, the statements
    inside [with self.enqueue_lock], and the release of the lock at the
    end of the block. [c] is the camera when the call starts, from which
    the locals [metadata] and [localmeta] are read. The two fresh
    dictionaries are new objects: their locations differ from every
    allocated one and from the two bundles being detached. *)
Definition enqueue_statements (fr : frame) (meta : dict) (c : camera)
  : list (camera -> camera) :=
  let metadata_ := metadata c in
  let localmeta_ := localmeta c in
  let live : gset loc := {[metadata_; localmeta_]} ∪ dom (heap c) in
  let l1 := fresh live in
  let l2 := fresh ({[l1]} ∪ live) in
  [ with_enqueue_lock true;
    with_frame_queue_empty_flag false;
    (fun c => with_metadata l1 (with_heap (<[l1 := ∅]> (heap c)) c));
    (fun c => with_localmeta l2 (with_heap (<[l2 := ∅]> (heap c)) c));
    (fun c => with_heap
                (<[localmeta_ := dict_update (heap c !!! localmeta_) meta]> (heap c)) c);
    (fun c => with_heap
                (<[metadata_ := <[PyStr.lower (name c) := PRef localmeta_]>
                                  (heap c !!! metadata_)]> (heap c)) c);
    (fun c => with_frame_queue (frame_queue c ++ [(fr, metadata_)]) c);
    with_enqueue_lock false ].

Fixpoint run_statements (l : list (camera -> camera)) : M unit :=
  match l with
  | [] => ret tt
  | f :: r => modify f ;;; run_statements r
  end.

(** [enqueue_frame(frame, meta)]: a caller that finds the lock taken
    waits; otherwise the statements run. *)
Definition enqueue_frame (fr : frame) (meta : dict) : M unit :=
  c <- get ;;
  if enqueue_lock c then blocked
  else run_statements (enqueue_statements fr meta c).

(** The object in the course of a call of [enqueue_frame] that found the
    lock free: its first [n] statements have run. *)
Definition enqueue_frame_after (n : nat) (fr : frame) (meta : dict) (w : world) : world :=
  state_of (run_statements (take n (enqueue_statements fr meta (cam w))) w).

Fixpoint enqueue_all (l : list (frame * dict)) : M unit :=
  match l with
  | [] => ret tt
  | (fr, meta) :: r => enqueue_frame fr meta ;;; enqueue_all r
  end.

(** What one call of the device-specific [_trigger] does: the frames it
    reads out and enqueues, and the exception it ends with, if any. *)
Record trigger_outcome : Type := mkTrigger {
  frames : list (frame * dict);
  raises : option exn
}.

Section Device.

(** The device: its [n]-th [_trigger] call. *)
Variable _trigger : nat -> trigger_outcome.

(** [Future.join] is not part of the sources: what it does when the
    acquisition thread joins itself is a parameter ([None]: it returns). *)
Variable join_current_thread : option exn.

Definition call_trigger : M unit :=
  c <- get ;;
  let t := _trigger (ntrig c) in
  emit TriggerCalled ;;;
  modify (with_ntrig (S (ntrig c))) ;;;
  enqueue_all (frames t) ;;;
  match raises t with
  | Some e => emit (TriggerRaised e) ;;; raise e
  | None => emit TriggerReturned
  end.

(** The part of [disarm] after its rolling guard; [join] is
    [self.loop_future.join()]. *)
Definition disarm_body (join : M unit) : M unit :=
  modify (with_end_acquisition true) ;;;
  try_except join
    (fun e => match e with AttributeError => Some (ret tt) | _ => None end) ;;;
  emit HookDisarm ;;;
  modify (with_armed false).

(** [roll_off], with the [self.disarm()] it calls as [disarm]. *)
Definition roll_off_with (disarm : M unit) : M unit :=
  emit RollOffCalled ;;;
  c <- get ;;
  if negb (rolling c) then ret tt
  else
    modify (with_stop_rolling_flag true) ;;;
    disarm ;;;
    modify (with_rolling false) ;;;
    c <- get ;;
    when (truthy_float (_exposure_time_before_roll c))
         (set_exposure_time (default 0%float (_exposure_time_before_roll c))) ;;;
    c <- get ;;
    when (truthy_Z (_exposure_number_before_roll c))
         (set_exposure_number (default 0%Z (_exposure_number_before_roll c))).

(** [disarm] with a given [join]; [depth] bounds the mutual recursion
    between [disarm] and [roll_off]. *)
Fixpoint disarm_with (join : M unit) (depth : nat) : M unit :=
  match depth with
  | O => blocked
  | S d =>
      c <- get ;;
      if (rolling c && negb (stop_rolling_flag c))%bool
      then roll_off_with (disarm_with join d)
      else disarm_body join
  end.

(** [self.loop_future.join()] called from the acquisition thread. *)
Definition join_self : M unit :=
  c <- get ;;
  match loop_future c with
  | None => raise AttributeError
  | Some _ => match join_current_thread with Some e => raise e | None => ret tt end
  end.

Inductive ctl : Type := Continue | Break | Idle.

(** [f'{filename}'] for a file name: [None] is printed by its name. *)
Definition str_filename (filename : option string) : string :=
  default "None" filename.

(** The warning of [acquisition_loop] about the file of a failed
    trigger. *)
Definition incomplete_file_warning (filename : option string) : string :=
  "File " +:+ str_filename filename
  +:+ " likely incomplete or corrupt because of an error in _trigger.".

(** One turn of the [while True] of [acquisition_loop]. [Idle]: the wait
    for [do_acquire] timed out and [end_acquisition] is not set. *)
Definition loop_iteration : M ctl :=
  c <- get ;;
  if negb (do_acquire c) then
    ret (if end_acquisition c then Break else Idle)
  else
    let filename_ := filename c in
    modify (with_do_acquire false) ;;;
    c <- get ;;
    when (negb (rolling c)) (emit (FileOpen filename_)) ;;;
    failed <- try_except
      (call_trigger ;;; ret false)
      (fun _ => Some (
         emit (Log Exception "Error in _trigger") ;;;
         modify (with_acquire_done true) ;;; emit AcquireDoneSet ;;;
         c <- get ;;
         (if negb (rolling c) then
            emit (Log Warning (incomplete_file_warning filename_)) ;;;
            emit (FileClose filename_)
          else roll_off_with (disarm_with join_self 2)) ;;;
         ret true)) ;;
    if failed : bool then ret Break
    else
      modify (with_acquire_done true) ;;; emit AcquireDoneSet ;;;
      c <- get ;;
      if rolling c then
        if stop_rolling_flag c then ret Break
        else modify (with_do_acquire true) ;;; ret Continue
      else
        emit (FileClose filename_) ;;;
        c <- get ;;
        if auto_armed c then ret Break
        else emit HookRearm ;;; ret Continue.

(** One turn of the acquisition thread. An exception that leaves
    [acquisition_loop] ends the thread. *)
Definition thread_turn : M ctl :=
  r <- try_except loop_iteration (fun _ => Some (ret Break)) ;;
  when (match r with Break => true | _ => false end)
       (modify (with_loop_future (Some Finished))) ;;;
  ret r.

(** The acquisition thread run to its end while its caller waits in
    [join]. An [Idle] turn repeats for ever: nothing else runs. *)
Fixpoint run_loop (fuel : nat) : M unit :=
  match fuel with
  | O => blocked
  | S k =>
      r <- thread_turn ;;
      match r with
      | Break => ret tt
      | Continue => run_loop k
      | Idle => blocked
      end
  end.

(** [self.loop_future.join()] called from outside the thread. *)
Definition join_main (fuel : nat) : M unit :=
  c <- get ;;
  match loop_future c with
  | None => raise AttributeError
  | Some Finished => ret tt
  | Some Alive => run_loop fuel
  end.

(** [self.acquire_done.wait()] in [snap]: the acquisition thread runs
    until the flag is set. *)
Fixpoint wait_acquire_done (fuel : nat) : M unit :=
  match fuel with
  | O => blocked
  | S k =>
      c <- get ;;
      if acquire_done c then ret tt
      else match loop_future c with
           | Some Alive =>
               r <- thread_turn ;;
               match r with
               | Idle => blocked
               | _ => wait_acquire_done k
               end
           | _ => blocked
           end
  end.

(** [disarm] and [roll_off] as the callers' thread runs them. *)
Definition disarm (fuel : nat) : M unit := disarm_with (join_main fuel) fuel.

Definition roll_off (fuel : nat) : M unit := roll_off_with (disarm fuel).

(** [arm(exp_time, exp_num)]. The new thread's first statement,
    [abort_flag.clear()], runs as the thread starts. *)
Definition arm (exp_time : option float) (exp_num : option Z) : M unit :=
  c <- get ;;
  if rolling c then raise RuntimeError
  else if armed c then emit (Log Warning "arm() called but camera already armed.")
  else
    match exp_time with
    | Some t => when (negb (t =? exposure_time c)%float) (set_exposure_time t)
    | None => ret tt
    end ;;;
    c <- get ;;
    match exp_num with
    | Some n => when (negb (n =? exposure_number c)%Z) (set_exposure_number n)
    | None => ret tt
    end ;;;
    modify (with_end_acquisition false) ;;;
    modify (with_acquire_done false) ;;;
    modify (with_do_acquire false) ;;;
    m <- get_manager ;;
    match m with
    | None =>
        emit (Log Error "Not connected to manager! Can't check scan path!") ;;;
        modify (with_scan_path None)
    | Some m =>
        p <- lift (Manager.scan_path m) ;;
        modify (with_scan_path p)
    end ;;;
    emit HookArm ;;;
    emit ThreadStarted ;;;
    modify (with_loop_future (Some Alive)) ;;;
    modify (with_abort_flag false) ;;;
    modify (with_armed true).

(** Property [in_scan]. *)
Definition in_scan : M bool :=
  m <- get_manager ;;
  match m with
  | None => emit (Log Error "Could not connect to manager!") ;;; ret false
  | Some m =>
      p <- lift (Manager.scan_path m) ;;
      ret (match p with Some _ => true | None => false end)
  end.

(** [man.next_prefix()] on the connected manager. *)
Definition man_next_prefix : M string :=
  fun w =>
    match man w with
    | None => Throw AttributeError w
    | Some m =>
        match Manager.next_prefix m with
        | Return p m' => Return p (mkWorld (cam w) (Some m') (trace w))
        | Throw e m' => Throw e (mkWorld (cam w) (Some m') (trace w))
        | Blocked m' => Blocked (mkWorld (cam w) (Some m') (trace w))
        end
    end.

(** [snap(exp_time, exp_num)]. *)
Definition snap (fuel : nat) (exp_time : option float) (exp_num : option Z) : M unit :=
  c <- get ;;
  if rolling c then emit (Log Warning "Cannot snap while in rolling mode.")
  else
    m <- get_manager ;;
    match m with
    | None => emit (Log Error "Not connected to manager! Can't start acquisition!")
    | Some _ =>
        modify (with_auto_armed false) ;;;
        c <- get ;;
        when (negb (armed c))
             (modify (with_auto_armed true) ;;; arm exp_time exp_num) ;;;
        scanning <- in_scan ;;
        (if scanning : bool then
           prefix <- man_next_prefix ;;
           c <- get ;;
           f <- lift (_build_filename c (Some prefix) (_scan_path c)) ;;
           modify (with_filename (Some f))
         else
           c <- get ;;
           set_counter (counter (config c) + 1) ;;;
           c <- get ;;
           f <- lift (_build_filename c (file_prefix (config c)) (save_path (config c))) ;;
           modify (with_filename (Some f))) ;;;
        modify (with_do_acquire true) ;;;
        wait_acquire_done fuel ;;;
        modify (with_acquire_done false) ;;;
        c <- get ;;
        when (auto_armed c) (disarm fuel)
    end.

(** [abort]. *)
Definition abort (fuel : nat) : M unit :=
  modify (with_abort_flag true) ;;;
  c <- get ;;
  when (rolling c) (roll_off fuel).

(** Setter of [roll_fps]; [roll_on] is the [self.roll_on] it calls.
    [value] is the number [float(value)] gives. *)
Definition set_roll_fps_with (roll_on : option float -> M unit) (value : float) : M unit :=
  c <- get ;;
  let too_fast := (MAX_FPS c <? value)%float in
  when too_fast (emit (LogFpsTooHigh value (MAX_FPS c))) ;;;
  let fps := if too_fast then MAX_FPS c else value in
  modify (fun c => with_config (cfg_with_roll_fps fps (config c)) c) ;;;
  c <- get ;;
  when (rolling c) (roll_on (Some fps)).

(** [abs(self.exposure_time - 1/fps) < .01], in binary64 arithmetic. *)
Definition close_enough (exposure_time fps : float) : bool :=
  (abs (exposure_time - 1 / fps) <? 0.01)%float.

(** [roll_on(fps)]; [fps] is a float, and a division by [0.0] or [-0.0]
    raises [ZeroDivisionError]. *)
Fixpoint roll_on (fuel : nat) (fps : option float) : M unit :=
  match fuel with
  | O => blocked
  | S k =>
      modify (with_stop_rolling_flag false) ;;;
      c <- get ;;
      if rolling c then
        match fps with
        | Some f =>
            if (f =? 0)%float then raise ZeroDivisionError
            else if close_enough (exposure_time c) f then ret tt
            else roll_off (S k) ;;; roll_on k (Some f)
        | None => ret tt
        end
      else
        fps' <- (if truthy_float fps
                 then let f := default 0%float fps in
                      set_roll_fps_with (roll_on k) f ;;; ret f
                 else ret (roll_fps (config c))) ;;
        c <- get ;;
        when (negb (is_live c)) live_on ;;;
        modify (with_filename None) ;;;
        c <- get ;;
        modify (with_exposure_time_before_roll (Some (exposure_time c))) ;;;
        (if (fps' =? 0)%float then raise ZeroDivisionError
         else set_exposure_time (1 / fps')%float) ;;;
        c <- get ;;
        modify (with_exposure_number_before_roll (Some (exposure_number c))) ;;;
        set_exposure_number 100 ;;;
        c <- get ;;
        when (negb (armed c)) (arm None None) ;;;
        modify (with_rolling true) ;;;
        modify (with_do_acquire true)
  end.

End Device.

(** The camera with its frame queue and metadata store replaced. *)
Definition store_update (h : gmap loc dict) (md lm : loc)
    (q : list (frame * loc)) (fl : bool) (c : camera) : camera :=
  with_heap h (with_metadata md (with_localmeta lm
    (with_frame_queue q (with_frame_queue_empty_flag fl c)))).

(** In a list of events, the first [b] comes after an [a]. *)
Definition precedes (a b : event) (l : list event) : Prop :=
  exists l1 l2 l3,
    l = (l1 ++ a :: l2 ++ b :: l3)%list /\ (b ∉ l1) /\ (b ∉ l2) /\ a <> b.

(** [LOCAL_DEFAULT_CONFIG]; no file prefix is set yet. *)
Definition DEFAULT_CONFIG : camconfig :=
  mkConfig true "hdf5" true 1%float 0 "append" 5%float None None 1%float 1.

(** The object [__init__] leaves: nothing armed, no thread, two empty
    metadata dictionaries. *)
Definition init (name_ base : string) : camera :=
  mkCamera name_ base 5%float DEFAULT_CONFIG 1%float 1
    false false false false None false None false false None None
    1%positive 2%positive (<[1%positive := ∅]> (<[2%positive := ∅]> ∅))
    false false false false [] None 0.

End Camera.

(* ===================================================================== *)
(** ** Text parsing: [int(str)], [str.split], [str.strip], slices         *)
(* ===================================================================== *)

Module PyParse.

(** The characters [int] skips around a number: tab, line feed, vertical
    tab, form feed, carriage return and the space. *)
Definition is_space (c : ascii) : bool :=
  let n := nat_of_ascii c in
  ((Nat.leb 9 n && Nat.leb n 13) || Nat.eqb n 32)%bool.

Fixpoint all_space (s : string) : bool :=
  match s with
  | EmptyString => true
  | String c r => (is_space c && all_space r)%bool
  end.

Fixpoint lstrip_space (s : string) : string :=
  match s with
  | EmptyString => EmptyString
  | String c r => if is_space c then lstrip_space r else s
  end.

Fixpoint all_ascii (s : string) : bool :=
  match s with
  | EmptyString => true
  | String c r => (Nat.ltb (nat_of_ascii c) 128 && all_ascii r)%bool
  end.

Definition digit_val (c : ascii) : N := N_of_ascii c - 48.

(** The text after a digit of a decimal literal: more digits, each
    possibly preceded by one underscore, then only spaces. Returns the
    value and the number of digits read. *)
Fixpoint int_body (acc : N) (n : nat) (s : string) : option (N * nat) :=
  match s with
  | EmptyString => Some (acc, n)
  | String c r =>
      if PyStr.is_digit c then int_body (10 * acc + digit_val c) (S n) r
      else if Ascii.eqb c "_"%char then
        match r with
        | String d r' =>
            if PyStr.is_digit d then int_body (10 * acc + digit_val d) (S n) r'
            else None
        | EmptyString => None
        end
      else if all_space s then Some (acc, n)
      else None
  end.

(** [sys.get_int_max_str_digits()], where the interpreter has one. *)
Definition max_str_digits : nat := 4300.

(** [int(s)] for a string. Two inputs are outside the fragment: text
    that is not ASCII, and a literal of more digits than
    [max_str_digits], which an interpreter with the limit refuses and
    one without it converts. *)
Definition py_int (s : string) : result Z :=
  if negb (all_ascii s) then Raise NotModelled
  else
    let s1 := lstrip_space s in
    let '(neg, s2) :=
      match s1 with
      | String "-"%char r => (true, r)
      | String "+"%char r => (false, r)
      | _ => (false, s1)
      end in
    match s2 with
    | EmptyString => Raise ValueError
    | String c r =>
        if PyStr.is_digit c then
          match int_body (digit_val c) 1 r with
          | Some (v, n) =>
              if Nat.ltb max_str_digits n then Raise NotModelled
              else Ok (if neg : bool then - Z.of_N v else Z.of_N v)
          | None => Raise ValueError
          end
        else Raise ValueError
    end.

(** [s[:n]] and [s[n:]]. *)
Fixpoint take (n : nat) (s : string) : string :=
  match n, s with
  | S k, String c r => String c (take k r)
  | _, _ => EmptyString
  end.

Fixpoint drop (n : nat) (s : string) : string :=
  match n, s with
  | S k, String _ r => drop k r
  | _, _ => s
  end.

(** [s.startswith('.')]. *)
Definition starts_with_dot (s : string) : bool :=
  match s with String "."%char _ => true | _ => false end.

Definition cons_head (c : ascii) (l : list string) : list string :=
  match l with
  | [] => [String c EmptyString]
  | x :: r => String c x :: r
  end.

(** [s.split(sep)] for a separator of one character (also
    [bytes.split] for one byte). *)
Fixpoint split_char (sep : ascii) (s : string) : list string :=
  match s with
  | EmptyString => [EmptyString]
  | String c r =>
      if Ascii.eqb c sep then EmptyString :: split_char sep r
      else cons_head c (split_char sep r)
  end.

(** [s.split(sep)] for the separator of the two characters [a], [b]. *)
Fixpoint split_pair (a b : ascii) (s : string) : list string :=
  match s with
  | EmptyString => [EmptyString]
  | String c r =>
      match r with
      | String d r' =>
          if (Ascii.eqb c a && Ascii.eqb d b)%bool then EmptyString :: split_pair a b r'
          else cons_head c (split_pair a b r)
      | EmptyString => [String c EmptyString]
      end
  end.

(** [s.lstrip(chars)], [s.rstrip(chars)] and [s.strip(chars)]. *)
Fixpoint lstrip (chars s : string) : string :=
  match s with
  | EmptyString => EmptyString
  | String c r => if PyStr.mem_char c chars then lstrip chars r else s
  end.

Fixpoint rstrip (chars s : string) : string :=
  match s with
  | EmptyString => EmptyString
  | String c r =>
      match rstrip chars r with
      | EmptyString => if PyStr.mem_char c chars then EmptyString else String c EmptyString
      | r' => String c r'
      end
  end.

Definition strip (chars s : string) : string := rstrip chars (lstrip chars s).

(** [b.decode('ascii', errors='ignore')]: the bytes above 127 are
    dropped. *)
Fixpoint decode_ascii_ignore (b : string) : string :=
  match b with
  | EmptyString => EmptyString
  | String c r =>
      if Nat.ltb (nat_of_ascii c) 128 then String c (decode_ascii_ignore r)
      else decode_ascii_ignore r
  end.

End PyParse.

(* ===================================================================== *)
(** ** [lclib/manager.py]: the end of a scan and the status methods        *)
(* ===================================================================== *)

Module ManagerOps.

Import Manager.

(** [not d] for a dictionary. *)
Definition dict_is_empty (d : dict) : bool := bool_decide (dom d = (∅ : gset string)).

(** [self._scan_number or None]: zero counts as no number. *)
Definition number_or_none (v : option Z) : pyval :=
  match v with
  | Some n => if (n =? 0)%Z then PNone else PInt n
  | None => PNone
  end.

(** [get_meta]. The entries of the dictionary are evaluated in the
    order they are written. *)
Definition get_meta (m : manager) : result dict :=
  if dict_is_empty (scan_info m) then
    match experiment m with
    | Raise e => Raise e
    | Ok ex =>
        match _scan_number m with
        | Unassigned => Raise AttributeError
        | Assigned num =>
            Ok (<["investigation" := investigation m]>
                  (<["experiment" := ex]>
                     (<["last_scan" := number_or_none num]> ∅)))
        end
    end
  else Ok (scan_info m).

(** [end_scan]; [end_time] is what [now()] returned. From its second
    statement to its last, [self.scan_info] and [self.last_scan_info]
    are one object, and the two item assignments write to both.
    [self.config['last_scan_info']] is that same object from [__init__]
    on: the field [last_scan_info] stands for it too. *)
Definition end_scan (end_time : pyval) (m : manager) : outcome manager dict :=
  if negb (_running m) then Throw RuntimeError m
  else
    let info := <["counter" := PInt (counter m)]>
                  (<["end_time" := end_time]> (scan_info m)) in
    let m1 := mkManager (config m) false (_scan_name m) (_label m) (_base_file_name m)
                (_scan_number m) (counter m) info info (dirs m) in
    match info !! "scan_name" with
    | None => Throw KeyError m1
    | Some _ =>
        Return info
          (mkManager (config m) false (_scan_name m) (_label m) (_base_file_name m)
             (_scan_number m) (counter m) ∅ info (dirs m))
    end.

(** [scan_status]; [now] is what [now()] returned. *)
Definition scan_status (now : pyval) (m : manager) : dict :=
  if _running m then
    <["now" := now]> (<["counter" := PInt (counter m)]> (dict_update ∅ (scan_info m)))
  else dict_update ∅ (last_scan_info m).

(** Properties [scanning] and [scan_number]. *)
Definition scanning (m : manager) : bool := _running m.

Definition scan_number (m : manager) : result (option Z) :=
  if negb (_running m) then Ok None
  else match _scan_number m with
       | Unassigned => Raise AttributeError
       | Assigned num => Ok num
       end.

(** A manager reached by [k] calls of [next_prefix] that returned. *)
Inductive after_prefixes : manager -> nat -> manager -> Prop :=
  | prefixes_none (m : manager) : after_prefixes m 0 m
  | prefixes_next (m m1 m2 : manager) (p : string) (k : nat) :
      next_prefix m = Return p m1 ->
      after_prefixes m1 k m2 ->
      after_prefixes m (S k) m2.

End ManagerOps.

(* ===================================================================== *)
(** ** [lclib/manager.py]: the scans found on disk                         *)
(* ===================================================================== *)

Module ScanDir.

(** An entry of [os.scandir]: its name, and [is_dir()]. *)
Record dirent : Type := mkEntry {
  d_name : string;
  is_dir : bool
}.

(** Result of a function that reads the file system: a value, a Python
    exception, or the [OSError] of a directory that cannot be listed
    (absent, not a directory, not readable). *)
Inductive fs_result (A : Type) : Type :=
  | FsOk (a : A)
  | FsRaise (e : exn)
  | FsOSError.
Arguments FsOk {A} a.
Arguments FsRaise {A} e.
Arguments FsOSError {A}.

(** A scan as [list_scans] reports it: number and label. *)
Definition scan : Type := Z * string.

(** [(int(f.name[:6]), f.name[7:])]. *)
Definition scan_of_name (nm : string) : result scan :=
  match PyParse.py_int (PyParse.take 6 nm) with
  | Ok n => Ok (n, PyParse.drop 7 nm)
  | Raise e => Raise e
  end.

(** The entries a listing of scans keeps: directories that are not
    hidden. *)
Definition visible (f : dirent) : bool :=
  (is_dir f && negb (PyParse.starts_with_dot (d_name f)))%bool.

(** The list comprehension over the entries, left to right. *)
Fixpoint scans_of (l : list dirent) : result (list scan) :=
  match l with
  | [] => Ok []
  | f :: r =>
      if visible f then
        match scan_of_name (d_name f) with
        | Raise e => Raise e
        | Ok s =>
            match scans_of r with
            | Raise e => Raise e
            | Ok ss => Ok (s :: ss)
            end
        end
      else scans_of r
  end.

(** Order of the tuples [(number, label)]: by number, then by label. *)
Definition scan_leb (a b : scan) : bool :=
  ((fst a <? fst b)%Z || ((fst a =? fst b)%Z && String.leb (snd a) (snd b)))%bool.

Fixpoint insert_sorted (x : scan) (l : list scan) : list scan :=
  match l with
  | [] => [x]
  | y :: r => if scan_leb x y then x :: l else y :: insert_sorted x r
  end.

(** [sorted(l)]. *)
Fixpoint sorted (l : list scan) : list scan :=
  match l with
  | [] => []
  | x :: r => insert_sorted x (sorted r)
  end.

(** A dictionary in insertion order: [d[k] = v] and [d[k]]. *)
Fixpoint assoc_set {V : Type} (k : string) (v : V) (d : list (string * V))
  : list (string * V) :=
  match d with
  | [] => [(k, v)]
  | (k', v') :: r =>
      if String.eqb k k' then (k, v) :: r else (k', v') :: assoc_set k v r
  end.

Fixpoint assoc_get {V : Type} (k : string) (d : list (string * V)) : option V :=
  match d with
  | [] => None
  | (k', v) :: r => if String.eqb k k' then Some v else assoc_get k r
  end.

Section FileSystem.

(** The file system: [os.path.exists], and [os.scandir], [None] when it
    raises [OSError]. *)
Variable path_exists : string -> bool.
Variable scandir : string -> option (list dirent).

(** [list_investigations(path)]. *)
Definition list_investigations (path : string) : fs_result (list string) :=
  match scandir path with
  | None => FsOSError
  | Some l => FsOk (map d_name (filter (fun f => visible f) l))
  end.

(** The loop of [list_scans] over the experiments of an investigation;
    [warned] collects the directories the logger was warned about. *)
Fixpoint scan_experiments (logger : bool)
    (all_exp : list (string * string)) (scan_dict : list (string * list scan))
    (warned : list string)
  : fs_result (list (string * list scan)) * list string :=
  match all_exp with
  | [] => (FsOk scan_dict, warned)
  | (exp, exp_path) :: r =>
      match scandir exp_path with
      | None => (FsOSError, warned)
      | Some l =>
          match scans_of l with
          | Raise ValueError =>
              scan_experiments logger r scan_dict
                (if logger then (warned ++ [exp_path])%list else warned)
          | Raise e => (FsRaise e, warned)
          | Ok ss =>
              scan_experiments logger r (assoc_set exp (sorted ss) scan_dict)
                warned
          end
      end
  end.

(** [list_scans(path, investigation, experiment, logger)]: the
    dictionary from experiment to sorted scans, and the directories
    warned about. An argument of [os.path.join] that is not a string is
    a [TypeError]. *)
Definition list_scans (path investigation experiment : pyval) (logger : bool)
  : fs_result (list (string * list scan)) * list string :=
  match as_str path, as_str investigation with
  | Ok p, Ok i =>
      let inv_path := PyStr.os_path_join p [i] in
      if negb (path_exists inv_path) then (FsRaise RuntimeError, [])
      else
        match experiment with
        | PNone =>
            match scandir inv_path with
            | None => (FsOSError, [])
            | Some l =>
                let all_exp :=
                  fold_left
                    (fun d f =>
                       assoc_set (d_name f) (PyStr.os_path_join inv_path [d_name f]) d)
                    (filter (fun f => is_dir f) l) [] in
                scan_experiments logger all_exp [] []
            end
        | PStr x =>
            let exp_path := PyStr.os_path_join inv_path [x] in
            if negb (path_exists inv_path) then (FsRaise RuntimeError, [])
            else
              match scandir exp_path with
              | None => (FsOSError, [])
              | Some l =>
                  match scans_of l with
                  | Raise ValueError => (FsRaise RuntimeError, [])
                  | Raise e => (FsRaise e, [])
                  | Ok ss => (FsOk [(x, sorted ss)], [])
                  end
              end
        | _ => (FsRaise TypeError, [])
        end
  | _, _ => (FsRaise TypeError, [])
  end.

(** [all_scans[self.experiment]]: the keys are the names of
    directories. *)
Definition scans_of_experiment (ex : pyval) (all_scans : list (string * list scan))
  : option (list scan) :=
  match ex with
  | PStr k => assoc_get k all_scans
  | _ => None
  end.

(** [next_scan]. *)
Definition next_scan (m : Manager.manager) : fs_result (option Z) :=
  match Manager.base_path m with
  | Raise e => FsRaise e
  | Ok bp =>
      match Manager.experiment m with
      | Raise e => FsRaise e
      | Ok ex =>
          match fst (list_scans bp (Manager.investigation m) ex true) with
          | FsRaise RuntimeError => FsOk None
          | FsRaise e => FsRaise e
          | FsOSError => FsOSError
          | FsOk all_scans =>
              match scans_of_experiment ex all_scans with
              | None => FsRaise KeyError
              | Some scans =>
                  match last scans with
                  | None => FsOk (Some 0)
                  | Some s => FsOk (Some (fst s + 1))
                  end
              end
          end
      end
  end.

(** [status]. *)
Definition status (m : Manager.manager) : fs_result dict :=
  match next_scan m with
  | FsRaise e => FsRaise e
  | FsOSError => FsOSError
  | FsOk ns =>
      match Manager.experiment m with
      | Raise e => FsRaise e
      | Ok ex =>
          FsOk (<["investigation" := Manager.investigation m]>
                  (<["experiment" := ex]>
                     (<["last_scan" := match ns with
                                       | None => PNone
                                       | Some n => if (n =? 0)%Z then PNone else PInt (n - 1)
                                       end]> ∅)))
      end
  end.

End FileSystem.

End ScanDir.

(* ===================================================================== *)
(** ** [lclib/camera.py]: the frame management thread                      *)
(* ===================================================================== *)

Module FrameLoop.

Import Camera.

(** A frame handed over by the thread: [file_writer.store] or
    [frame_streamer.store] returned for it. *)
Inductive delivery : Type :=
  | WriterStore (data : frame) (meta : loc)
  | StreamerStore (data : frame) (meta : loc).

(** The world of the thread: the camera's, and the frames delivered so
    far. *)
Record consumer : Type := mkConsumer {
  world_of : world;
  delivered : list delivery
}.

Section Stores.

(** What [file_writer.store] and [frame_streamer.store] do with a frame:
    [None] when they return. *)
Variable writer_store : frame -> loc -> option exn.
Variable streamer_store : frame -> loc -> option exn.

Definition on_camera (f : camera -> camera) (s : consumer) : consumer :=
  mkConsumer (mkWorld (f (cam (world_of s))) (man (world_of s)) (trace (world_of s)))
    (delivered s).

Definition log_event (e : event) (s : consumer) : consumer :=
  mkConsumer (mkWorld (cam (world_of s)) (man (world_of s)) (trace (world_of s) ++ [e]))
    (delivered s).

Definition deliver (d : delivery) (s : consumer) : consumer :=
  mkConsumer (world_of s) (delivered s ++ [d]).

(** One turn of the [while True] of [frame_management_loop]. [Idle]:
    the queue stayed empty for the time-out and the camera is not
    closing. *)
Definition frame_management_turn (s : consumer) : outcome consumer ctl :=
  match frame_queue (cam (world_of s)) with
  | [] =>
      let s1 := on_camera (with_frame_queue_empty_flag true) s in
      Return (if closing (cam (world_of s1)) then Break else Idle) s1
  | (data, meta) :: rest =>
      let s1 := on_camera (with_frame_queue rest) s in
      let stored : outcome consumer unit :=
        if negb (rolling (cam (world_of s1))) then
          match writer_store data meta with
          | None => Return tt (deliver (WriterStore data meta) s1)
          | Some RuntimeError =>
              Return tt
                (log_event (Log Exception "Problem sending data to the file_writer process")
                   s1)
          | Some e => Throw e s1
          end
        else Return tt s1 in
      match stored with
      | Return _ s2 =>
          let streamed : outcome consumer unit :=
            if do_broadcast (config (cam (world_of s2))) then
              match streamer_store data meta with
              | None => Return tt (deliver (StreamerStore data meta) s2)
              | Some e => Throw e s2
              end
            else Return tt s2 in
          match streamed with
          | Return _ s3 =>
              Return Continue
                (match frame_queue (cam (world_of s3)) with
                 | [] => on_camera (with_frame_queue_empty_flag true) s3
                 | _ => s3
                 end)
          | Throw e s3 => Throw e s3
          | Blocked s3 => Blocked s3
          end
      | Throw e s2 => Throw e s2
      | Blocked s2 => Blocked s2
      end
  end.

(** The thread run while nothing else does: it stops at the first turn
    that finds the queue empty. *)
Fixpoint frame_management_loop (fuel : nat) (s : consumer) : outcome consumer ctl :=
  match fuel with
  | O => Blocked s
  | S k =>
      match frame_management_turn s with
      | Return Continue s' => frame_management_loop k s'
      | r => r
      end
  end.

(** What the thread hands over for one queued frame. *)
Definition deliveries_of (c : camera) (item : frame * loc) : list delivery :=
  ((if rolling c then [] else [WriterStore (fst item) (snd item)])
   ++ (if do_broadcast (config c) then [StreamerStore (fst item) (snd item)] else []))%list.

End Stores.

End FrameLoop.

(* ===================================================================== *)
(** ** [lclib/mecademic.py]: replies of the robot                          *)
(* ===================================================================== *)

Module Mecademic.

(** The end-of-line byte of the robot's protocol. Bytes are strings. *)
Definition EOL : ascii := "000"%char.

(** One reply [[code][message]]: decoded, stripped of its outer
    brackets, split at [][], unpacked into exactly two parts. *)
Definition parse_reply (r : string) : result (Z * string) :=
  let r_str := PyParse.decode_ascii_ignore r in
  match PyParse.split_pair "]"%char "["%char (PyParse.strip "[]" r_str) with
  | [code; message] =>
      match PyParse.py_int code with
      | Ok c => Ok (c, message)
      | Raise e => Raise e
      end
  | _ => Raise ValueError
  end.

Fixpoint parse_replies (l : list string) : result (list (Z * string)) :=
  match l with
  | [] => Ok []
  | r :: rest =>
      match parse_reply r with
      | Raise e => Raise e
      | Ok x =>
          match parse_replies rest with
          | Raise e => Raise e
          | Ok xs => Ok (x :: xs)
          end
      end
  end.

(** The attributes of the driver that [process_reply] writes, and its
    log. *)
Record driver : Type := mkDriver {
  last_error : option (Z * string);
  motion_paused : bool;
  log : list (Camera.level * string)
}.

Definition logged (lvl : Camera.level) (msg : string) (d : driver) : driver :=
  mkDriver (last_error d) (motion_paused d) (log d ++ [(lvl, msg)]).

(** The second loop of [process_reply], over the parsed replies. *)
Fixpoint classify (l : list (Z * string)) (reply2000 : option (Z * string)) (d : driver)
  : option (Z * string) * driver :=
  match l with
  | [] => (reply2000, d)
  | (code, message) :: rest =>
      if (code =? 2042)%Z then
        classify rest reply2000 (mkDriver (last_error d) true (log d))
      else if (code <? 2000)%Z then
        classify rest reply2000
          (logged Camera.Error ("[" +:+ PyStr.str_int code +:+ "] - " +:+ message)
             (mkDriver (Some (code, message)) (motion_paused d) (log d)))
      else if (2999 <? code)%Z then
        classify rest reply2000
          (logged Camera.Warning (PyStr.str_int code +:+ ": " +:+ message) d)
      else
        classify rest (Some (code, message))
          (match reply2000 with
           | Some (c0, m0) =>
               logged Camera.Warning
                 ("More code 2000:" +:+ PyStr.str_int c0 +:+ " - " +:+ m0) d
           | None => d
           end)
  end.

(** [process_reply(reply)]. The result [None] is the pair
    [(None, None)]. *)
Definition process_reply (reply : string) (d : driver)
  : outcome driver (option (Z * string)) :=
  match parse_replies (PyParse.split_char EOL reply) with
  | Raise e => Throw e d
  | Ok formatted_replies =>
      let '(reply2000, d') := classify formatted_replies None d in
      Return reply2000 d'
  end.

Fixpoint ints_of (l : list string) : result (list Z) :=
  match l with
  | [] => Ok []
  | x :: r =>
      match PyParse.py_int x with
      | Raise e => Raise e
      | Ok z =>
          match ints_of r with
          | Raise e => Raise e
          | Ok zs => Ok (z :: zs)
          end
      end
  end.

(** [get_status], given the bytes [send_recv] returned for
    [GetStatusRobot]: the flags, or [None] after any exception in their
    conversion. *)
Definition get_status (reply : string) (d : driver)
  : outcome driver (option (list bool)) :=
  match process_reply reply d with
  | Return r d' =>
      match r with
      | None =>
          Return None (logged Camera.Error "get_status returned None" d')
      | Some (_, text) =>
          match ints_of (PyParse.split_char ","%char text) with
          | Ok zs => Return (Some (map (fun z => negb (z =? 0)%Z) zs)) d'
          | Raise NotModelled => Throw NotModelled d'
          | Raise _ =>
              Return None (logged Camera.Error ("get_status returned " +:+ text) d')
          end
      end
  | Throw e d' => Throw e d'
  | Blocked d' => Blocked d'
  end.

(** The attributes of [MecademicMonitor] that [consume_buffer] writes:
    the buffer, and the messages received, by code. *)
Record monitor : Type := mkMonitor {
  recv_buffer : string;
  messages : gmap Z (list string)
}.

Definition MAX_BUFFER_LENGTH : Z := 1000.

(** [l > n] for a list [l] and an integer [n]: Python orders no list
    with an integer. *)
Definition list_gt_int (l : list string) (n : Z) : result bool := Raise TypeError.

(** The body of the [for] loop of [consume_buffer], up to the test
    [len(self.messages[code] > self.MAX_BUFFER_LENGTH)]: the comparison
    is inside the call of [len]. *)
Definition consume_token (t : string) (mon : monitor) : outcome monitor unit :=
  match parse_reply t with
  | Raise e => Throw e mon
  | Ok (code, message) =>
      let current :=
        match messages mon !! code with
        | Some (x :: l) => x :: l
        | _ => []
        end in
      let appended := (current ++ [message])%list in
      let mon1 := mkMonitor (recv_buffer mon) (<[code := appended]> (messages mon)) in
      match list_gt_int appended MAX_BUFFER_LENGTH with
      | Raise e => Throw e mon1
      | Ok _ => Throw TypeError mon1      (* [len] of a truth value *)
      end
  end.

Fixpoint consume_tokens (l : list string) (mon : monitor) : outcome monitor unit :=
  match l with
  | [] => Return tt mon
  | t :: r =>
      match consume_token t mon with
      | Return _ mon' => consume_tokens r mon'
      | o => o
      end
  end.

(** [consume_buffer]. *)
Definition consume_buffer (mon : monitor) : outcome monitor unit :=
  match consume_tokens (PyParse.split_char EOL (recv_buffer mon)) mon with
  | Return _ mon' =>
      Return tt (mkMonitor EmptyString (messages mon'))
  | o => o
  end.

End Mecademic.

(* ===================================================================== *)
(** ** [lclib/datalogger.py]: the tags of a measurement                    *)
(* ===================================================================== *)

Module DataLogger.

(** [v or 'undefined']. The truth value of a dictionary is in the
    heap, which this function does not see. *)
Definition or_undefined (v : pyval) : result pyval :=
  match v with
  | PNone => Ok (PStr "undefined")
  | PBool b => Ok (if b then v else PStr "undefined")
  | PInt z => Ok (if (z =? 0)%Z then PStr "undefined" else v)
  | PNum x => Ok (if (x =? 0)%float then PStr "undefined" else v)
  | PStr s => Ok (if String.eqb s "" then PStr "undefined" else v)
  | PRef _ => Raise NotModelled
  end.

(** [get_tags]; [man] is what [manager.getManager()] returned and
    [this_host] the constant [THIS_HOST]. *)
Definition get_tags (this_host : pyval) (man : option Manager.manager) : result dict :=
  match man with
  | None => Ok {["host" := this_host]}
  | Some m =>
      match or_undefined (Manager.investigation m) with
      | Raise e => Raise e
      | Ok inv =>
          match Manager.experiment m with
          | Raise e => Raise e
          | Ok ex =>
              match or_undefined ex with
              | Raise e => Raise e
              | Ok ex' =>
                  let sn := match Manager.scan_name m with
                            | Some n => PStr (if String.eqb n "" then "undefined" else n)
                            | None => PStr "undefined"
                            end in
                  Ok (<["investigation" := inv]>
                        (<["experiment" := ex']>
                           (<["scan_name" := sn]> (<["host" := this_host]> ∅))))
              end
          end
      end
  end.

End DataLogger.

(* ===================================================================== *)
(** * Scenarios                                                            *)
(* ===================================================================== *)

(** The camera of the scenario: base path [/data], counter 7, and the
    given file format. *)
Definition camera_c7 (fmt : string) : Camera.camera :=
  Camera.with_config
    (Camera.cfg_with_file_format fmt (Camera.cfg_with_counter 7 Camera.DEFAULT_CONFIG))
    (Camera.init "cam" "/data").

(** A manager with investigation and experiment chosen, no scan running,
    whose [next_scan()] has returned [None]. *)
Definition manager0 : Manager.manager :=
  Manager.mkManager
    (<["data_path" := PStr "/data"]>
       (<["investigation" := PStr "speckle"]> (<["experiment" := PStr "run1"]> ∅)))
    false None None None (Manager.Assigned None) 0 ∅ ∅ ∅.

(** The same manager once [start_scan(label="align", localmeta={})] has
    returned scan number 3. *)
Definition manager_scanning : Manager.manager :=
  match Manager.start_scan (Some 3) "26-11-04" (PStr "t0") (Some "align") (Some ∅) manager0 with
  | Return _ m => m
  | Throw _ m => m
  | Blocked m => m
  end.

(** A device whose every trigger reads out one frame, and one whose
    every trigger fails. *)
Definition trigger_ok (n : nat) : Camera.trigger_outcome :=
  Camera.mkTrigger [([N.of_nat n], {["temperature" := PInt 20]})] None.

Definition trigger_failing (n : nat) : Camera.trigger_outcome :=
  Camera.mkTrigger [] (Some RuntimeError).

(** A configured camera, fresh from [__init__], connected to [manager0]. *)
Definition camera0 : Camera.camera :=
  Camera.with_config
    (Camera.cfg_with_file_prefix (Some "snap_{0:06d}")
       (Camera.cfg_with_save_path (Some "snaps") Camera.DEFAULT_CONFIG))
    (Camera.init "Varex" "/data").

Definition world0 : Camera.world := Camera.mkWorld camera0 (Some manager0) [].

(** The same camera after [roll_on(fps=4)]. *)
Definition world_rolling : Camera.world :=
  state_of (Camera.roll_on trigger_ok None 4 (Some 4%float) world0).

(** The camera armed, with the request [snap] leaves before it waits:
    a file name and the [do_acquire] flag. *)
Definition world_pending : Camera.world :=
  let w := state_of (Camera.arm None None world0) in
  Camera.mkWorld
    (Camera.with_do_acquire true
       (Camera.with_filename (Some "/data/snaps/snap_000001.h5") (Camera.cam w)))
    (Camera.man w) (Camera.trace w).

(** A data directory with the investigation and the experiment of
    [manager0]; the experiment holds two scans, a hidden directory and a
    file. *)
Definition exists0 (p : string) : bool :=
  (String.eqb p "/data/speckle" || String.eqb p "/data/speckle/run1")%bool.

Definition scandir0 (p : string) : option (list ScanDir.dirent) :=
  if String.eqb p "/data/speckle/run1" then
    Some [ScanDir.mkEntry "000001_26-11-03_b" true;
          ScanDir.mkEntry "000000_26-11-03" true;
          ScanDir.mkEntry ".cache" true;
          ScanDir.mkEntry "notes.txt" false]
  else if String.eqb p "/data/speckle" then Some [ScanDir.mkEntry "run1" true]
  else None.

(** The same experiment holding the directories of the scans 999999 and
    1000000. *)
Definition scandir_million (p : string) : option (list ScanDir.dirent) :=
  if String.eqb p "/data/speckle/run1" then
    Some [ScanDir.mkEntry "999999_26-11-03" true;
          ScanDir.mkEntry "1000000_26-11-03" true]
  else None.

(** The manager of [manager0] before an experiment is chosen. *)
Definition manager_no_experiment : Manager.manager :=
  Manager.with_config (<["experiment" := PNone]> (Manager.config manager0)) manager0.

(** The same data directory when the experiment directory of [manager0]
    is missing. *)
Definition exists_inv_only (p : string) : bool := String.eqb p "/data/speckle".

Definition scandir_inv_only (p : string) : option (list ScanDir.dirent) :=
  if String.eqb p "/data/speckle" then Some [] else None.

(** A batch of replies of the robot, and a driver that has seen none. *)
Definition reply_batch : string :=
  "[3000][Connected]" +:+ String Mecademic.EOL "[2042][Motion paused]"
  +:+ String Mecademic.EOL "[1011][Not homed]"
  +:+ String Mecademic.EOL "[2007][1,0,1]".

Definition parsed_batch : list (Z * string) :=
  [(3000, "Connected"); (2042, "Motion paused"); (1011, "Not homed"); (2007, "1,0,1")].

Definition driver0 : Mecademic.driver := Mecademic.mkDriver None false [].

(** The frame management thread of [camera0] after one trigger, with
    nothing delivered yet; a writer and a streamer that accept every
    frame. *)
Definition consumer0 : FrameLoop.consumer :=
  FrameLoop.mkConsumer (state_of (Camera.call_trigger trigger_ok world0)) [].

Definition store_ok (data : Camera.frame) (meta : loc) : option exn := None.

(** [camera0] armed by hand, outside a scan. *)
Definition world_armed : Camera.world := state_of (Camera.arm None None world0).

(** The text of a status reply of the robot, [as, hs, sm, ...] in the
    documentation of [get_status]: ones and zeros between commas. *)
Definition flag_char (b : bool) : ascii := if b then "1"%char else "0"%char.

Fixpoint status_text (b : bool) (rest : list bool) : string :=
  match rest with
  | [] => String (flag_char b) EmptyString
  | b' :: r => String (flag_char b) (String ","%char (status_text b' r))
  end.

(** What a turn of the acquisition thread, or a [roll_off] inside it,
    leaves of the exposure settings: the values kept for the end of the
    rolling are untouched, and the current ones are as before or
    already restored. *)
Definition exposure_kept (w w' : Camera.world) : Prop :=
  let c := Camera.cam w in
  let c' := Camera.cam w' in
  Camera._exposure_time_before_roll c' = Camera._exposure_time_before_roll c
  /\ Camera._exposure_number_before_roll c' = Camera._exposure_number_before_roll c
  /\ (Camera.exposure_time c' = Camera.exposure_time c
      \/ (Camera.truthy_float (Camera._exposure_time_before_roll c) = true
          /\ Camera.exposure_time c' = default 0%float (Camera._exposure_time_before_roll c)))
  /\ (Camera.exposure_number c' = Camera.exposure_number c
      \/ (Camera.truthy_Z (Camera._exposure_number_before_roll c) = true
          /\ Camera.exposure_number c'
             = default 0 (Camera._exposure_number_before_roll c)))
  /\ Camera.roll_fps (Camera.config c') = Camera.roll_fps (Camera.config c)
  /\ Camera.do_broadcast (Camera.config c') = Camera.do_broadcast (Camera.config c)
  /\ Camera.enqueue_lock c' = Camera.enqueue_lock c
  /\ Camera.man w' = Camera.man w.

(* ===================================================================== *)
(** * Properties                                                           *)
(* ===================================================================== *)

(** ** Proof tools *)

(** Unfolding of the methods down to the monad's primitives. *)
Ltac run_camera :=
  unfold Camera.roll_off_with, Camera.disarm_with, Camera.disarm_body, Camera.join_self,
    Camera.set_exposure_time, Camera.set_exposure_number,
    Camera.bind, Camera.get, Camera.modify, Camera.when, Camera.emit,
    Camera.try_except, Camera.ret, Camera.raise;
  cbn.

Ltac not_in_list :=
  repeat (apply not_elem_of_cons; split; [discriminate|]); apply not_elem_of_nil.

Ltac show_precedes l1 l2 l3 :=
  exists l1, l2, l3;
  split; [rewrite <- ?app_assoc; reflexivity
         | split; [not_in_list | split; [not_in_list | discriminate]]].

Ltac run_session :=
  unfold Camera.arm, Camera.disarm, Camera.disarm_with, Camera.disarm_body,
    Camera.join_main, Camera.run_loop, Camera.thread_turn, Camera.loop_iteration,
    Camera.set_exposure_time, Camera.set_exposure_number, Camera.get_manager,
    Camera.lift, Camera.bind, Camera.get, Camera.modify, Camera.when, Camera.emit,
    Camera.try_except, Camera.ret, Camera.raise;
  cbn.

Ltac run_roll_on :=
  unfold Camera.set_roll_fps_with, Camera.live_on, Camera.is_live, Camera.arm,
    Camera.set_exposure_time, Camera.set_exposure_number, Camera.get_manager,
    Camera.lift, Camera.bind, Camera.get, Camera.modify, Camera.when, Camera.emit,
    Camera.try_except, Camera.ret, Camera.raise;
  cbn.

(** ** Strings *)

Example format_scan7 : PyStr.format "scan_{0}" 7 = Ok "scan_7".
Proof. reflexivity. Qed.

Example format_pad6 : PyStr.format "000012_26-11-04_{0:06d}" 41 = Ok "000012_26-11-04_000041".
Proof. reflexivity. Qed.

Example format_plain : PyStr.format "snap" 7 = Ok "snap".
Proof. reflexivity. Qed.

Example format_index1 : PyStr.format "a{1}" 7 = Raise IndexError.
Proof. reflexivity. Qed.

Example format_single_brace : PyStr.format "a{" 7 = Raise ValueError.
Proof. reflexivity. Qed.

Example join_abs : PyStr.os_path_join "/data" ["run"; "scan_7"] = "/data/run/scan_7".
Proof. reflexivity. Qed.

Example join_empty_base : PyStr.os_path_join "" ["run"; "scan_7"] = "run/scan_7".
Proof. reflexivity. Qed.

Lemma append_cons (x : ascii) (a b : string) : String x a +:+ b = String x (a +:+ b).
Proof. reflexivity. Qed.

Lemma append_nil_l (a : string) : EmptyString +:+ a = a.
Proof. reflexivity. Qed.

Lemma append_assoc_str (a b c : string) : (a +:+ b) +:+ c = a +:+ (b +:+ c).
Proof.
  induction a as [|x a IH]; [reflexivity|].
  rewrite !append_cons. now rewrite IH.
Qed.

Lemma append_nil_r (a : string) : a +:+ EmptyString = a.
Proof.
  induction a as [|x a IH]; [reflexivity|].
  rewrite append_cons. now rewrite IH.
Qed.

Lemma format_go_text_char z num c r :
  c <> "{"%char -> c <> "}"%char ->
  PyStr.format_go z num None (String c r) = PyStr.prepend c (PyStr.format_go z num None r).
Proof.
  intros Ho Hc.
  destruct c as [[] [] [] [] [] [] [] []]; try reflexivity; congruence.
Qed.

Lemma no_braces_cons c s :
  PyStr.no_braces (String c s) = true ->
  c <> "{"%char /\ c <> "}"%char /\ PyStr.no_braces s = true.
Proof.
  unfold PyStr.no_braces; cbn [PyStr.mem_char]. intros H.
  destruct (Ascii.eqb_spec "{"%char c) as [E1|H1]; [discriminate H|].
  destruct (Ascii.eqb_spec "}"%char c) as [E2|H2].
  - rewrite andb_false_r in H. discriminate H.
  - repeat split; [congruence | congruence | exact H].
Qed.

(** Literal text without braces is copied as it is. *)
Lemma format_go_text z num pre r :
  PyStr.no_braces pre = true ->
  PyStr.format_go z num None (pre +:+ r)
  = PyStr.prepend_str pre (PyStr.format_go z num None r).
Proof.
  induction pre as [|c pre IH]; intros H.
  - rewrite append_nil_l. destruct (PyStr.format_go z num None r); reflexivity.
  - apply no_braces_cons in H as (Ho & Hc & H).
    rewrite append_cons.
    rewrite format_go_text_char by assumption.
    rewrite IH by assumption.
    destruct (PyStr.format_go z num None r); reflexivity.
Qed.

Lemma format_go_no_braces z num s :
  PyStr.no_braces s = true -> PyStr.format_go z num None s = Ok s.
Proof.
  intros H.
  rewrite <- (append_nil_r s) at 1.
  rewrite format_go_text by assumption.
  cbn [PyStr.format_go PyStr.prepend_str]. now rewrite append_nil_r.
Qed.

Lemma format_no_braces z s :
  PyStr.no_braces s = true -> PyStr.format s z = Ok s.
Proof. apply format_go_no_braces. Qed.

Lemma space_pad_0 z : PyStr.space_pad 0 z = PyStr.str_int z.
Proof. reflexivity. Qed.

(** *** The counter field [_{0:06d}] that [start_scan] appends *)

Lemma format_go_field_char z num f c r :
  c <> "{"%char -> c <> "}"%char ->
  PyStr.format_go z num (Some f) (String c r)
  = PyStr.format_go z num (Some (f +:+ String c EmptyString)) r.
Proof.
  intros Ho Hc.
  destruct c as [[] [] [] [] [] [] [] []]; try reflexivity; congruence.
Qed.

Lemma format_go_open_field z num c r :
  c <> "{"%char ->
  PyStr.format_go z num None (String "{"%char (String c r))
  = PyStr.format_go z num (Some EmptyString) (String c r).
Proof.
  intros Ho.
  destruct c as [[] [] [] [] [] [] [] []]; try reflexivity; congruence.
Qed.

Lemma format_go_close_single z num c r :
  c <> "}"%char ->
  PyStr.format_go z num None (String "}"%char (String c r)) = Raise ValueError.
Proof.
  intros Hc.
  destruct c as [[] [] [] [] [] [] [] []]; try reflexivity; congruence.
Qed.

Lemma render_spec_indep z z' spec txt :
  PyStr.render_spec spec z = Ok txt -> exists txt', PyStr.render_spec spec z' = Ok txt'.
Proof.
  unfold PyStr.render_spec.
  match goal with |- context [let '(_, _) := ?b in _] => destruct b as [zero r] end.
  destruct (PyStr.split_at "d"%char r) as [w ty].
  destruct (negb (PyStr.all_digits w)); [discriminate|].
  destruct ty as [[|a t]|]; intros H; try discriminate; eauto.
Qed.

Lemma render_field_indep z z' num f txt num' :
  PyStr.render_field num f z = Ok (txt, num') ->
  exists txt', PyStr.render_field num f z' = Ok (txt', num').
Proof.
  unfold PyStr.render_field.
  destruct (PyStr.split_at ":"%char f) as [nm spec].
  match goal with |- context [match ?i with Ok _ => _ | Raise _ => _ end] =>
    destruct i as [[[|k] nn]|e] end; try discriminate.
  destruct (PyStr.render_spec (default EmptyString spec) z) as [t|e] eqn:E; [|discriminate].
  intros H. injection H as <- <-.
  destruct (render_spec_indep z z' _ _ E) as [t' ->]. eauto.
Qed.

Lemma format_go_counter_field z num fld :
  PyStr.format_go z num fld Manager.counter_field
  = match fld, num with
    | Some f, _ =>
        Raise (if PyStr.mem_char ":"%char (f +:+ "_") then NotModelled else ValueError)
    | None, PyStr.NumAuto _ => Raise ValueError
    | None, _ => Ok (String "_"%char (PyStr.zero_pad 6 z +:+ EmptyString))
    end.
Proof. destruct fld, num; reflexivity. Qed.

(** Whatever precedes the counter field, a formatted name ends with the
    counter on six digits, and formatting succeeds for every counter
    once it succeeds for one. *)
Lemma format_go_counter_suffix z z' n :
  forall A num fld p,
    (String.length A <= n)%nat ->
    PyStr.format_go z num fld (A +:+ Manager.counter_field) = Ok p ->
    exists q q',
      p = q +:+ PyStr.zero_pad 6 z
      /\ PyStr.format_go z' num fld (A +:+ Manager.counter_field) = Ok (q' +:+ PyStr.zero_pad 6 z').
Proof.
  assert (Base : forall num fld p,
    PyStr.format_go z num fld Manager.counter_field = Ok p ->
    exists q q',
      p = q +:+ PyStr.zero_pad 6 z
      /\ PyStr.format_go z' num fld Manager.counter_field = Ok (q' +:+ PyStr.zero_pad 6 z')).
  { intros num fld p H. rewrite format_go_counter_field in *.
    destruct fld; [discriminate|]. destruct num; try discriminate;
      injection H as <-; exists "_", "_"; rewrite !append_nil_r; split; reflexivity. }
  assert (Pre : forall c (r : result string) p,
    PyStr.prepend c r = Ok p -> exists p0, r = Ok p0 /\ p = String c p0).
  { intros c [p0|e] p H; [|discriminate]. injection H as <-. eauto. }
  induction n as [|n IH]; intros A num fld p Hlen H.
  { destruct A; [|simpl in Hlen; lia]. rewrite append_nil_l in *. now apply Base. }
  destruct A as [|c A]; [rewrite append_nil_l in *; now apply Base|].
  simpl in Hlen. rewrite append_cons in *.
  destruct fld as [f|].
  - (* inside a replacement field *)
    destruct (ascii_dec c "}"%char) as [->|Hc].
    + cbn [PyStr.format_go] in *.
      destruct (PyStr.render_field num f z) as [[txt num']|e] eqn:E; [|discriminate].
      destruct (render_field_indep z z' _ _ _ _ E) as [txt' ->].
      destruct (PyStr.format_go z num' None (A +:+ Manager.counter_field)) as [p0|e] eqn:E0;
        [|discriminate].
      injection H as <-.
      destruct (IH A num' None p0 ltac:(lia) E0) as (q & q' & -> & ->).
      exists (txt +:+ q), (txt' +:+ q').
      cbn [PyStr.prepend_str]. rewrite !append_assoc_str. split; reflexivity.
    + destruct (ascii_dec c "{"%char) as [->|Ho]; [discriminate H|].
      rewrite format_go_field_char in * by assumption.
      apply (IH A num _ p ltac:(lia) H).
  - (* literal text *)
    destruct (ascii_dec c "{"%char) as [->|Ho].
    + destruct A as [|c2 A].
      * rewrite append_nil_l in *. discriminate H.
      * rewrite append_cons in *. simpl in Hlen.
        destruct (ascii_dec c2 "{"%char) as [->|Ho2].
        -- cbn [PyStr.format_go] in *.
           apply Pre in H as (p0 & E0 & ->).
           destruct (IH A num None p0 ltac:(lia) E0) as (q & q' & -> & ->).
           exists (String "{"%char q), (String "{"%char q'). split; reflexivity.
        -- rewrite format_go_open_field in * by assumption.
           rewrite <- append_cons in *.
           apply (IH (String c2 A) num _ p ltac:(simpl; lia) H).
    + destruct (ascii_dec c "}"%char) as [->|Hc].
      * destruct A as [|c2 A].
        -- rewrite append_nil_l in *. discriminate H.
        -- rewrite append_cons in *. simpl in Hlen.
           destruct (ascii_dec c2 "}"%char) as [->|Hc2].
           ++ cbn [PyStr.format_go] in *.
              apply Pre in H as (p0 & E0 & ->).
              destruct (IH A num None p0 ltac:(lia) E0) as (q & q' & -> & ->).
              exists (String "}"%char q), (String "}"%char q'). split; reflexivity.
           ++ rewrite format_go_close_single in H by assumption. discriminate H.
      * rewrite format_go_text_char in * by assumption.
        apply Pre in H as (p0 & E0 & ->).
        destruct (IH A num None p0 ltac:(lia) E0) as (q & q' & -> & ->).
        exists (String c q), (String c q'). split; reflexivity.
Qed.

(** *** The last character of a padded counter *)

Lemma last_char_app_r (a b : string) :
  b <> EmptyString -> PyStr.last_char (a +:+ b) = PyStr.last_char b.
Proof.
  intros Hb. induction a as [|x a IH]; [reflexivity|].
  rewrite append_cons. cbn [PyStr.last_char]. rewrite IH.
  destruct (a +:+ b) eqn:E; [|reflexivity].
  destruct a; [|discriminate E]. rewrite append_nil_l in E. contradiction.
Qed.

Lemma str_N_last (n : N) :
  PyStr.str_N n <> EmptyString
  /\ PyStr.last_char (PyStr.str_N n) = Some (PyStr.digit_char (n mod 10)).
Proof.
  unfold PyStr.str_N. cbn [PyStr.dec_digits].
  destruct (n <? 10)%N eqn:E.
  - apply N.ltb_lt in E. rewrite N.mod_small by assumption. split; [discriminate|reflexivity].
  - split.
    + destruct (PyStr.dec_digits (N.size_nat n) (n / 10)); discriminate.
    + now rewrite last_char_app_r by discriminate.
Qed.

Lemma zero_pad_last (w : nat) (z : Z) :
  PyStr.last_char (PyStr.zero_pad w z)
  = Some (PyStr.digit_char (Z.abs_N z mod 10)).
Proof.
  unfold PyStr.zero_pad.
  destruct (str_N_last (Z.abs_N z)) as [Hne Hl].
  rewrite last_char_app_r.
  - now rewrite last_char_app_r.
  - destruct (PyStr.repeat_char "0" _); [rewrite append_nil_l; assumption | discriminate].
Qed.

Lemma digit_char_inj (a b : N) :
  (a < 10)%N -> (b < 10)%N -> PyStr.digit_char a = PyStr.digit_char b -> a = b.
Proof.
  unfold PyStr.digit_char. intros Ha Hb E.
  apply (f_equal N_of_ascii) in E.
  rewrite !N_ascii_embedding in E by lia. lia.
Qed.

Lemma abs_mod10_succ (z : Z) : (Z.abs_N z mod 10 <> Z.abs_N (z + 1) mod 10)%N.
Proof.
  intros E. apply (f_equal Z.of_N) in E. rewrite !N2Z.inj_mod in E.
  rewrite !N2Z.inj_abs_N in E. simpl Z.of_N in E.
  Z.to_euclidean_division_equations. lia.
Qed.

(** Consecutive counters give names that differ: their last digits do. *)
Lemma counter_suffix_distinct (q q' : string) (z : Z) :
  q +:+ PyStr.zero_pad 6 z <> q' +:+ PyStr.zero_pad 6 (z + 1).
Proof.
  intros E. apply (f_equal PyStr.last_char) in E.
  assert (Hne : forall x, PyStr.zero_pad 6 x <> EmptyString).
  { intros x Hx. pose proof (zero_pad_last 6 x) as L. rewrite Hx in L. discriminate L. }
  rewrite !last_char_app_r in E by apply Hne.
  rewrite !zero_pad_last in E. injection E as E.
  apply digit_char_inj in E; [| apply N.mod_lt; discriminate ..].
  exact (abs_mod10_succ z E).
Qed.

(** ** [_build_filename] *)

(** One replacement field between two texts without braces: [{}] and
    [{0}] stand for the counter in decimal, [{:06d}] and [{0:06d}] for
    the counter on six digits. *)
Lemma format_one_field z pre post :
  PyStr.no_braces pre = true -> PyStr.no_braces post = true ->
  PyStr.format (pre +:+ "{}" +:+ post) z = Ok (pre +:+ PyStr.str_int z +:+ post)
  /\ PyStr.format (pre +:+ "{0}" +:+ post) z = Ok (pre +:+ PyStr.str_int z +:+ post)
  /\ PyStr.format (pre +:+ "{:06d}" +:+ post) z = Ok (pre +:+ PyStr.zero_pad 6 z +:+ post)
  /\ PyStr.format (pre +:+ "{0:06d}" +:+ post) z = Ok (pre +:+ PyStr.zero_pad 6 z +:+ post).
Proof.
  intros Hpre Hpost. unfold PyStr.format.
  repeat split; rewrite format_go_text by assumption;
    repeat rewrite append_cons; rewrite append_nil_l;
    cbn [PyStr.format_go].
  - change (PyStr.render_field PyStr.NumNone "" z)
      with (Ok (PyStr.str_int z, PyStr.NumAuto 1) : result (string * PyStr.numbering)).
    cbv iota beta. rewrite format_go_no_braces by assumption. reflexivity.
  - change (PyStr.render_field PyStr.NumNone ("" +:+ "0") z)
      with (Ok (PyStr.str_int z, PyStr.NumManual) : result (string * PyStr.numbering)).
    cbv iota beta. rewrite format_go_no_braces by assumption. reflexivity.
  - match goal with |- context [PyStr.render_field ?n ?f z] =>
      change (PyStr.render_field n f z)
        with (Ok (PyStr.zero_pad 6 z, PyStr.NumAuto 1) : result (string * PyStr.numbering))
    end.
    cbv iota beta. rewrite format_go_no_braces by assumption. reflexivity.
  - match goal with |- context [PyStr.render_field ?n ?f z] =>
      change (PyStr.render_field n f z)
        with (Ok (PyStr.zero_pad 6 z, PyStr.NumManual) : result (string * PyStr.numbering))
    end.
    cbv iota beta. rewrite format_go_no_braces by assumption. reflexivity.
Qed.

Lemma render_spec_exn spec z e : PyStr.render_spec spec z = Raise e -> e = NotModelled.
Proof.
  unfold PyStr.render_spec.
  match goal with |- context [let '(_, _) := ?b in _] => destruct b as [zero r] end.
  destruct (PyStr.split_at "d"%char r) as [w ty].
  destruct (negb (PyStr.all_digits w)); [congruence|].
  destruct ty as [[|a t]|]; congruence.
Qed.

Lemma render_field_exn num f z e :
  PyStr.render_field num f z = Raise e -> e <> NameError.
Proof.
  unfold PyStr.render_field.
  destruct (PyStr.split_at ":"%char f) as [nm spec].
  match goal with |- context [match ?i with Ok _ => _ | Raise _ => _ end] =>
    destruct i as [[[|k] nn]|e0] eqn:Ei end.
  - destruct (PyStr.render_spec (default EmptyString spec) z) as [t|e1] eqn:E; [discriminate|].
    intros H. injection H as <-. apply render_spec_exn in E. congruence.
  - congruence.
  - intros H. injection H as <-.
    destruct nm; [destruct num; congruence|].
    destruct (PyStr.all_digits _); [destruct num; congruence|].
    destruct (_ || _)%bool; congruence.
Qed.

Lemma prepend_exn c r e : PyStr.prepend c r = Raise e -> r = Raise e.
Proof. destruct r; [discriminate|]. intros H. now injection H as ->. Qed.

Lemma prepend_str_exn a r e : PyStr.prepend_str a r = Raise e -> r = Raise e.
Proof. destruct r; [discriminate|]. intros H. now injection H as ->. Qed.

(** [str.format] raises no [NameError]. *)
Lemma format_go_exn z n :
  forall s num fld e,
    (String.length s <= n)%nat ->
    PyStr.format_go z num fld s = Raise e -> e <> NameError.
Proof.
  induction n as [|n IH]; intros s num fld e Hlen H.
  { destruct s; [|simpl in Hlen; lia]. destruct fld; cbn in H; congruence. }
  destruct s as [|c s]; [destruct fld; cbn in H; congruence|].
  simpl in Hlen.
  destruct fld as [f|].
  - destruct (ascii_dec c "}"%char) as [->|Hc].
    + cbn [PyStr.format_go] in H.
      destruct (PyStr.render_field num f z) as [[txt num']|e0] eqn:E.
      * apply prepend_str_exn in H. apply (IH s num' None e ltac:(lia) H).
      * injection H as <-. apply (render_field_exn _ _ _ _ E).
    + destruct (ascii_dec c "{"%char) as [->|Ho].
      * cbn [PyStr.format_go] in H. injection H as <-. destruct (PyStr.mem_char _ _); congruence.
      * rewrite format_go_field_char in H by assumption.
        apply (IH s num _ e ltac:(lia) H).
  - destruct (ascii_dec c "{"%char) as [->|Ho].
    + destruct s as [|c2 s]; [cbn in H; congruence|]. simpl in Hlen.
      destruct (ascii_dec c2 "{"%char) as [->|Ho2].
      * cbn [PyStr.format_go] in H. apply prepend_exn in H.
        apply (IH s num None e ltac:(lia) H).
      * rewrite format_go_open_field in H by assumption.
        apply (IH (String c2 s) num _ e ltac:(simpl; lia) H).
    + destruct (ascii_dec c "}"%char) as [->|Hc].
      * destruct s as [|c2 s]; [cbn in H; congruence|]. simpl in Hlen.
        destruct (ascii_dec c2 "}"%char) as [->|Hc2].
        -- cbn [PyStr.format_go] in H. apply prepend_exn in H.
           apply (IH s num None e ltac:(lia) H).
        -- rewrite format_go_close_single in H by assumption. congruence.
      * rewrite format_go_text_char in H by assumption. apply prepend_exn in H.
        apply (IH s num None e ltac:(lia) H).
Qed.

Lemma format_exn z s e : PyStr.format s z = Raise e -> e <> NameError.
Proof. apply (format_go_exn z (String.length s) s _ _ e (le_n _)). Qed.




(** ** The scan manager *)

Example start_scan_names :
  Manager._running manager_scanning = true
  /\ Manager._base_file_name manager_scanning = Some "000003_26-11-04_align_{0:06d}"
  /\ Manager.counter manager_scanning = 0.
Proof. repeat split. Qed.

(** [start_scan] leaves a running scan whose base file name ends with
    the counter field, and a counter at zero, whenever it gets as far as
    naming the scan (also when it raises after that). *)
Lemma start_scan_base_file_name ns today t0 label localmeta m r :
  Manager.start_scan ns today t0 label localmeta m = r ->
  match r with
  | Return _ m' | Throw _ m' | Blocked m' =>
      Manager._running m' = true ->
      Manager._running m = false ->
      Manager.counter m' = 0
      /\ exists sn, Manager._base_file_name m' = Some (sn +:+ Manager.counter_field)
  end.
Proof.
  intros <-. unfold Manager.start_scan.
  destruct (Manager._running m) eqn:Hr; [simpl; congruence|].
  destruct ns as [n|]; [|simpl; congruence].
  repeat match goal with
         | |- context [match ?x with _ => _ end] =>
             lazymatch x with
             | context [match _ with _ => _ end] => fail
             | _ => destruct x
             end
         end; simpl; intros _ _; (split; [reflexivity | eexists; reflexivity]).
Qed.

(** C10. Setting a valid investigation while no scan runs stores the
    name and resets the experiment entry to [None]; every other entry of
    the configuration, and every other attribute, stays as it was. *)
Theorem investigation_setter_frame (m : Manager.manager) (v : string) :
  Manager._running m = false ->
  Manager._valid_name v = true ->
  exists m',
    Manager.set_investigation (Some v) m = Return tt m'
    /\ Manager.config m' !! "investigation" = Some (PStr v)
    /\ Manager.config m' !! "experiment" = Some PNone
    /\ (forall k, k <> "investigation" -> k <> "experiment" ->
          Manager.config m' !! k = Manager.config m !! k)
    /\ m' = Manager.with_config (Manager.config m') m.
Proof.
  intros Hr Hv. eexists. unfold Manager.set_investigation. rewrite Hr, Hv.
  split; [reflexivity|]. cbn.
  repeat split.
  - rewrite lookup_insert_ne by discriminate. apply lookup_insert_eq.
  - apply lookup_insert_eq.
  - intros k H1 H2. now rewrite !lookup_insert_ne by congruence.
Qed.

Lemma investigation_setter_witness :
  exists m',
    Manager.set_investigation (Some "tomo_2024") manager0 = Return tt m'
    /\ Manager.config m' !! "investigation" = Some (PStr "tomo_2024")
    /\ Manager.config m' !! "experiment" = Some PNone
    /\ (forall k, k <> "investigation" -> k <> "experiment" ->
          Manager.config m' !! k = Manager.config manager0 !! k)
    /\ m' = Manager.with_config (Manager.config m') manager0.
Proof. exact (investigation_setter_frame manager0 "tomo_2024" eq_refl eq_refl). Defined.

(** ** Validated configuration entries *)

Example world_rolling_is_rolling :
  Camera.rolling (Camera.cam world_rolling) = true
  /\ Camera.armed (Camera.cam world_rolling) = true
  /\ Camera.stop_rolling_flag (Camera.cam world_rolling) = false
  /\ Camera.exposure_time (Camera.cam world_rolling) = 0.25%float
  /\ Camera.trace world_rolling = [Camera.HookArm; Camera.ThreadStarted].
Proof. vm_compute. repeat split. Qed.

(** C9. The [save_mode] setter lower-cases its argument; a value outside
    ram, append, single raises [RuntimeError] and leaves everything as it
    was; a valid one is stored lower-cased and passed to the file writer.
    Both validated setters keep [save_mode] and [file_format] inside
    their sets. *)
Theorem save_mode_setter_validates (mode : string) (w : Camera.world) :
  let m := PyStr.lower mode in
  (m ∉ ["ram"; "append"; "single"] ->
     Camera.set_save_mode mode w = Throw RuntimeError w)
  /\ (m ∈ ["ram"; "append"; "single"] ->
     Camera.set_save_mode mode w
     = Return tt (Camera.mkWorld
                    (Camera.with_config
                       (Camera.cfg_with_save_mode m (Camera.config (Camera.cam w)))
                       (Camera.cam w))
                    (Camera.man w) (Camera.trace w ++ [Camera.FileSetMode m])))
  /\ (Camera.config_ok (Camera.config (Camera.cam w)) ->
     Camera.config_ok (Camera.config (Camera.cam (state_of (Camera.set_save_mode mode w))))
     /\ Camera.config_ok
          (Camera.config (Camera.cam (state_of (Camera.set_file_format mode w))))).
Proof.
  intros m. unfold Camera.set_save_mode, Camera.set_file_format. fold m.
  split; [|split].
  - intros H. rewrite bool_decide_eq_false_2 by assumption. reflexivity.
  - intros H. rewrite bool_decide_eq_true_2 by assumption. reflexivity.
  - destruct w as [[? ? ? [] ? ? ? ? ? ? ? ? ? ? ? ? ? ? ? ? ? ? ? ? ? ? ?] mm t].
    intros [Hs Hf]. cbn in Hs, Hf. split.
    + destruct (bool_decide_reflect (m ∈ ["ram"; "append"; "single"])) as [H|H].
      * split; [exact H | exact Hf].
      * split; assumption.
    + repeat case_bool_decide; (split; [exact Hs|]); cbn; try exact Hf.
      * apply list_elem_of_here.
      * apply list_elem_of_further, list_elem_of_here.
Qed.

Lemma save_mode_setter_witness :
  Camera.set_save_mode "bogus" world0 = Throw RuntimeError world0
  /\ Camera.save_mode
       (Camera.config (Camera.cam (state_of (Camera.set_save_mode "RAM" world0)))) = "ram"
  /\ Camera.config_ok
       (Camera.config (Camera.cam (state_of (Camera.set_save_mode "bogus" world0)))).
Proof.
  split; [|split].
  - apply (save_mode_setter_validates "bogus" world0).
    change (PyStr.lower "bogus") with "bogus".
    repeat (apply not_elem_of_cons; split; [discriminate|]). apply not_elem_of_nil.
  - rewrite (proj1 (proj2 (save_mode_setter_validates "RAM" world0))); [reflexivity|].
    change (PyStr.lower "RAM") with "ram". apply list_elem_of_here.
  - apply (save_mode_setter_validates "bogus" world0).
    split; [apply list_elem_of_further|]; apply list_elem_of_here.
Defined.

(** ** Calls that break an invariant *)

(** C3, as the code has it. [arm] on a rolling camera raises
    [RuntimeError], and so do the setters of [investigation] and
    [experiment] while a scan runs, all without changing anything.
    [snap] on a rolling camera does not raise: it logs a warning and
    returns, the camera unchanged. *)
Theorem invariant_violations_reported
    (trig : nat -> Camera.trigger_outcome) (js : option exn) (fuel : nat)
    (w : Camera.world) (exp_time : option float) (exp_num : option Z)
    (m : Manager.manager) (v : option string) :
  (Camera.rolling (Camera.cam w) = true ->
     Camera.arm exp_time exp_num w = Throw RuntimeError w)
  /\ (Manager._running m = true ->
     Manager.set_investigation v m = Throw RuntimeError m
     /\ Manager.set_experiment v m = Throw RuntimeError m)
  /\ (Camera.rolling (Camera.cam w) = true ->
     Camera.snap trig js fuel exp_time exp_num w
     = Return tt (Camera.mkWorld (Camera.cam w) (Camera.man w)
                    (Camera.trace w
                     ++ [Camera.Log Camera.Warning "Cannot snap while in rolling mode."]))).
Proof.
  split; [|split].
  - intros H. unfold Camera.arm, Camera.bind, Camera.get. cbn. now rewrite H.
  - intros H. unfold Manager.set_investigation, Manager.set_experiment.
    rewrite H. destruct v; split; reflexivity.
  - intros H. unfold Camera.snap, Camera.bind, Camera.get. cbn. now rewrite H.
Qed.

Lemma invariant_violations_witness :
  Camera.arm (Some 2%float) None world_rolling = Throw RuntimeError world_rolling
  /\ Manager.set_experiment (Some "run2") manager_scanning
     = Throw RuntimeError manager_scanning
  /\ Camera.snap trigger_ok None 4 None None world_rolling
     = Return tt (Camera.mkWorld (Camera.cam world_rolling) (Camera.man world_rolling)
                    (Camera.trace world_rolling
                     ++ [Camera.Log Camera.Warning "Cannot snap while in rolling mode."])).
Proof.
  split; [|split].
  - apply (invariant_violations_reported trigger_ok None 4 world_rolling
             (Some 2%float) None manager_scanning None). reflexivity.
  - apply (invariant_violations_reported trigger_ok None 4 world_rolling
             None None manager_scanning (Some "run2")). reflexivity.
  - apply (invariant_violations_reported trigger_ok None 4 world_rolling
             None None manager_scanning None). reflexivity.
Defined.

(** C3 as stated fails: on the rolling camera, [snap] raises nothing. *)
Lemma snap_while_rolling_does_not_raise :
  ~ exists e w', Camera.snap trigger_ok None 4 None None world_rolling = Throw e w'.
Proof. intros (e & w' & H). vm_compute in H. discriminate H. Qed.

(** ** [enqueue_frame] *)

(** One call of [enqueue_frame], with the lock free and the two bundles
    distinct objects. *)
Lemma enqueue_frame_step (fr : Camera.frame) (meta : dict) (w : Camera.world) :
  let c := Camera.cam w in
  let md := Camera.metadata c in
  let lm := Camera.localmeta c in
  Camera.enqueue_lock c = false ->
  md <> lm ->
  exists w1,
    let c1 := Camera.cam w1 in
    Camera.enqueue_frame fr meta w = Return tt w1
    /\ Camera.frame_queue_empty_flag c1 = false
    /\ Camera.enqueue_lock c1 = false
    /\ (Camera.metadata c1 ∉ (({[md; lm]} ∪ dom (Camera.heap c)) : gset loc))
    /\ (Camera.localmeta c1 ∉ (({[md; lm]} ∪ dom (Camera.heap c)) : gset loc))
    /\ Camera.metadata c1 <> Camera.localmeta c1
    /\ Camera.heap c1 !! Camera.metadata c1 = Some ∅
    /\ Camera.heap c1 !! Camera.localmeta c1 = Some ∅
    /\ Camera.heap c1 !! lm = Some (dict_update (Camera.heap c !!! lm) meta)
    /\ Camera.heap c1 !! md
       = Some (<[PyStr.lower (Camera.name c) := PRef lm]> (Camera.heap c !!! md))
    /\ (forall l, l <> md -> l <> lm -> l <> Camera.metadata c1 ->
          l <> Camera.localmeta c1 -> Camera.heap c1 !! l = Camera.heap c !! l)
    /\ Camera.frame_queue c1 = (Camera.frame_queue c ++ [(fr, md)])%list
    /\ Camera.name c1 = Camera.name c
    /\ Camera.trace w1 = Camera.trace w /\ Camera.man w1 = Camera.man w.
Proof.
  destruct w as [c m t]. destruct c. cbn. intros Hlock Hne. subst.
  unfold Camera.enqueue_frame, Camera.enqueue_statements, Camera.run_statements,
    Camera.bind, Camera.get, Camera.modify. cbn.
  set (live := (({[metadata; localmeta]} ∪ dom heap) : gset loc)).
  set (l1 := fresh live).
  set (l2 := fresh ({[l1]} ∪ live)).
  assert (F1 : l1 ∉ live) by apply is_fresh.
  assert (F2 : l2 ∉ (({[l1]} ∪ live) : gset loc)) by apply is_fresh.
  assert (l1 <> metadata /\ l1 <> localmeta /\ l2 <> metadata /\ l2 <> localmeta
          /\ l2 <> l1) as (A1 & A2 & A3 & A4 & A5).
  { subst live. set_unfold. naive_solver. }
  assert (T1 : (<[l2:=∅]> (<[l1:=∅]> heap) : gmap loc dict) !!! localmeta
               = heap !!! localmeta).
  { now rewrite !lookup_total_insert_ne by congruence. }
  assert (T2 : (<[localmeta:=dict_update (heap !!! localmeta) meta]>
                  (<[l2:=∅]> (<[l1:=∅]> heap)) : gmap loc dict) !!! metadata
               = heap !!! metadata).
  { now rewrite !lookup_total_insert_ne by congruence. }
  eexists. split; [reflexivity|]. cbn. rewrite T1, T2.
  repeat split; try assumption.
  - intros Hin. apply F2, elem_of_union_r, Hin.
  - congruence.
  - rewrite !lookup_insert_ne by congruence. apply lookup_insert_eq.
  - rewrite !lookup_insert_ne by congruence. apply lookup_insert_eq.
  - rewrite lookup_insert_ne by congruence. apply lookup_insert_eq.
  - apply lookup_insert_eq.
  - intros l H1 H2 H3 H4. now rewrite !lookup_insert_ne by congruence.
Qed.

(** While a call of [enqueue_frame] is inside [with self.enqueue_lock],
    from the moment the lock is taken to the last statement of the
    block, the lock is held. *)
Lemma enqueue_frame_after_locked (fr : Camera.frame) (meta : dict) (n : nat)
    (w : Camera.world) :
  (1 <= n <= 7)%nat ->
  Camera.enqueue_lock (Camera.cam (Camera.enqueue_frame_after n fr meta w)) = true.
Proof.
  intros Hn. destruct w as [c m t]. destruct c.
  unfold Camera.enqueue_frame_after, Camera.enqueue_statements.
  do 8 (destruct n as [|n]; [first [reflexivity | lia]|]). lia.
Qed.

(** A caller that finds the lock taken does not enter. *)
Lemma enqueue_frame_waits (fr : Camera.frame) (meta : dict) (w : Camera.world) :
  Camera.enqueue_lock (Camera.cam w) = true -> Camera.enqueue_frame fr meta w = Blocked w.
Proof.
  intros H. unfold Camera.enqueue_frame, Camera.bind, Camera.get. now rewrite H.
Qed.

(** C4. With the enqueue lock free, [enqueue_frame] takes the lock, runs
    its statements with the lock held (a second call made at any point
    from there to the last of them finds the lock taken and does not
    enter), and releases it. The statements clear the queue-empty flag, replace
    [self.metadata] and [self.localmeta] by two new empty dictionaries,
    update the detached local bundle with the readout metadata and store
    it in the detached bundle under the lower-cased device name, and
    push exactly one pair. The next frame gets the new bundle: the one
    already queued is neither attached again nor written to. *)
Theorem enqueue_frame_attaches_once
    (fr fr2 : Camera.frame) (meta meta2 : dict) (w : Camera.world) :
  let c := Camera.cam w in
  let md := Camera.metadata c in
  let lm := Camera.localmeta c in
  let key := PyStr.lower (Camera.name c) in
  Camera.enqueue_lock c = false ->
  md <> lm ->
  exists w1 w2,
    let c1 := Camera.cam w1 in
    let c2 := Camera.cam w2 in
    Camera.enqueue_frame fr meta w = Return tt w1
    (* under the mutex: eight statements, the first takes the lock and
       the last releases it *)
    /\ Camera.enqueue_frame_after 0 fr meta w = w
    /\ Camera.enqueue_frame_after 1 fr meta w
       = Camera.mkWorld (Camera.with_enqueue_lock true c) (Camera.man w) (Camera.trace w)
    /\ (forall n, (1 <= n <= 7)%nat ->
          let inside := Camera.enqueue_frame_after n fr meta w in
          Camera.enqueue_lock (Camera.cam inside) = true
          /\ Camera.enqueue_frame fr2 meta2 inside = Blocked inside)
    /\ Camera.enqueue_frame_after 8 fr meta w = w1
    (* what the statements do *)
    /\ Camera.frame_queue_empty_flag c1 = false
    /\ Camera.enqueue_lock c1 = false
    /\ Camera.heap c1 !! Camera.metadata c1 = Some ∅
    /\ Camera.heap c1 !! Camera.localmeta c1 = Some ∅
    /\ Camera.metadata c1 <> md /\ Camera.metadata c1 <> lm
    /\ Camera.localmeta c1 <> md /\ Camera.localmeta c1 <> lm
    /\ Camera.heap c1 !! lm = Some (dict_update (Camera.heap c !!! lm) meta)
    /\ Camera.heap c1 !! md = Some (<[key := PRef lm]> (Camera.heap c !!! md))
    /\ Camera.frame_queue c1 = (Camera.frame_queue c ++ [(fr, md)])%list
    (* the next frame *)
    /\ Camera.enqueue_frame fr2 meta2 w1 = Return tt w2
    /\ Camera.frame_queue c2
       = (Camera.frame_queue c ++ [(fr, md); (fr2, Camera.metadata c1)])%list
    /\ Camera.heap c2 !! md = Camera.heap c1 !! md
    /\ Camera.heap c2 !! lm = Camera.heap c1 !! lm
    /\ Camera.heap c2 !! Camera.metadata c1
       = Some (<[key := PRef (Camera.localmeta c1)]> ∅)
    /\ Camera.heap c2 !! Camera.localmeta c1 = Some (dict_update ∅ meta2).
Proof.
  intros c md lm key Hlock Hne.
  destruct (enqueue_frame_step fr meta w Hlock Hne)
    as (w1 & E1 & Hflag & Hl1 & Hm1 & Hlm1 & Hne1 & Hmd0 & Hlm0 & Hlm & Hmd & _ & Hq & Hn & _).
  fold c md lm in Hm1, Hlm1, Hlm, Hmd, Hq, Hn.
  destruct (enqueue_frame_step fr2 meta2 w1 Hl1 Hne1)
    as (w2 & E2 & _ & _ & Hm2 & Hlm2 & _ & _ & _ & Hlm' & Hmd' & Hother & Hq2 & _).
  assert (Dmd : md ∈ dom (Camera.heap (Camera.cam w1))) by (apply elem_of_dom; eauto).
  assert (Dlm : lm ∈ dom (Camera.heap (Camera.cam w1))) by (apply elem_of_dom; eauto).
  exists w1, w2. cbn zeta.
  split; [exact E1|].
  split; [now destruct w|].
  split; [reflexivity|].
  split.
  { intros n Hin. split; [now apply enqueue_frame_after_locked|].
    now apply enqueue_frame_waits, enqueue_frame_after_locked. }
  split.
  { clear -E1 Hlock. destruct w as [c0 m t]. destruct c0. cbn in Hlock. subst.
    unfold Camera.enqueue_frame, Camera.bind, Camera.get in E1.
    cbn [Camera.cam Camera.enqueue_lock] in E1.
    unfold Camera.enqueue_frame_after. cbn [Camera.cam].
    rewrite firstn_all2 by (unfold Camera.enqueue_statements; cbn; lia).
    now rewrite E1. }
  repeat match goal with |- _ /\ _ => split end; try assumption.
  - intros E. apply Hm1. rewrite E. set_solver.
  - intros E. apply Hm1. rewrite E. set_solver.
  - intros E. apply Hlm1. rewrite E. set_solver.
  - intros E. apply Hlm1. rewrite E. set_solver.
  - rewrite Hq2, Hq. now rewrite <- app_assoc.
  - apply Hother.
    + intros E. apply Hm1. rewrite <- E. set_solver.
    + intros E. apply Hlm1. rewrite <- E. set_solver.
    + intros E. apply Hm2. rewrite <- E. set_solver.
    + intros E. apply Hlm2. rewrite <- E. set_solver.
  - apply Hother.
    + intros E. apply Hm1. rewrite <- E. set_solver.
    + intros E. apply Hlm1. rewrite <- E. set_solver.
    + intros E. apply Hm2. rewrite <- E. set_solver.
    + intros E. apply Hlm2. rewrite <- E. set_solver.
  - rewrite Hmd'. rewrite Hn. f_equal. f_equal.
    now rewrite (lookup_total_correct _ _ _ Hmd0).
  - rewrite Hlm'. f_equal. f_equal.
    now rewrite (lookup_total_correct _ _ _ Hlm0).
Qed.

Lemma enqueue_frame_witness :
  exists w1 w2,
    Camera.enqueue_frame [1%N] {["temperature" := PInt 20]} world0 = Return tt w1
    /\ (forall n, (1 <= n <= 7)%nat ->
          let inside :=
            Camera.enqueue_frame_after n [1%N] {["temperature" := PInt 20]} world0 in
          Camera.enqueue_lock (Camera.cam inside) = true
          /\ Camera.enqueue_frame [2%N] ∅ inside = Blocked inside)
    /\ Camera.frame_queue (Camera.cam w1) = ([] ++ [([1%N], 1%positive)])%list
    /\ Camera.heap (Camera.cam w1) !! 1%positive
       = Some (<["varex" := PRef 2%positive]> (Camera.heap camera0 !!! 1%positive))
    /\ Camera.enqueue_frame [2%N] ∅ w1 = Return tt w2
    /\ Camera.frame_queue (Camera.cam w2)
       = ([] ++ [([1%N], 1%positive); ([2%N], Camera.metadata (Camera.cam w1))])%list.
Proof.
  destruct (enqueue_frame_attaches_once [1%N] [2%N] {["temperature" := PInt 20]} ∅ world0
              eq_refl ltac:(discriminate))
    as (w1 & w2 & E1 & _ & _ & Hin & _ & _ & _ & _ & _ & _ & _ & _ & _ & _ & Hmd & Hq & E2
        & Hq2 & _).
  exists w1, w2. repeat split; try assumption; now apply Hin.
Defined.

(** ** The acquisition loop *)

(** [enqueue_frame] touches the queue and the metadata store only. *)
Lemma enqueue_frame_store (fr : Camera.frame) (meta : dict) (w : Camera.world) :
  Camera.enqueue_lock (Camera.cam w) = false ->
  exists h md lm q fl,
    Camera.enqueue_frame fr meta w
    = Return tt (Camera.mkWorld (Camera.store_update h md lm q fl (Camera.cam w))
                   (Camera.man w) (Camera.trace w)).
Proof.
  intros Hlock. destruct w as [c m t]. destruct c. cbn in Hlock. subst.
  unfold Camera.enqueue_frame, Camera.enqueue_statements, Camera.run_statements,
    Camera.bind, Camera.get, Camera.modify. cbn.
  do 5 eexists. reflexivity.
Qed.

Lemma store_update_twice h md lm q fl h' md' lm' q' fl' (c : Camera.camera) :
  Camera.store_update h' md' lm' q' fl' (Camera.store_update h md lm q fl c)
  = Camera.store_update h' md' lm' q' fl' c.
Proof. destruct c. reflexivity. Qed.

Lemma store_update_self (c : Camera.camera) :
  Camera.store_update (Camera.heap c) (Camera.metadata c) (Camera.localmeta c)
    (Camera.frame_queue c) (Camera.frame_queue_empty_flag c) c = c.
Proof. destruct c. reflexivity. Qed.

Lemma store_update_lock h md lm q fl (c : Camera.camera) :
  Camera.enqueue_lock (Camera.store_update h md lm q fl c) = Camera.enqueue_lock c.
Proof. destruct c. reflexivity. Qed.

Lemma enqueue_all_store (l : list (Camera.frame * dict)) (w : Camera.world) :
  Camera.enqueue_lock (Camera.cam w) = false ->
  exists h md lm q fl,
    Camera.enqueue_all l w
    = Return tt (Camera.mkWorld (Camera.store_update h md lm q fl (Camera.cam w))
                   (Camera.man w) (Camera.trace w)).
Proof.
  revert w. induction l as [|[fr meta] l IH]; intros w Hlock.
  - exists (Camera.heap (Camera.cam w)), (Camera.metadata (Camera.cam w)),
      (Camera.localmeta (Camera.cam w)), (Camera.frame_queue (Camera.cam w)),
      (Camera.frame_queue_empty_flag (Camera.cam w)).
    rewrite store_update_self. now destruct w.
  - destruct (enqueue_frame_store fr meta w Hlock) as (h & md & lm & q & fl & E1).
    cbn [Camera.enqueue_all]. unfold Camera.bind. rewrite E1.
    match goal with |- context [Camera.enqueue_all l ?W] =>
      destruct (IH W) as (h' & md' & lm' & q' & fl' & E2) end.
    { cbn [Camera.cam]. now rewrite store_update_lock. }
    rewrite E2. exists h', md', lm', q', fl'.
    cbn [Camera.cam Camera.man Camera.trace]. now rewrite store_update_twice.
Qed.

(** One call of [_trigger]: the frames go to the queue, the call is
    counted, and its end is recorded. *)
Lemma call_trigger_spec (trig : nat -> Camera.trigger_outcome) (w : Camera.world) :
  Camera.enqueue_lock (Camera.cam w) = false ->
  exists h md lm q fl,
    let c' := Camera.store_update h md lm q fl
                (Camera.with_ntrig (S (Camera.ntrig (Camera.cam w))) (Camera.cam w)) in
    Camera.call_trigger trig w
    = match Camera.raises (trig (Camera.ntrig (Camera.cam w))) with
      | Some e =>
          Throw e (Camera.mkWorld c' (Camera.man w)
                     (Camera.trace w ++ [Camera.TriggerCalled; Camera.TriggerRaised e]))
      | None =>
          Return tt (Camera.mkWorld c' (Camera.man w)
                       (Camera.trace w ++ [Camera.TriggerCalled; Camera.TriggerReturned]))
      end.
Proof.
  intros Hlock. unfold Camera.call_trigger, Camera.bind, Camera.get, Camera.emit,
    Camera.modify, Camera.raise. cbn [Camera.cam Camera.man Camera.trace].
  match goal with |- context [Camera.enqueue_all ?l ?W] =>
    destruct (enqueue_all_store l W) as (h & md & lm & q & fl & E) end.
  { destruct w as [[] ? ?]. exact Hlock. }
  rewrite E. exists h, md, lm, q, fl.
  cbn [Camera.cam Camera.man Camera.trace].
  destruct (Camera.raises (trig (Camera.ntrig (Camera.cam w)))); cbn;
    now rewrite <- app_assoc.
Qed.

(** A triggered turn of the acquisition loop, case by case. *)
Lemma loop_iteration_spec (trig : nat -> Camera.trigger_outcome) (js : option exn)
    (w : Camera.world) :
  Camera.do_acquire (Camera.cam w) = true ->
  Camera.enqueue_lock (Camera.cam w) = false ->
  exists h md lm q fl,
    let c := Camera.cam w in
    let f := Camera.filename c in
    let c0 := Camera.with_acquire_done true
                (Camera.store_update h md lm q fl
                   (Camera.with_ntrig (S (Camera.ntrig c))
                      (Camera.with_do_acquire false c))) in
    Camera.loop_iteration trig js w
    = match Camera.raises (trig (Camera.ntrig c)), Camera.rolling c with
      | None, false =>
          Return (if Camera.auto_armed c then Camera.Break else Camera.Continue)
            (Camera.mkWorld c0 (Camera.man w)
               (Camera.trace w
                ++ [Camera.FileOpen f; Camera.TriggerCalled; Camera.TriggerReturned;
                    Camera.AcquireDoneSet; Camera.FileClose f]
                ++ (if Camera.auto_armed c then [] else [Camera.HookRearm])))
      | None, true =>
          let t := (Camera.trace w
                    ++ [Camera.TriggerCalled; Camera.TriggerReturned;
                        Camera.AcquireDoneSet])%list in
          if Camera.stop_rolling_flag c
          then Return Camera.Break (Camera.mkWorld c0 (Camera.man w) t)
          else Return Camera.Continue
                 (Camera.mkWorld (Camera.with_do_acquire true c0) (Camera.man w) t)
      | Some e, false =>
          Return Camera.Break
            (Camera.mkWorld c0 (Camera.man w)
               (Camera.trace w
                ++ [Camera.FileOpen f; Camera.TriggerCalled; Camera.TriggerRaised e;
                    Camera.Log Camera.Exception "Error in _trigger";
                    Camera.AcquireDoneSet;
                    Camera.Log Camera.Warning (Camera.incomplete_file_warning f);
                    Camera.FileClose f]))
      | Some e, true =>
          match Camera.roll_off_with (Camera.disarm_with (Camera.join_self js) 2)
                  (Camera.mkWorld c0 (Camera.man w)
                     (Camera.trace w
                      ++ [Camera.TriggerCalled; Camera.TriggerRaised e;
                          Camera.Log Camera.Exception "Error in _trigger";
                          Camera.AcquireDoneSet]))
          with
          | Return _ w' => Return Camera.Break w'
          | Throw e' w' => Throw e' w'
          | Blocked w' => Blocked w'
          end
      end.
Proof.
  intros Hdo Hlock. destruct w as [c m t]. destruct c. cbn in Hdo, Hlock. subst.
  unfold Camera.loop_iteration, Camera.bind, Camera.get, Camera.modify, Camera.when,
    Camera.emit, Camera.try_except, Camera.ret.
  cbn [Camera.cam Camera.man Camera.trace Camera.do_acquire negb Camera.filename
       Camera.with_do_acquire Camera.rolling].
  destruct rolling; cbn [negb Camera.cam Camera.man Camera.trace Camera.ntrig];
    (match goal with |- context [Camera.call_trigger trig ?W] =>
       destruct (call_trigger_spec trig W eq_refl) as (h & md & lm & q & fl & E) end;
     cbv zeta in E; cbn [Camera.cam Camera.man Camera.trace Camera.ntrig] in E;
     exists h, md, lm, q, fl; rewrite E; clear E;
     destruct (Camera.raises (trig ntrig)) as [e|];
     cbn -[Camera.roll_off_with Camera.disarm_with];
     try destruct stop_rolling_flag; try destruct auto_armed;
     cbn -[Camera.roll_off_with Camera.disarm_with];
     rewrite <- ?app_assoc; cbn [app]; try reflexivity).
  all: match goal with |- context [Camera.roll_off_with ?d ?W] =>
         destruct (Camera.roll_off_with d W) end; reflexivity.
Qed.

(** [roll_off] called by the acquisition thread on a rolling camera: it
    returns, or the self-join's exception leaves it; either way it has
    called the disarm hook at most once and triggered nothing. *)
Lemma roll_off_in_thread (js : option exn) (W : Camera.world) :
  Camera.rolling (Camera.cam W) = true ->
  exists w' rest,
    (Camera.roll_off_with (Camera.disarm_with (Camera.join_self js) 2) W = Return tt w'
     \/ exists e, js = Some e
          /\ Camera.roll_off_with (Camera.disarm_with (Camera.join_self js) 2) W
             = Throw e w')
    /\ Camera.trace w' = (Camera.trace W ++ Camera.RollOffCalled :: rest)%list
    /\ (rest = [] \/ rest = [Camera.HookDisarm])
    /\ Camera.man w' = Camera.man W
    /\ Camera.MAX_FPS (Camera.cam w') = Camera.MAX_FPS (Camera.cam W)
    /\ Camera.ntrig (Camera.cam w') = Camera.ntrig (Camera.cam W)
    /\ Camera.acquire_done (Camera.cam w') = Camera.acquire_done (Camera.cam W)
    /\ Camera.enqueue_lock (Camera.cam w') = Camera.enqueue_lock (Camera.cam W)
    /\ Camera.abort_flag (Camera.cam w') = Camera.abort_flag (Camera.cam W).
Proof.
  intros Hroll. destruct W as [c m t]. destruct c. cbn in Hroll. subst.
  run_camera.
  destruct loop_future as [th|]; [destruct js as [[]|]|]; cbn;
    destruct (Camera.truthy_float _exposure_time_before_roll); cbn;
    destruct (Camera.truthy_Z _exposure_number_before_roll); cbn;
    rewrite <- ?app_assoc; cbn [app];
    eexists; eexists;
    (split; [first [left; reflexivity | right; eexists; split; reflexivity]|]);
    cbn; (split; [reflexivity|]); (split; [first [left; reflexivity | right; reflexivity]|]);
    repeat split.
Qed.

(** C1. In a turn of the acquisition loop that triggers, the one
    [acquire_done.set()] comes after [_trigger] has ended, returned or
    raised, and, when the camera is not rolling, before the
    [file_writer.close] of the file name read at the top of the turn; the
    flag is set when the turn ends. *)
Theorem acquire_done_between_trigger_and_close
    (trig : nat -> Camera.trigger_outcome) (js : option exn) (w : Camera.world) :
  Camera.do_acquire (Camera.cam w) = true ->
  Camera.enqueue_lock (Camera.cam w) = false ->
  let c := Camera.cam w in
  let out := Camera.loop_iteration trig js w in
  let trigger_end :=
    match Camera.raises (trig (Camera.ntrig c)) with
    | None => Camera.TriggerReturned
    | Some e => Camera.TriggerRaised e
    end in
  exists evs,
    Camera.trace (state_of out) = (Camera.trace w ++ evs)%list
    /\ Camera.precedes Camera.TriggerCalled trigger_end evs
    /\ Camera.precedes trigger_end Camera.AcquireDoneSet evs
    /\ Camera.acquire_done (Camera.cam (state_of out)) = true
    /\ (Camera.rolling c = false ->
        Camera.precedes Camera.AcquireDoneSet (Camera.FileClose (Camera.filename c)) evs).
Proof.
  intros Hdo Hlock c out trigger_end. subst c out trigger_end.
  destruct (loop_iteration_spec trig js w Hdo Hlock) as (h & md & lm & q & fl & E).
  cbv zeta in E. rewrite E. clear E.
  destruct w as [c m t]. destruct c. cbn in Hdo, Hlock. subst.
  cbn [Camera.cam Camera.man Camera.trace Camera.ntrig Camera.rolling Camera.filename
       Camera.auto_armed Camera.stop_rolling_flag].
  destruct (Camera.raises (trig ntrig)) as [e|], rolling.
  - (* the trigger raised, rolling *)
    match goal with |- context [Camera.roll_off_with ?d ?W] =>
      destruct (roll_off_in_thread js W eq_refl)
        as (w' & rest & Hout & Ht & Hrest & _ & _ & _ & Hdone & _) end.
    cbn in Ht, Hdone.
    match goal with |- context [state_of ?o] =>
      assert (Hs : state_of o = w') by
        (destruct Hout as [-> | (e' & _ & ->)]; reflexivity) end.
    rewrite Hs, Ht, Hdone. rewrite <- app_assoc. cbn [app].
    eexists. split; [reflexivity|].
    split; [|split; [|split; [reflexivity | discriminate]]].
    + show_precedes (@nil Camera.event) (@nil Camera.event)
        (Camera.Log Camera.Exception "Error in _trigger"
           :: Camera.AcquireDoneSet :: Camera.RollOffCalled :: rest).
    + show_precedes [Camera.TriggerCalled]
        [Camera.Log Camera.Exception "Error in _trigger"] (Camera.RollOffCalled :: rest).
  - (* the trigger raised, not rolling *)
    cbn. eexists. split; [reflexivity|].
    split; [|split; [|split; [reflexivity | intros _]]].
    + show_precedes [Camera.FileOpen filename] (@nil Camera.event)
        [Camera.Log Camera.Exception "Error in _trigger"; Camera.AcquireDoneSet;
         Camera.Log Camera.Warning (Camera.incomplete_file_warning filename);
         Camera.FileClose filename].
    + show_precedes [Camera.FileOpen filename; Camera.TriggerCalled]
        [Camera.Log Camera.Exception "Error in _trigger"]
        [Camera.Log Camera.Warning (Camera.incomplete_file_warning filename);
         Camera.FileClose filename].
    + show_precedes [Camera.FileOpen filename; Camera.TriggerCalled; Camera.TriggerRaised e;
                     Camera.Log Camera.Exception "Error in _trigger"]
        [Camera.Log Camera.Warning (Camera.incomplete_file_warning filename)]
        (@nil Camera.event).
  - (* the trigger returned, rolling *)
    exists [Camera.TriggerCalled; Camera.TriggerReturned; Camera.AcquireDoneSet].
    split; [destruct stop_rolling_flag; reflexivity|].
    split; [|split; [|split; [destruct stop_rolling_flag; reflexivity | discriminate]]].
    + show_precedes (@nil Camera.event) (@nil Camera.event) [Camera.AcquireDoneSet].
    + show_precedes [Camera.TriggerCalled] (@nil Camera.event) (@nil Camera.event).
  - (* the trigger returned, not rolling *)
    cbn. eexists. split; [reflexivity|].
    split; [|split; [|split; [reflexivity | intros _]]].
    + show_precedes [Camera.FileOpen filename] (@nil Camera.event)
        (Camera.AcquireDoneSet :: Camera.FileClose filename
           :: (if auto_armed then [] else [Camera.HookRearm])).
    + show_precedes [Camera.FileOpen filename; Camera.TriggerCalled] (@nil Camera.event)
        (Camera.FileClose filename :: (if auto_armed then [] else [Camera.HookRearm])).
    + show_precedes [Camera.FileOpen filename; Camera.TriggerCalled; Camera.TriggerReturned]
        (@nil Camera.event) (if auto_armed then @nil Camera.event else [Camera.HookRearm]).
Qed.

Example iteration_trace_ok :
  Camera.trace (state_of (Camera.loop_iteration trigger_ok None world_pending))
  = [Camera.HookArm; Camera.ThreadStarted;
     Camera.FileOpen (Some "/data/snaps/snap_000001.h5");
     Camera.TriggerCalled; Camera.TriggerReturned; Camera.AcquireDoneSet;
     Camera.FileClose (Some "/data/snaps/snap_000001.h5"); Camera.HookRearm].
Proof. vm_compute. reflexivity. Qed.

Lemma acquire_done_order_witness :
  exists evs,
    Camera.trace (state_of (Camera.loop_iteration trigger_ok None world_pending))
    = (Camera.trace world_pending ++ evs)%list
    /\ Camera.precedes Camera.TriggerCalled Camera.TriggerReturned evs
    /\ Camera.precedes Camera.TriggerReturned Camera.AcquireDoneSet evs
    /\ Camera.acquire_done
         (Camera.cam (state_of (Camera.loop_iteration trigger_ok None world_pending))) = true
    /\ (Camera.rolling (Camera.cam world_pending) = false ->
        Camera.precedes Camera.AcquireDoneSet
          (Camera.FileClose (Some "/data/snaps/snap_000001.h5")) evs).
Proof.
  exact (acquire_done_between_trigger_and_close trigger_ok None world_pending
           eq_refl eq_refl).
Defined.

(** C2. When [_trigger] raises, the turn logs the exception, sets
    [acquire_done], and then closes the file (not rolling) or calls
    [roll_off] (rolling); the turn ends the loop, and the exception that
    may leave it is the self-join's, never the trigger's. Run as a
    thread, the loop finishes after that single trigger call. *)
Theorem trigger_failure_ends_loop
    (trig : nat -> Camera.trigger_outcome) (js : option exn) (k : nat)
    (w : Camera.world) (e : exn) :
  Camera.do_acquire (Camera.cam w) = true ->
  Camera.enqueue_lock (Camera.cam w) = false ->
  Camera.raises (trig (Camera.ntrig (Camera.cam w))) = Some e ->
  let c := Camera.cam w in
  let f := Camera.filename c in
  let caught := [Camera.TriggerCalled; Camera.TriggerRaised e;
                 Camera.Log Camera.Exception "Error in _trigger";
                 Camera.AcquireDoneSet] in
  exists w1 evs,
    (Camera.loop_iteration trig js w = Return Camera.Break w1
     \/ Camera.rolling c = true
        /\ exists e', js = Some e' /\ Camera.loop_iteration trig js w = Throw e' w1)
    /\ Camera.run_loop trig js (S k) w
       = Return tt (Camera.mkWorld (Camera.with_loop_future (Some Camera.Finished)
                                      (Camera.cam w1))
                      (Camera.man w1) (Camera.trace w1))
    /\ Camera.trace w1 = (Camera.trace w ++ evs)%list
    /\ Camera.acquire_done (Camera.cam w1) = true
    /\ Camera.ntrig (Camera.cam w1) = S (Camera.ntrig c)
    /\ (Camera.rolling c = false ->
        evs = (Camera.FileOpen f :: caught
               ++ [Camera.Log Camera.Warning (Camera.incomplete_file_warning f);
                   Camera.FileClose f])%list)
    /\ (Camera.rolling c = true ->
        exists rest,
          evs = (caught ++ Camera.RollOffCalled :: rest)%list
          /\ (rest = [] \/ rest = [Camera.HookDisarm])).
Proof.
  intros Hdo Hlock He c f caught. subst c f caught.
  destruct (loop_iteration_spec trig js w Hdo Hlock) as (h & md & lm & q & fl & E).
  cbv zeta in E. rewrite He in E.
  unfold Camera.run_loop, Camera.thread_turn, Camera.bind, Camera.try_except,
    Camera.when, Camera.modify, Camera.ret.
  rewrite E. clear E.
  destruct w as [c m t]. destruct c. cbn in Hdo, Hlock, He. subst.
  cbn [Camera.cam Camera.man Camera.trace Camera.ntrig Camera.rolling Camera.filename].
  destruct rolling.
  - match goal with |- context [Camera.roll_off_with ?d ?W] =>
      destruct (roll_off_in_thread js W eq_refl)
        as (w' & rest & Hout & Ht & Hrest & _ & _ & Hn & Hdone & _) end.
    cbn in Ht, Hdone, Hn.
    exists w', ([Camera.TriggerCalled; Camera.TriggerRaised e;
                 Camera.Log Camera.Exception "Error in _trigger";
                 Camera.AcquireDoneSet] ++ Camera.RollOffCalled :: rest)%list.
    split; [|split; [|split; [|split; [|split; [|split]]]]].
    + destruct Hout as [-> | (e' & -> & ->)]; [left | right; split]; eauto.
    + destruct Hout as [-> | (e' & -> & ->)]; reflexivity.
    + rewrite Ht. now rewrite <- app_assoc.
    + exact Hdone.
    + exact Hn.
    + discriminate.
    + intros _. exists rest. split; [reflexivity | exact Hrest].
  - eexists. eexists.
    split; [left; reflexivity|].
    split; [reflexivity|]. cbn.
    split; [reflexivity|]. repeat split. discriminate.
Qed.

Lemma trigger_failure_witness :
  let c := Camera.cam world_pending in
  let f := Camera.filename c in
  let caught := [Camera.TriggerCalled; Camera.TriggerRaised RuntimeError;
                 Camera.Log Camera.Exception "Error in _trigger";
                 Camera.AcquireDoneSet] in
  exists w1 evs,
    (Camera.loop_iteration trigger_failing None world_pending = Return Camera.Break w1
     \/ Camera.rolling c = true
        /\ exists e', None = Some e'
             /\ Camera.loop_iteration trigger_failing None world_pending = Throw e' w1)
    /\ Camera.run_loop trigger_failing None 1 world_pending
       = Return tt (Camera.mkWorld (Camera.with_loop_future (Some Camera.Finished)
                                      (Camera.cam w1))
                      (Camera.man w1) (Camera.trace w1))
    /\ Camera.trace w1 = (Camera.trace world_pending ++ evs)%list
    /\ Camera.acquire_done (Camera.cam w1) = true
    /\ Camera.ntrig (Camera.cam w1) = S (Camera.ntrig c)
    /\ (Camera.rolling c = false ->
        evs = (Camera.FileOpen f :: caught
               ++ [Camera.Log Camera.Warning (Camera.incomplete_file_warning f);
                   Camera.FileClose f])%list)
    /\ (Camera.rolling c = true ->
        exists rest,
          evs = (caught ++ Camera.RollOffCalled :: rest)%list
          /\ (rest = [] \/ rest = [Camera.HookDisarm])).
Proof.
  exact (trigger_failure_ends_loop trigger_failing None 0 world_pending RuntimeError
           eq_refl eq_refl eq_refl).
Defined.

(** The warning names the file, and reads [None] when there is none. *)
Example incomplete_file_warning_text :
  Camera.incomplete_file_warning (Some "/data/snaps/snap_000001.h5")
  = "File /data/snaps/snap_000001.h5 likely incomplete or corrupt because of an error in _trigger."
  /\ Camera.incomplete_file_warning None
     = "File None likely incomplete or corrupt because of an error in _trigger.".
Proof. split; reflexivity. Qed.

Example rolling_failure_trace :
  Camera.trace (state_of (Camera.run_loop trigger_failing (Some RuntimeError) 3 world_rolling))
  = [Camera.HookArm; Camera.ThreadStarted; Camera.TriggerCalled;
     Camera.TriggerRaised RuntimeError;
     Camera.Log Camera.Exception "Error in _trigger"; Camera.AcquireDoneSet;
     Camera.RollOffCalled]
  /\ Camera.rolling
       (Camera.cam (state_of (Camera.run_loop trigger_failing (Some RuntimeError) 3
                                world_rolling))) = true.
Proof. vm_compute. split; reflexivity. Qed.

(** ** [arm], [disarm], [roll_on], [roll_off] *)

(** C5, as the code has it. On an idle camera (neither armed nor
    rolling) whose manager, if connected, returns a scan path (the
    property does not raise), [arm] followed by [disarm] returns, and
    the camera differs from the one before [arm] in these attributes
    only: the exposure time and number are the ones given to [arm]
    where one was given and differs from the current one, and are
    recorded in the settings; [end_acquisition] is set; [acquire_done],
    [do_acquire] and [abort_flag] are clear; [_scan_path] is the scan
    path of the manager ([None] when not connected); [loop_future] is
    the finished thread; [armed] is false. Every other attribute is
    untouched: name, paths, maximal rate, the other configuration
    entries, the flags [closing], [rolling], [auto_armed] and
    [stop_rolling_flag], the file name, the enqueue lock, the exposure
    settings kept for the end of a rolling, the two metadata bundles and
    the dictionaries, the queue and its flag. A second [disarm] changes
    no attribute and raises nothing: it calls the [_disarm] hook once
    more. *)
Theorem arm_disarm_round_trip
    (trig : nat -> Camera.trigger_outcome) (js : option exn) (k : nat)
    (w : Camera.world) (exp_time : option float) (exp_num : option Z) :
  Camera.rolling (Camera.cam w) = false ->
  Camera.armed (Camera.cam w) = false ->
  match Camera.man w with
  | Some m => exists p, Manager.scan_path m = Ok p
  | None => True
  end ->
  let c := Camera.cam w in
  let g := Camera.config c in
  let new_time :=
    match exp_time with
    | Some t => negb (t =? Camera.exposure_time c)%float
    | None => false
    end in
  let new_number :=
    match exp_num with
    | Some n => negb (n =? Camera.exposure_number c)%Z
    | None => false
    end in
  exists w1 w2 evs,
    let c2 := Camera.cam w2 in
    let g2 := Camera.config c2 in
    Camera.arm exp_time exp_num w = Return tt w1
    /\ Camera.armed (Camera.cam w1) = true
    /\ Camera.disarm trig js (S k) w1 = Return tt w2
    (* what the two calls assign *)
    /\ Camera.exposure_time c2
       = (if new_time then default (Camera.exposure_time c) exp_time
          else Camera.exposure_time c)
    /\ Camera.exposure_number c2
       = (if new_number then default (Camera.exposure_number c) exp_num
          else Camera.exposure_number c)
    /\ Camera.settings_exposure_time g2
       = (if new_time then default (Camera.exposure_time c) exp_time
          else Camera.settings_exposure_time g)
    /\ Camera.settings_exposure_number g2
       = (if new_number then default (Camera.exposure_number c) exp_num
          else Camera.settings_exposure_number g)
    /\ Camera.end_acquisition c2 = true
    /\ Camera.acquire_done c2 = false
    /\ Camera.do_acquire c2 = false
    /\ Camera.abort_flag c2 = false
    /\ Camera._scan_path c2
       = match Camera.man w with
         | Some m => match Manager.scan_path m with Ok p => p | Raise _ => None end
         | None => None
         end
    /\ Camera.loop_future c2 = Some Camera.Finished
    /\ Camera.armed c2 = false
    (* what they leave as it was *)
    /\ Camera.name c2 = Camera.name c
    /\ Camera.BASE_PATH c2 = Camera.BASE_PATH c
    /\ Camera.MAX_FPS c2 = Camera.MAX_FPS c
    /\ Camera.same_config_but_exposure g g2
    /\ Camera.closing c2 = Camera.closing c
    /\ Camera.rolling c2 = false
    /\ Camera.auto_armed c2 = Camera.auto_armed c
    /\ Camera.filename c2 = Camera.filename c
    /\ Camera.enqueue_lock c2 = Camera.enqueue_lock c
    /\ Camera._exposure_time_before_roll c2 = Camera._exposure_time_before_roll c
    /\ Camera._exposure_number_before_roll c2 = Camera._exposure_number_before_roll c
    /\ Camera.metadata c2 = Camera.metadata c
    /\ Camera.localmeta c2 = Camera.localmeta c
    /\ Camera.heap c2 = Camera.heap c
    /\ Camera.frame_queue_empty_flag c2 = Camera.frame_queue_empty_flag c
    /\ Camera.stop_rolling_flag c2 = Camera.stop_rolling_flag c
    /\ Camera.frame_queue c2 = Camera.frame_queue c
    /\ Camera.ntrig c2 = Camera.ntrig c
    /\ Camera.man w2 = Camera.man w
    /\ Camera.trace w2
       = (Camera.trace w ++ evs ++ [Camera.HookArm; Camera.ThreadStarted; Camera.HookDisarm])%list
    /\ evs = match Camera.man w with
             | Some _ => []
             | None => [Camera.Log Camera.Error
                          "Not connected to manager! Can't check scan path!"]
             end
    (* the second [disarm] *)
    /\ Camera.disarm trig js (S k) w2
       = Return tt (Camera.mkWorld c2 (Camera.man w2) (Camera.trace w2 ++ [Camera.HookDisarm])).
Proof.
  intros Hroll Harmed Hman c g new_time new_number. subst c g new_time new_number.
  destruct w as [c m t]. destruct c. destruct config. cbn in Hroll, Harmed, Hman. subst.
  cbn [Camera.cam Camera.man Camera.trace Camera.exposure_time Camera.exposure_number
       Camera.config Camera.settings_exposure_time Camera.settings_exposure_number].
  destruct m as [m|]; [destruct Hman as [p Hp]|];
    destruct exp_time as [x|]; try (destruct (x =? exposure_time)%float eqn:Ex);
    destruct exp_num as [n|]; try (destruct (n =? exposure_number)%Z eqn:En);
    do 3 eexists;
    (split; [run_session;
             repeat (progress (try rewrite Hp; try rewrite Ex; try rewrite En; cbn));
             rewrite <- ?app_assoc; reflexivity|]);
    (split; [reflexivity|]);
    (split; [run_session; reflexivity|]);
    cbn; rewrite ?Hp;
    repeat match goal with |- _ /\ _ => split end;
    try reflexivity; try (repeat split; fail);
    rewrite <- !app_assoc; reflexivity.
Qed.

Lemma arm_disarm_witness :
  exists w2,
    Camera.disarm trigger_ok None 1 (state_of (Camera.arm (Some 2%float) (Some 3) world0))
    = Return tt w2
    /\ Camera.exposure_time (Camera.cam w2) = 2%float
    /\ Camera.exposure_number (Camera.cam w2) = 3
    /\ Camera.end_acquisition (Camera.cam w2) = true
    /\ Camera.metadata (Camera.cam w2) = Camera.metadata camera0
    /\ Camera.heap (Camera.cam w2) = Camera.heap camera0
    /\ Camera.trace w2 = [Camera.HookArm; Camera.ThreadStarted; Camera.HookDisarm].
Proof.
  destruct (arm_disarm_round_trip trigger_ok None 0 world0 (Some 2%float) (Some 3)
              eq_refl eq_refl (ex_intro _ None eq_refl))
    as (w1 & w2 & evs & H1 & _ & H2 & Ht & Hn & _ & _ & He & _ & _ & _ & _ & _ & _
        & _ & _ & _ & _ & _ & _ & _ & _ & _ & _ & _ & Hmd & _ & Hh & _ & _ & _ & _ & _
        & Htr & Hevs & _).
  exists w2. rewrite H1. cbn [state_of].
  repeat split; try assumption.
  rewrite Htr, Hevs. reflexivity.
Defined.

(** C5 as stated fails: after [arm(exp_time=2)] and [disarm()] the
    exposure time is 2, not the 1 it was, and [end_acquisition] is set. *)
Lemma arm_disarm_changes_state :
  Camera.exposure_time (Camera.cam world0) = 1%float
  /\ Camera.exposure_time
       (Camera.cam (state_of (Camera.disarm trigger_ok None 1
                                (state_of (Camera.arm (Some 2%float) None world0)))))
     = 2%float
  /\ Camera.end_acquisition (Camera.cam world0) = false
  /\ Camera.end_acquisition
       (Camera.cam (state_of (Camera.disarm trigger_ok None 1
                                (state_of (Camera.arm (Some 2%float) None world0)))))
     = true
  /\ Camera.cam (state_of (Camera.disarm trigger_ok None 1
                             (state_of (Camera.arm (Some 2%float) None world0))))
     <> Camera.cam world0.
Proof.
  split; [reflexivity|]. split; [reflexivity|]. split; [reflexivity|].
  split; [reflexivity|].
  intros E. apply (f_equal Camera.end_acquisition) in E. vm_compute in E. discriminate E.
Qed.

(** The acquisition thread of a rolling camera that was told to stop:
    its next turn is its last. *)
Lemma thread_turn_stopping (trig : nat -> Camera.trigger_outcome) (js : option exn)
    (w : Camera.world) :
  Camera.rolling (Camera.cam w) = true ->
  Camera.stop_rolling_flag (Camera.cam w) = true ->
  Camera.end_acquisition (Camera.cam w) = true ->
  Camera.enqueue_lock (Camera.cam w) = false ->
  exists w' evs,
    Camera.thread_turn trig js w = Return Camera.Break w'
    /\ Camera.man w' = Camera.man w
    /\ Camera.MAX_FPS (Camera.cam w') = Camera.MAX_FPS (Camera.cam w)
    /\ Camera.trace w' = (Camera.trace w ++ evs)%list
    /\ (Camera.HookArm ∉ evs)
    /\ Camera.loop_future (Camera.cam w') = Some Camera.Finished
    /\ Camera.abort_flag (Camera.cam w') = Camera.abort_flag (Camera.cam w).
Proof.
  intros Hroll Hstop Hend Hlock.
  destruct (Camera.do_acquire (Camera.cam w)) eqn:Hdo.
  - destruct (loop_iteration_spec trig js w Hdo Hlock) as (h & md & lm & q & fl & E).
    cbv zeta in E. rewrite Hroll, Hstop in E.
    unfold Camera.thread_turn, Camera.bind, Camera.try_except, Camera.when,
      Camera.modify, Camera.ret.
    rewrite E. clear E.
    destruct w as [c m t]. destruct c. cbn in Hroll, Hstop, Hend, Hlock, Hdo. subst.
    cbn [Camera.cam Camera.man Camera.trace Camera.ntrig].
    destruct (Camera.raises (trig ntrig)) as [e|].
    + match goal with |- context [Camera.roll_off_with ?d ?W] =>
        destruct (roll_off_in_thread js W eq_refl)
          as (w' & rest & Hout & Ht & Hrest & Hm & Hmax & _ & _ & _ & Hab) end.
      cbn in Ht, Hm, Hmax, Hab.
      exists (Camera.mkWorld (Camera.with_loop_future (Some Camera.Finished) (Camera.cam w'))
                (Camera.man w') (Camera.trace w')),
        ([Camera.TriggerCalled; Camera.TriggerRaised e;
          Camera.Log Camera.Exception "Error in _trigger";
          Camera.AcquireDoneSet] ++ Camera.RollOffCalled :: rest)%list.
      split; [destruct Hout as [-> | (e' & _ & ->)]; reflexivity|].
      cbn. split; [exact Hm|]. split; [destruct w' as [[] ? ?]; exact Hmax|].
      split; [rewrite Ht; now rewrite <- app_assoc|].
      split; [destruct Hrest as [-> | ->]; cbn; not_in_list|].
      destruct w' as [[] ? ?]. split; [reflexivity | exact Hab].
    + eexists. eexists. split; [reflexivity|]. cbn.
      repeat split. not_in_list.
  - destruct w as [c m t]. destruct c. cbn in Hroll, Hstop, Hend, Hlock, Hdo. subst.
    exists (Camera.mkWorld
              (Camera.with_loop_future (Some Camera.Finished)
                 (Camera.mkCamera name BASE_PATH MAX_FPS config exposure_time
                    exposure_number armed closing true auto_armed filename true
                    _scan_path abort_flag false _exposure_time_before_roll
                    _exposure_number_before_roll metadata localmeta heap false
                    acquire_done frame_queue_empty_flag true frame_queue loop_future
                    ntrig)) m t), (@nil Camera.event).
    split; [reflexivity|]. cbn. rewrite app_nil_r. repeat split. apply not_elem_of_nil.
Qed.

(** [roll_off] on a rolling camera, from the callers' thread: it returns
    with the camera neither rolling nor armed. *)
Lemma roll_off_rolling (trig : nat -> Camera.trigger_outcome) (js : option exn)
    (k : nat) (w : Camera.world) :
  Camera.rolling (Camera.cam w) = true ->
  Camera.enqueue_lock (Camera.cam w) = false ->
  exists w' evs,
    Camera.roll_off trig js (S k) w = Return tt w'
    /\ Camera.rolling (Camera.cam w') = false
    /\ Camera.armed (Camera.cam w') = false
    /\ Camera.man w' = Camera.man w
    /\ Camera.MAX_FPS (Camera.cam w') = Camera.MAX_FPS (Camera.cam w)
    /\ Camera.trace w'
       = (Camera.trace w ++ Camera.RollOffCalled :: evs ++ [Camera.HookDisarm])%list
    /\ (Camera.HookArm ∉ evs)
    /\ Camera.loop_future (Camera.cam w') <> Some Camera.Alive
    /\ Camera.abort_flag (Camera.cam w') = Camera.abort_flag (Camera.cam w).
Proof.
  intros Hroll Hlock.
  destruct w as [c m t]. destruct c. cbn in Hroll, Hlock. subst.
  assert (Hjoin : forall W,
    Camera.rolling (Camera.cam W) = true ->
    Camera.stop_rolling_flag (Camera.cam W) = true ->
    Camera.end_acquisition (Camera.cam W) = true ->
    Camera.enqueue_lock (Camera.cam W) = false ->
    exists w' evs,
      Camera.try_except (Camera.join_main trig js (S k))
        (fun e => match e with AttributeError => Some (Camera.ret tt) | _ => None end) W
      = Return tt w'
      /\ Camera.man w' = Camera.man W
      /\ Camera.MAX_FPS (Camera.cam w') = Camera.MAX_FPS (Camera.cam W)
      /\ Camera.trace w' = (Camera.trace W ++ evs)%list
      /\ (Camera.HookArm ∉ evs)
      /\ Camera.loop_future (Camera.cam w') <> Some Camera.Alive
      /\ Camera.abort_flag (Camera.cam w') = Camera.abort_flag (Camera.cam W)).
  { intros W H1 H2 H3 H4.
    unfold Camera.try_except, Camera.join_main, Camera.bind, Camera.get.
    destruct (Camera.loop_future (Camera.cam W)) as [[|]|] eqn:Hf.
    - cbn [Camera.run_loop]. unfold Camera.bind.
      destruct (thread_turn_stopping trig js W H1 H2 H3 H4)
        as (w' & evs & -> & Hm & Hmax & Ht & Hn & Hfin & Hab).
      exists w', evs. repeat split; try assumption. congruence.
    - exists W, []. rewrite app_nil_r. repeat split; [apply not_elem_of_nil | congruence].
    - exists W, []. rewrite app_nil_r. repeat split; [apply not_elem_of_nil | congruence]. }
  unfold Camera.roll_off, Camera.roll_off_with, Camera.disarm, Camera.disarm_with,
    Camera.disarm_body.
  unfold Camera.bind at 1. unfold Camera.emit at 1. cbv beta iota.
  unfold Camera.bind at 1. unfold Camera.get at 1. cbv beta iota.
  cbn [Camera.cam Camera.rolling negb].
  unfold Camera.bind at 1. unfold Camera.modify at 1. cbv beta iota.
  unfold Camera.bind at 1. unfold Camera.bind at 1. unfold Camera.get at 1.
  cbn [Camera.cam Camera.man Camera.trace Camera.with_stop_rolling_flag Camera.rolling
       Camera.stop_rolling_flag negb andb].
  unfold Camera.bind at 1. unfold Camera.modify at 1. cbv beta iota.
  cbn [Camera.cam Camera.man Camera.trace Camera.with_end_acquisition].
  unfold Camera.bind at 1.
  match goal with |- context [Camera.try_except ?j ?h ?W] =>
    destruct (Hjoin W eq_refl eq_refl eq_refl eq_refl)
      as (w' & evs & -> & Hm & Hmax & Ht & Hn & Hfin & Hab) end.
  clear Hjoin. cbn in Hm, Hmax, Ht, Hab.
  destruct w' as [c' m' t']. destruct c'. cbn in Hm, Hmax, Ht, Hfin, Hab. subst.
  unfold Camera.set_exposure_time, Camera.set_exposure_number, Camera.bind,
    Camera.get, Camera.modify, Camera.when, Camera.emit, Camera.ret.
  cbn.
  destruct (Camera.truthy_float _exposure_time_before_roll0); cbn;
    destruct (Camera.truthy_Z _exposure_number_before_roll0); cbn;
    eexists; exists evs; (split; [reflexivity|]); cbn;
    repeat split; try assumption;
    rewrite <- !app_assoc; reflexivity.
Qed.

(** C6. On a rolling camera, [roll_on(fps)] with [1/fps] within 0.01 of
    the current exposure time, as the code tests it on binary64 numbers
    ([abs(self.exposure_time - 1/fps) < .01]), only clears the stopping
    flag, which is already clear unless a stop is under way: nothing
    else changes and nothing is stopped or started. When the test fails
    it calls [roll_off] and then [roll_on(fps)] again: the camera ends
    rolling and armed with exposure time [1/fps], after a disarm and a
    new arm. *)
Theorem roll_on_idempotent_or_restart
    (trig : nat -> Camera.trigger_outcome) (js : option exn) (k : nat)
    (w : Camera.world) (fps : float) :
  Camera.rolling (Camera.cam w) = true ->
  (fps =? 0)%float = false ->
  let c := Camera.cam w in
  let close := Camera.close_enough (Camera.exposure_time c) fps in
  (close = true ->
     Camera.roll_on trig js (S k) (Some fps) w
     = Return tt (Camera.mkWorld (Camera.with_stop_rolling_flag false c)
                    (Camera.man w) (Camera.trace w))
     /\ (Camera.stop_rolling_flag c = false ->
         Camera.roll_on trig js (S k) (Some fps) w = Return tt w))
  /\ (close = false ->
      Camera.enqueue_lock c = false ->
      match Camera.man w with
      | Some m => exists p, Manager.scan_path m = Ok p
      | None => True
      end ->
      exists w' evs1 evs2,
        let c' := Camera.cam w' in
        Camera.roll_on trig js (S (S k)) (Some fps) w = Return tt w'
        /\ Camera.rolling c' = true
        /\ Camera.armed c' = true
        /\ Camera.exposure_time c' = (1 / fps)%float
        /\ Camera.exposure_number c' = 100
        /\ Camera.roll_fps (Camera.config c')
           = (if (Camera.MAX_FPS c <? fps)%float then Camera.MAX_FPS c else fps)
        /\ Camera.stop_rolling_flag c' = false
        /\ Camera.do_acquire c' = true
        /\ Camera.loop_future c' = Some Camera.Alive
        /\ Camera.trace w'
           = (Camera.trace w ++ Camera.RollOffCalled :: evs1
              ++ Camera.HookDisarm :: evs2
              ++ [Camera.HookArm; Camera.ThreadStarted])%list
        /\ (Camera.HookArm ∉ evs1) /\ (Camera.HookArm ∉ evs2)).
Proof.
  intros Hroll Hf0 c close. subst c close. split.
  - intros Hclose.
    assert (E : Camera.roll_on trig js (S k) (Some fps) w
                = Return tt (Camera.mkWorld
                               (Camera.with_stop_rolling_flag false (Camera.cam w))
                               (Camera.man w) (Camera.trace w))).
    { destruct w as [c m t]. destruct c.
      cbn [Camera.cam Camera.exposure_time Camera.rolling] in Hroll, Hclose. subst.
      cbn [Camera.roll_on]. unfold Camera.bind, Camera.modify, Camera.get, Camera.ret.
      cbn [Camera.cam Camera.man Camera.trace Camera.with_stop_rolling_flag
           Camera.rolling Camera.exposure_time].
      now rewrite Hf0, Hclose. }
    split; [exact E|].
    intros Hstop. rewrite E. destruct w as [c m t]. destruct c.
    cbn in Hstop. now subst.
  - intros Hfar Hlock Hman.
    destruct w as [c m t]. destruct c.
    cbn [Camera.cam Camera.man Camera.exposure_time Camera.rolling Camera.enqueue_lock]
      in Hroll, Hfar, Hlock, Hman. subst.
    cbn [Camera.roll_on].
    unfold Camera.bind at 1. unfold Camera.modify at 1. cbv beta iota.
    unfold Camera.bind at 1. unfold Camera.get at 1. cbv beta iota.
    cbn [Camera.cam Camera.man Camera.trace Camera.with_stop_rolling_flag Camera.rolling
         Camera.exposure_time].
    rewrite Hf0, Hfar.
    unfold Camera.bind at 1.
    match goal with |- context [Camera.roll_off trig js ?n ?W] =>
      destruct (roll_off_rolling trig js (S k) W eq_refl eq_refl)
        as (w' & evs & -> & Hr & Ha & Hm & Hmax & Ht & Hn & _) end.
    destruct w' as [c' m' t']. destruct c'. destruct config0.
    cbn in Hr, Ha, Hm, Hmax, Ht. subst.
    unfold Camera.truthy_float. cbn [default]. rewrite Hf0. cbn [negb].
    set (evs2 :=
      ((if (MAX_FPS <? fps)%float
        then [Camera.LogFpsTooHigh fps MAX_FPS]
        else [])
       ++ (if do_broadcast then [] else [Camera.StreamerOn])
       ++ (match m with
           | Some _ => []
           | None => [Camera.Log Camera.Error
                        "Not connected to manager! Can't check scan path!"]
           end))%list).
    destruct (MAX_FPS <? fps)%float eqn:Hmaxf; destruct do_broadcast;
      (destruct m as [m0|]; [destruct Hman as [p Hp]|]);
      eexists; exists evs, evs2;
      (split; [run_roll_on;
               repeat (progress (try rewrite Hmaxf; try rewrite Hf0; try rewrite Hp; cbn));
               reflexivity|]);
      subst evs2; cbn; rewrite ?Hmaxf;
      repeat match goal with |- _ /\ _ => split end;
      try reflexivity; try assumption; try not_in_list;
      repeat (progress (rewrite <- ?app_assoc; cbn [app])); reflexivity.
Qed.

Lemma roll_on_witness :
  Camera.roll_on trigger_ok None 1 (Some 4%float) world_rolling = Return tt world_rolling
  /\ exists w' evs1 evs2,
       let c' := Camera.cam w' in
       Camera.roll_on trigger_ok None 2 (Some 2%float) world_rolling = Return tt w'
       /\ Camera.rolling c' = true
       /\ Camera.armed c' = true
       /\ Camera.exposure_time c' = (1 / 2)%float
       /\ Camera.exposure_number c' = 100
       /\ Camera.roll_fps (Camera.config c')
          = (if (Camera.MAX_FPS (Camera.cam world_rolling) <? 2)%float
             then Camera.MAX_FPS (Camera.cam world_rolling) else 2%float)
       /\ Camera.stop_rolling_flag c' = false
       /\ Camera.do_acquire c' = true
       /\ Camera.loop_future c' = Some Camera.Alive
       /\ Camera.trace w'
          = (Camera.trace world_rolling ++ Camera.RollOffCalled :: evs1
             ++ Camera.HookDisarm :: evs2
             ++ [Camera.HookArm; Camera.ThreadStarted])%list
       /\ (Camera.HookArm ∉ evs1) /\ (Camera.HookArm ∉ evs2).
Proof.
  split.
  - apply (proj1 (roll_on_idempotent_or_restart trigger_ok None 0 world_rolling 4%float
                    eq_refl eq_refl)); reflexivity.
  - apply (proj2 (roll_on_idempotent_or_restart trigger_ok None 0 world_rolling 2%float
                    eq_refl eq_refl)); [reflexivity | reflexivity |].
    exists None. reflexivity.
Defined.

Example roll_on_restart_trace :
  Camera.trace (state_of (Camera.roll_on trigger_ok None 2 (Some 2%float) world_rolling))
  = [Camera.HookArm; Camera.ThreadStarted; Camera.RollOffCalled; Camera.TriggerCalled;
     Camera.TriggerReturned; Camera.AcquireDoneSet; Camera.HookDisarm;
     Camera.HookArm; Camera.ThreadStarted].
Proof. vm_compute. reflexivity. Qed.

(** The tolerance test is the one of binary64 arithmetic. A camera
    rolling at 60 frames per second takes [roll_on(fps=150)] for the
    rate it has: the two times per frame are a hundredth of a second
    apart as fractions, and [0.0099999999999999985] apart as computed.
    The same holds for an exposure time of 0.21 and 5 frames per
    second. *)
Example roll_on_tolerance_is_binary :
  let w60 := state_of (Camera.roll_on trigger_ok None 4 (Some 60%float) world0) in
  Camera.exposure_time (Camera.cam w60) = (1 / 60)%float
  /\ (1 / 60 - 1 / 150)%float = 0.0099999999999999985%float
  /\ Camera.close_enough (1 / 60)%float 150%float = true
  /\ Camera.roll_on trigger_ok None 1 (Some 150%float) w60 = Return tt w60
  /\ Camera.close_enough 0.21%float 5%float = true
  /\ Camera.close_enough 0.25%float 2%float = false.
Proof. vm_compute. repeat split. Qed.

(** ** [snap], end to end *)

Example snap_outside_scan :
  let w := state_of (Camera.snap trigger_ok None 3 None None world0) in
  Camera.filename (Camera.cam w) = Some "/data/snaps/snap_000001.h5"
  /\ Camera.armed (Camera.cam w) = false
  /\ Camera.acquire_done (Camera.cam w) = false
  /\ Camera.frame_queue (Camera.cam w) = [([0%N], 1%positive)]
  /\ Camera.trace w
     = [Camera.HookArm; Camera.ThreadStarted;
        Camera.FileOpen (Some "/data/snaps/snap_000001.h5");
        Camera.TriggerCalled; Camera.TriggerReturned; Camera.AcquireDoneSet;
        Camera.FileClose (Some "/data/snaps/snap_000001.h5"); Camera.HookDisarm].
Proof. vm_compute. repeat split. Qed.

Example snap_twice_in_scan :
  let w0 := Camera.mkWorld camera0 (Some manager_scanning) [] in
  let w1 := state_of (Camera.snap trigger_ok None 3 None None w0) in
  let w2 := state_of (Camera.snap trigger_ok None 3 None None w1) in
  Camera.filename (Camera.cam w1)
  = Some "/data/speckle/run1/000003_26-11-04_align/000003_26-11-04_align_000000.h5"
  /\ Camera.filename (Camera.cam w2)
     = Some "/data/speckle/run1/000003_26-11-04_align/000003_26-11-04_align_000001.h5"
  /\ (Manager.counter <$> Camera.man w2) = Some 2.
Proof. vm_compute. repeat split. Qed.

(** ** Further properties of the code *)

(** X1. [abort] on a rolling camera sets the abort flag and stops
    rolling: it returns with the camera neither rolling nor armed and the
    acquisition thread no longer alive. *)
Theorem abort_stops_rolling
    (trig : nat -> Camera.trigger_outcome) (js : option exn) (k : nat)
    (w : Camera.world) :
  Camera.rolling (Camera.cam w) = true ->
  Camera.enqueue_lock (Camera.cam w) = false ->
  exists w',
    Camera.abort trig js (S k) w = Return tt w'
    /\ Camera.abort_flag (Camera.cam w') = true
    /\ Camera.rolling (Camera.cam w') = false
    /\ Camera.armed (Camera.cam w') = false
    /\ Camera.loop_future (Camera.cam w') <> Some Camera.Alive.
Proof.
  intros Hroll Hlock.
  destruct w as [c m t]. destruct c. cbn in Hroll, Hlock. subst.
  unfold Camera.abort, Camera.when.
  unfold Camera.bind at 1. unfold Camera.modify at 1. cbv beta iota.
  unfold Camera.bind at 1. unfold Camera.get at 1. cbv beta iota.
  cbn [Camera.cam Camera.man Camera.trace Camera.with_abort_flag Camera.rolling].
  match goal with |- context [Camera.roll_off trig js ?n ?W] =>
    destruct (roll_off_rolling trig js k W eq_refl eq_refl)
      as (w' & evs & -> & Hr & Ha & _ & _ & _ & _ & Hf & Hab) end.
  exists w'. repeat split; assumption.
Qed.

Lemma abort_witness :
  exists w',
    Camera.abort trigger_ok None 1 world_rolling = Return tt w'
    /\ Camera.abort_flag (Camera.cam w') = true
    /\ Camera.rolling (Camera.cam w') = false
    /\ Camera.armed (Camera.cam w') = false
    /\ Camera.loop_future (Camera.cam w') <> Some Camera.Alive.
Proof. exact (abort_stops_rolling trigger_ok None 0 world_rolling eq_refl eq_refl). Defined.

(** X2. [start_scan] called without [localmeta] (its default, [None])
    raises [TypeError] at [scan_info.update(localmeta)], after the scan
    was marked as running: the manager is left with a running scan, its
    counter at zero, and a second [start_scan] raises [RuntimeError]. *)
Theorem start_scan_without_localmeta
    (m : Manager.manager) (n : Z) (today : string) (t0 : pyval)
    (label : option string) (b p : string) :
  Manager._running m = false ->
  Manager.base_path m = Ok (PStr b) ->
  Manager.path m = Ok p ->
  exists m',
    Manager.start_scan (Some n) today t0 label None m = Throw TypeError m'
    /\ Manager._running m' = true
    /\ Manager.counter m' = 0
    /\ Manager.start_scan (Some n) today t0 label None m' = Throw RuntimeError m'.
Proof.
  intros Hr Hb Hp. unfold Manager.start_scan. rewrite Hr.
  unfold Manager.base_path, Manager.path, Manager.experiment, Manager.investigation in *.
  cbn [Manager.config]. 
  destruct (Manager.config m !! "data_path") as [v|]; [|discriminate].
  injection Hb as ->. rewrite Hp. cbn [as_str].
  eexists. split; [reflexivity|]. repeat split.
Qed.

Lemma start_scan_without_localmeta_witness :
  exists m',
    Manager.start_scan (Some 3) "26-11-04" (PStr "t0") (Some "align") None manager0
    = Throw TypeError m'
    /\ Manager._running m' = true
    /\ Manager.counter m' = 0
    /\ Manager.start_scan (Some 3) "26-11-04" (PStr "t0") (Some "align") None m'
       = Throw RuntimeError m'.
Proof.
  exact (start_scan_without_localmeta manager0 3 "26-11-04" (PStr "t0") (Some "align")
           "/data" "speckle/run1" eq_refl eq_refl eq_refl).
Defined.

(** ** Decimal text read back by [int] *)

Lemma digit_char_spec (d : N) :
  (d < 10)%N ->
  PyStr.is_digit (PyStr.digit_char d) = true
  /\ PyParse.digit_val (PyStr.digit_char d) = d
  /\ Nat.ltb (nat_of_ascii (PyStr.digit_char d)) 128 = true
  /\ PyStr.digit_char d <> "_"%char.
Proof.
  intros H.
  assert (C : (d = 0 \/ d = 1 \/ d = 2 \/ d = 3 \/ d = 4 \/ d = 5 \/ d = 6 \/ d = 7
               \/ d = 8 \/ d = 9)%N) by lia.
  repeat (destruct C as [-> | C]); try subst d; repeat split; discriminate.
Qed.

Lemma length_append (a b : string) :
  String.length (a +:+ b) = (String.length a + String.length b)%nat.
Proof.
  induction a as [|c a IH]; [reflexivity|].
  rewrite append_cons. cbn [String.length]. now rewrite IH.
Qed.

(** [int] reads the digits [dec_digits] writes, whatever follows. *)
Lemma int_body_dec_digits (fuel : nat) :
  forall (n acc : N) (k : nat) (rest : string),
    (n < 10 ^ N.of_nat fuel)%N -> (0 < fuel)%nat ->
    let ds := PyStr.dec_digits fuel n in
    PyParse.int_body acc k (ds +:+ rest)
    = PyParse.int_body (acc * 10 ^ N.of_nat (String.length ds) + n)
        (k + String.length ds) rest
    /\ (0 < String.length ds <= fuel)%nat.
Proof.
  induction fuel as [|f IH]; intros n acc k rest Hn Hf; [lia|].
  cbn [PyStr.dec_digits]. destruct (n <? 10)%N eqn:E.
  - apply N.ltb_lt in E. destruct (digit_char_spec n E) as (D1 & D2 & _ & _).
    cbn zeta. rewrite append_cons, append_nil_l. cbn [PyParse.int_body String.length].
    rewrite D1, D2. split; [|lia].
    f_equal; [|lia]. change (N.of_nat 1) with 1%N. lia.
  - apply N.ltb_ge in E.
    assert (Hf' : (0 < f)%nat).
    { destruct f; [|lia]. change (10 ^ N.of_nat 1)%N with 10%N in Hn. lia. }
    assert (Hq : (n / 10 < 10 ^ N.of_nat f)%N).
    { apply N.Div0.div_lt_upper_bound.
      replace (N.of_nat (S f)) with (N.succ (N.of_nat f)) in Hn by lia.
      now rewrite N.pow_succ_r' in Hn. }
    assert (Hm : (n mod 10 < 10)%N) by (apply N.mod_lt; discriminate).
    destruct (digit_char_spec _ Hm) as (D1 & D2 & _ & _).
    cbn zeta. rewrite append_assoc_str.
    destruct (IH (n / 10)%N acc k
                (String (PyStr.digit_char (n mod 10)) EmptyString +:+ rest) Hq Hf')
      as [-> Hl].
    rewrite append_cons, append_nil_l. cbn [PyParse.int_body]. rewrite D1, D2.
    rewrite length_append. cbn [String.length].
    split; [|lia].
    f_equal; [|lia].
    replace (N.of_nat (String.length (PyStr.dec_digits f (n / 10)) + 1))
      with (N.succ (N.of_nat (String.length (PyStr.dec_digits f (n / 10))))) by lia.
    rewrite N.pow_succ_r'.
    pose proof (N.div_mod n 10 ltac:(discriminate)) as Hdm.
    nia.
Qed.

Lemma all_digits_dec_digits (fuel : nat) (n : N) :
  PyStr.all_digits (PyStr.dec_digits fuel n) = true.
Proof.
  revert n. induction fuel as [|f IH]; intros n; [reflexivity|].
  cbn [PyStr.dec_digits]. destruct (n <? 10)%N eqn:E.
  - apply N.ltb_lt in E. destruct (digit_char_spec n E) as (D1 & _).
    cbn [PyStr.all_digits]. now rewrite D1.
  - assert (Hm : (n mod 10 < 10)%N) by (apply N.mod_lt; discriminate).
    destruct (digit_char_spec _ Hm) as (D1 & _).
    assert (A : forall a b, PyStr.all_digits a = true -> PyStr.all_digits b = true ->
                       PyStr.all_digits (a +:+ b) = true).
    { induction a as [|c a IHa]; intros b Ha Hb; [exact Hb|].
      rewrite append_cons. cbn [PyStr.all_digits] in *.
      apply andb_true_iff in Ha as [-> Ha]. now apply IHa. }
    apply A; [apply IH|]. cbn [PyStr.all_digits]. now rewrite D1.
Qed.

Lemma pos_size_nat_bound (p : positive) : (Npos p < 2 ^ N.of_nat (Pos.size_nat p))%N.
Proof.
  induction p as [p IH|p IH|]; cbn [Pos.size_nat];
    try (replace (N.of_nat (S (Pos.size_nat p))) with (N.succ (N.of_nat (Pos.size_nat p)))
           by lia; rewrite N.pow_succ_r'; lia).
  reflexivity.
Qed.

Lemma str_N_fuel (n : N) : (n < 10 ^ N.of_nat (S (N.size_nat n)))%N.
Proof.
  destruct n as [|p]; [reflexivity|]. cbn [N.size_nat].
  pose proof (pos_size_nat_bound p) as H.
  replace (N.of_nat (S (Pos.size_nat p))) with (N.succ (N.of_nat (Pos.size_nat p))) by lia.
  rewrite N.pow_succ_r'.
  assert (2 ^ N.of_nat (Pos.size_nat p) <= 10 ^ N.of_nat (Pos.size_nat p))%N
    by (apply N.pow_le_mono_l; lia).
  lia.
Qed.

(** The same for [str_N], with the number of digits. *)
Lemma int_body_str_N (n acc : N) (k : nat) (rest : string) :
  PyParse.int_body acc k (PyStr.str_N n +:+ rest)
  = PyParse.int_body (acc * 10 ^ N.of_nat (String.length (PyStr.str_N n)) + n)
      (k + String.length (PyStr.str_N n)) rest
  /\ (0 < String.length (PyStr.str_N n))%nat.
Proof.
  unfold PyStr.str_N.
  destruct (int_body_dec_digits (S (N.size_nat n)) n acc k rest (str_N_fuel n) ltac:(lia))
    as [E L].
  split; [exact E | lia].
Qed.

Lemma int_body_zeros (j : nat) (acc : N) (k : nat) (rest : string) :
  PyParse.int_body acc k (PyStr.repeat_char "0"%char j +:+ rest)
  = PyParse.int_body (acc * 10 ^ N.of_nat j) (k + j) rest.
Proof.
  revert acc k. induction j as [|j IH]; intros acc k.
  - rewrite append_nil_l. f_equal; [|lia]. change (N.of_nat 0) with 0%N. lia.
  - cbn [PyStr.repeat_char]. rewrite append_cons. cbn [PyParse.int_body].
    change (PyStr.is_digit "0"%char) with true. cbv iota.
    change (PyParse.digit_val "0"%char) with 0%N.
    rewrite IH. f_equal; [|lia].
    replace (N.of_nat (S j)) with (N.succ (N.of_nat j)) by lia.
    rewrite N.pow_succ_r'. lia.
Qed.

Lemma all_digits_ascii (s : string) :
  PyStr.all_digits s = true -> PyParse.all_ascii s = true.
Proof.
  induction s as [|c s IH]; [reflexivity|].
  cbn [PyStr.all_digits PyParse.all_ascii]. intros H.
  apply andb_true_iff in H as [Hc Hs]. rewrite (IH Hs), andb_true_r.
  unfold PyStr.is_digit in Hc. apply andb_true_iff in Hc as [_ Hc].
  apply Nat.leb_le in Hc. apply Nat.ltb_lt. lia.
Qed.

Lemma all_digits_app (a b : string) :
  PyStr.all_digits (a +:+ b) = (PyStr.all_digits a && PyStr.all_digits b)%bool.
Proof.
  induction a as [|c a IH]; [reflexivity|].
  rewrite append_cons. cbn [PyStr.all_digits]. now rewrite IH, andb_assoc.
Qed.

Lemma all_digits_zeros (j : nat) : PyStr.all_digits (PyStr.repeat_char "0"%char j) = true.
Proof. induction j as [|j IH]; [reflexivity|]. cbn [PyStr.repeat_char PyStr.all_digits]. exact IH. Qed.

(** [int] of a text of digits only: the value [int_body] computes from
    its first character. *)
Lemma py_int_digits (s : string) (v : N) (k : nat) :
  PyStr.all_digits s = true -> s <> EmptyString ->
  PyParse.int_body 0 0 s = Some (v, k) ->
  (k <= PyParse.max_str_digits)%nat ->
  PyParse.py_int s = Ok (Z.of_N v).
Proof.
  intros Hd Hne Hb Hk. unfold PyParse.py_int.
  rewrite (all_digits_ascii s Hd). cbn [negb].
  destruct s as [|c r]; [congruence|].
  cbn [PyStr.all_digits] in Hd. apply andb_true_iff in Hd as [Hc Hr].
  assert (Hns : PyParse.is_space c = false).
  { unfold PyStr.is_digit in Hc. unfold PyParse.is_space.
    apply andb_true_iff in Hc as [H1 H2]. apply Nat.leb_le in H1, H2.
    destruct (Nat.leb_spec 9 (nat_of_ascii c)), (Nat.leb_spec (nat_of_ascii c) 13),
      (Nat.eqb_spec (nat_of_ascii c) 32); cbn; try reflexivity; lia. }
  cbn [PyParse.lstrip_space]. rewrite Hns.
  assert (Hsign : c <> "-"%char /\ c <> "+"%char).
  { split; intros ->; discriminate Hc. }
  destruct Hsign as [Hm Hp].
  assert (E : (let '(neg, s2) :=
                 match String c r with
                 | String "-"%char r0 => (true, r0)
                 | String "+"%char r0 => (false, r0)
                 | _ => (false, String c r)
                 end in
               match s2 with
               | EmptyString => Raise ValueError
               | String c0 r0 =>
                   if PyStr.is_digit c0 then
                     match PyParse.int_body (PyParse.digit_val c0) 1 r0 with
                     | Some (v0, n0) =>
                         if Nat.ltb PyParse.max_str_digits n0 then Raise NotModelled
                         else Ok (if neg : bool then - Z.of_N v0 else Z.of_N v0)
                     | None => Raise ValueError
                     end
                   else Raise ValueError
               end)
              = (if PyStr.is_digit c then
                   match PyParse.int_body (PyParse.digit_val c) 1 r with
                   | Some (v0, n0) =>
                       if Nat.ltb PyParse.max_str_digits n0 then Raise NotModelled
                       else Ok (Z.of_N v0)
                   | None => Raise ValueError
                   end
                 else Raise ValueError)).
  { destruct c as [[] [] [] [] [] [] [] []]; try reflexivity; congruence. }
  rewrite E. clear E. rewrite Hc.
  cbn [PyParse.int_body] in Hb. rewrite Hc in Hb.
  change (10 * 0 + PyParse.digit_val c)%N with (PyParse.digit_val c) in Hb.
  rewrite Hb.
  destruct (Nat.ltb_spec PyParse.max_str_digits k); [lia | reflexivity].
Qed.

(** [int(str(n))] is [n], for a number of at most [max_str_digits]
    digits. *)
Lemma py_int_str_N (n : N) :
  (String.length (PyStr.str_N n) <= PyParse.max_str_digits)%nat ->
  PyParse.py_int (PyStr.str_N n) = Ok (Z.of_N n).
Proof.
  intros Hl.
  destruct (int_body_str_N n 0 0 EmptyString) as [E L].
  rewrite append_nil_r in E. cbn [PyParse.int_body] in E.
  apply (py_int_digits _ n (String.length (PyStr.str_N n))).
  - apply all_digits_dec_digits.
  - intros H. rewrite H in L. cbn in L. lia.
  - rewrite E. reflexivity.
  - exact Hl.
Qed.

(** A number below [10^w] is written on at most [w] digits. *)
Lemma str_N_length (n : N) (w : nat) :
  (0 < w)%nat -> (n < 10 ^ N.of_nat w)%N -> (String.length (PyStr.str_N n) <= w)%nat.
Proof.
  intros Hw Hn. unfold PyStr.str_N.
  assert (G : forall f m, (m < 10 ^ N.of_nat w)%N ->
                (String.length (PyStr.dec_digits f m) <= w)%nat
                \/ (10 ^ N.of_nat w <= m * 10 ^ N.of_nat 0)%N); [|].
  2: { destruct (G (S (N.size_nat n)) n Hn) as [H|H]; [exact H|].
       change (N.of_nat 0) with 0%N in H. lia. }
  clear n Hn. intros f. revert w Hw.
  induction f as [|f IH]; intros w Hw m Hm; [left; cbn; lia|].
  cbn [PyStr.dec_digits]. destruct (m <? 10)%N eqn:E; [left; cbn; lia|].
  apply N.ltb_ge in E. left. rewrite length_append. cbn [String.length].
  destruct w as [|w]; [lia|]. destruct w as [|w].
  { change (10 ^ N.of_nat 1)%N with 10%N in Hm. lia. }
  assert (Hq : (m / 10 < 10 ^ N.of_nat (S w))%N).
  { apply N.Div0.div_lt_upper_bound.
    replace (N.of_nat (S (S w))) with (N.succ (N.of_nat (S w))) in Hm by lia.
    now rewrite N.pow_succ_r' in Hm. }
  destruct (IH (S w) ltac:(lia) (m / 10)%N Hq) as [H|H]; [lia|].
  change (N.of_nat 0) with 0%N in H. lia.
Qed.

(** ** The life of a scan *)

(** What a [start_scan] that returned has done. *)
Lemma start_scan_returned ns today t0 label localmeta m info m1 :
  Manager.start_scan ns today t0 label localmeta m = Return info m1 ->
  Manager._running m = false
  /\ Manager._running m1 = true
  /\ Manager.counter m1 = 0
  /\ Manager.scan_info m1 = info
  /\ Manager._scan_number m1 = Manager.Assigned ns
  /\ Manager.config m1 = Manager.config m
  /\ is_Some (info !! "scan_name").
Proof.
  unfold Manager.start_scan.
  destruct (Manager._running m) eqn:Hr; [discriminate|].
  destruct ns as [n|]; [|discriminate].
  destruct (Manager.base_path _) as [bp|]; [|discriminate].
  destruct (Manager.path _) as [p|]; [|discriminate].
  destruct (as_str bp) as [b|]; [|discriminate].
  destruct localmeta as [lm|]; [|discriminate].
  intros H. injection H as <- <-. cbn.
  repeat split.
  unfold dict_update. rewrite lookup_union.
  rewrite lookup_insert_ne by discriminate. rewrite lookup_insert_eq.
  destruct (lm !! "scan_name"); cbn; eauto.
Qed.

(** Calls of [next_prefix] that return only move the counter. *)
Lemma after_prefixes_counter m k m' :
  ManagerOps.after_prefixes m k m' ->
  m' = Manager.with_counter (Manager.counter m + Z.of_nat k) m.
Proof.
  induction 1 as [m | m m1 m2 p k Hn _ IH].
  - destruct m. cbn. unfold Manager.with_counter. cbn. f_equal. lia.
  - unfold Manager.next_prefix in Hn.
    destruct (negb (Manager._running m)); [discriminate|].
    destruct (Manager._base_file_name m); [|discriminate].
    destruct (PyStr.format _ _); [|discriminate].
    injection Hn as _ <-. rewrite IH. destruct m. unfold Manager.with_counter. cbn.
    f_equal. lia.
Qed.

Lemma dict_update_empty (d : dict) : dict_update ∅ d = d.
Proof. unfold dict_update. apply (right_id_L ∅ (∪)). Qed.

(** X3. A scan from its start to its end. After a [start_scan] that
    returned [info] and [k] calls of [next_prefix] that returned,
    [end_scan] returns [info] with the end time and the counter [k]
    added; the manager is left with no scan running and an empty
    [scan_info], [scan_status] then reports what [end_scan] returned, and
    a second [end_scan], like [next_prefix], raises [RuntimeError]. *)
Theorem scan_from_start_to_end
    (m m1 m2 : Manager.manager) (n : Z) (today : string) (t0 t1 tnow : pyval)
    (label : option string) (lm info : dict) (k : nat) :
  Manager.start_scan (Some n) today t0 label (Some lm) m = Return info m1 ->
  ManagerOps.after_prefixes m1 k m2 ->
  let last := <["counter" := PInt (Z.of_nat k)]> (<["end_time" := t1]> info) in
  exists m3,
    ManagerOps.end_scan t1 m2 = Return last m3
    /\ Manager._running m3 = false
    /\ Manager.scan_info m3 = ∅
    /\ Manager.last_scan_info m3 = last
    /\ ManagerOps.scan_status tnow m3 = last
    /\ ManagerOps.end_scan t1 m3 = Throw RuntimeError m3
    /\ Manager.next_prefix m3 = Throw RuntimeError m3.
Proof.
  intros Hs Hp last.
  destruct (start_scan_returned _ _ _ _ _ _ _ _ Hs) as (_ & Hr & Hc & Hi & _ & _ & Hn).
  apply after_prefixes_counter in Hp. subst m2.
  destruct m1 as [cfg run sn lb bf num cnt si lsi ds]. cbn in Hr, Hc, Hi. subst.
  unfold ManagerOps.end_scan, Manager.with_counter. cbn.
  assert (E : last !! "scan_name" = info !! "scan_name").
  { subst last. now rewrite !lookup_insert_ne by discriminate. }
  change (0 + Z.of_nat k) with (Z.of_nat k). fold last. rewrite E. destruct Hn as [v ->].
  eexists. split; [reflexivity|]. cbn.
  repeat split.
  unfold ManagerOps.scan_status. cbn. apply dict_update_empty.
Qed.

Lemma scan_from_start_to_end_witness :
  exists info m1 m2 m3,
    Manager.start_scan (Some 3) "26-11-04" (PStr "t0") (Some "align") (Some ∅) manager0
    = Return info m1
    /\ ManagerOps.after_prefixes m1 2 m2
    /\ ManagerOps.end_scan (PStr "t1") m2
       = Return (<["counter" := PInt (Z.of_nat 2)]> (<["end_time" := PStr "t1"]> info)) m3
    /\ Manager._running m3 = false
    /\ Manager.scan_info m3 = ∅
    /\ Manager.last_scan_info m3
       = <["counter" := PInt (Z.of_nat 2)]> (<["end_time" := PStr "t1"]> info)
    /\ ManagerOps.scan_status (PStr "t2") m3
       = <["counter" := PInt (Z.of_nat 2)]> (<["end_time" := PStr "t1"]> info)
    /\ ManagerOps.end_scan (PStr "t1") m3 = Throw RuntimeError m3
    /\ Manager.next_prefix m3 = Throw RuntimeError m3.
Proof.
  do 2 eexists. exists (Manager.with_counter 2 manager_scanning).
  assert (Hs : Manager.start_scan (Some 3) "26-11-04" (PStr "t0") (Some "align") (Some ∅)
                 manager0
               = Return (Manager.scan_info manager_scanning) manager_scanning)
    by reflexivity.
  assert (Hp : ManagerOps.after_prefixes manager_scanning 2
                 (Manager.with_counter 2 manager_scanning)).
  { eapply ManagerOps.prefixes_next; [reflexivity|].
    eapply ManagerOps.prefixes_next; [reflexivity|].
    apply ManagerOps.prefixes_none. }
  destruct (scan_from_start_to_end manager0 manager_scanning
              (Manager.with_counter 2 manager_scanning) 3 "26-11-04"
              (PStr "t0") (PStr "t1") (PStr "t2") (Some "align") ∅
              (Manager.scan_info manager_scanning) 2 Hs Hp) as (m3 & H).
  exists m3. split; [exact Hs|]. split; [exact Hp|]. exact H.
Defined.

Lemma dict_is_empty_insert (k : string) (v : pyval) (d : dict) :
  ManagerOps.dict_is_empty (<[k := v]> d) = false.
Proof.
  unfold ManagerOps.dict_is_empty. apply bool_decide_eq_false.
  rewrite dom_insert_L. set_solver.
Qed.

Lemma dict_is_empty_empty : ManagerOps.dict_is_empty ∅ = true.
Proof. unfold ManagerOps.dict_is_empty. apply bool_decide_eq_true. apply dom_empty_L. Qed.

(** X4. After the [start_scan] that failed for want of [localmeta], on
    a manager whose [scan_info] is empty, [end_scan] does stop the scan
    but raises [KeyError]: [scan_info] has no scan name. It leaves in
    [scan_info] a dictionary with the end time and the counter only,
    which [get_meta] then returns in place of the summary. *)
Theorem end_scan_after_failed_start
    (m : Manager.manager) (n : Z) (today : string) (t0 t1 : pyval)
    (label : option string) (b p : string) :
  Manager._running m = false ->
  Manager.scan_info m = ∅ ->
  Manager.base_path m = Ok (PStr b) ->
  Manager.path m = Ok p ->
  exists m1 m2,
    Manager.start_scan (Some n) today t0 label None m = Throw TypeError m1
    /\ ManagerOps.end_scan t1 m1 = Throw KeyError m2
    /\ Manager._running m2 = false
    /\ Manager.scan_info m2 = <["counter" := PInt 0]> (<["end_time" := t1]> ∅)
    /\ ManagerOps.get_meta m2 = Ok (Manager.scan_info m2).
Proof.
  intros Hr Hi Hb Hp. unfold Manager.start_scan. rewrite Hr.
  unfold Manager.base_path, Manager.path, Manager.experiment, Manager.investigation in *.
  cbn [Manager.config].
  destruct (Manager.config m !! "data_path") as [v|]; [|discriminate].
  injection Hb as ->. rewrite Hp. cbn [as_str].
  eexists. eexists. split; [reflexivity|].
  unfold ManagerOps.end_scan. cbn. rewrite Hi.
  rewrite !lookup_insert_ne by discriminate. rewrite lookup_empty.
  split; [reflexivity|]. cbn. repeat split.
Qed.

Lemma end_scan_after_failed_start_witness :
  exists m1 m2,
    Manager.start_scan (Some 3) "26-11-04" (PStr "t0") (Some "align") None manager0
    = Throw TypeError m1
    /\ ManagerOps.end_scan (PStr "t1") m1 = Throw KeyError m2
    /\ Manager._running m2 = false
    /\ Manager.scan_info m2 = <["counter" := PInt 0]> (<["end_time" := PStr "t1"]> ∅)
    /\ ManagerOps.get_meta m2 = Ok (Manager.scan_info m2).
Proof.
  exact (end_scan_after_failed_start manager0 3 "26-11-04" (PStr "t0") (PStr "t1")
           (Some "align") "/data" "speckle/run1" eq_refl eq_refl eq_refl eq_refl).
Defined.

(** X5. [get_meta] during and after a scan. While the scan runs it
    returns the scan information; once [end_scan] has returned it gives
    the investigation, the experiment and the number of the scan that
    ended, with one exception: scan number 0 is reported as [None]. *)
Theorem get_meta_during_and_after_scan
    (m m1 m2 m3 : Manager.manager) (n : Z) (today : string) (t0 t1 ex : pyval)
    (label : option string) (lm info last : dict) (k : nat) :
  Manager.start_scan (Some n) today t0 label (Some lm) m = Return info m1 ->
  ManagerOps.after_prefixes m1 k m2 ->
  ManagerOps.end_scan t1 m2 = Return last m3 ->
  Manager.experiment m = Ok ex ->
  ManagerOps.get_meta m2 = Ok info
  /\ ManagerOps.get_meta m3
     = Ok (<["investigation" := Manager.investigation m]>
             (<["experiment" := ex]>
                (<["last_scan" := if (n =? 0)%Z then PNone else PInt n]> ∅))).
Proof.
  intros Hs Hp He Hx.
  destruct (start_scan_returned _ _ _ _ _ _ _ _ Hs) as (_ & Hr & Hc & Hi & Hnum & Hcfg & Hn).
  apply after_prefixes_counter in Hp. subst m2.
  destruct m1 as [cfg run sn lb bf num cnt si lsi ds]. cbn in Hr, Hc, Hi, Hnum, Hcfg. subst.
  unfold Manager.experiment, Manager.investigation in *.
  split.
  - unfold ManagerOps.get_meta, Manager.with_counter. cbn.
    destruct Hn as [v Hv].
    assert (Hne : ManagerOps.dict_is_empty info = false).
    { unfold ManagerOps.dict_is_empty. apply bool_decide_eq_false.
      intros E. apply (elem_of_dom_2 info) in Hv. rewrite E in Hv. set_solver. }
    now rewrite Hne.
  - unfold ManagerOps.end_scan, Manager.with_counter in He. cbn in He.
    destruct (_ !! "scan_name"); [|discriminate].
    injection He as _ <-.
    unfold ManagerOps.get_meta, Manager.experiment, Manager.investigation. cbn.
    rewrite dict_is_empty_empty.
    destruct (Manager.config m !! "experiment"); [|discriminate].
    injection Hx as ->. reflexivity.
Qed.

Lemma get_meta_during_and_after_scan_witness :
  ManagerOps.get_meta (Manager.with_counter 2 manager_scanning)
  = Ok (Manager.scan_info manager_scanning)
  /\ ManagerOps.get_meta
       (state_of (ManagerOps.end_scan (PStr "t1") (Manager.with_counter 2 manager_scanning)))
     = Ok (<["investigation" := Manager.investigation manager0]>
             (<["experiment" := PStr "run1"]>
                (<["last_scan" := if (3 =? 0)%Z then PNone else PInt 3]> ∅))).
Proof.
  apply (get_meta_during_and_after_scan manager0 manager_scanning
           (Manager.with_counter 2 manager_scanning)
           (state_of (ManagerOps.end_scan (PStr "t1") (Manager.with_counter 2 manager_scanning)))
           3 "26-11-04" (PStr "t0") (PStr "t1") (PStr "run1") (Some "align") ∅
           (Manager.scan_info manager_scanning)
           (<["counter" := PInt 2]> (<["end_time" := PStr "t1"]>
                                       (Manager.scan_info manager_scanning))) 2).
  - reflexivity.
  - eapply ManagerOps.prefixes_next; [reflexivity|].
    eapply ManagerOps.prefixes_next; [reflexivity|].
    apply ManagerOps.prefixes_none.
  - reflexivity.
  - reflexivity.
Defined.

(** ** The experiment path *)

Lemma valid_char_not_sep (c : ascii) :
  PyStr.mem_char c Manager._VALID_CHAR = true -> c <> "/"%char.
Proof. intros H ->. vm_compute in H. discriminate H. Qed.

Lemma valid_name_no_sep (s : string) :
  Manager._valid_name s = true -> PyStr.mem_char "/"%char s = false.
Proof.
  unfold Manager._valid_name. induction s as [|c s IH]; [reflexivity|].
  cbn [PyStr.all_in PyStr.mem_char]. intros H.
  apply andb_true_iff in H as [Hc Hs].
  apply valid_char_not_sep in Hc.
  destruct (Ascii.eqb_spec "/"%char c) as [E|_]; [congruence|].
  now apply IH.
Qed.

Lemma no_sep_starts (s : string) :
  PyStr.mem_char "/"%char s = false -> PyStr.starts_with_sep s = false.
Proof.
  destruct s as [|c s]; [reflexivity|]. cbn [PyStr.mem_char]. intros H.
  apply orb_false_iff in H as [Hc _].
  destruct (Ascii.eqb_spec "/"%char c) as [|Hn]; [discriminate|].
  destruct c as [[] [] [] [] [] [] [] []]; try reflexivity. congruence.
Qed.

Lemma no_sep_ends (s : string) :
  PyStr.mem_char "/"%char s = false -> PyStr.ends_with_sep s = false.
Proof.
  induction s as [|c s IH]; [reflexivity|]. cbn [PyStr.mem_char]. intros H.
  apply orb_false_iff in H as [Hc Hs].
  cbn [PyStr.ends_with_sep]. destruct s as [|d s].
  - now rewrite Ascii.eqb_sym.
  - now apply IH.
Qed.

Lemma split_at_no_sep (sep : ascii) (a : string) :
  PyStr.mem_char sep a = false -> PyStr.split_at sep a = (a, None).
Proof.
  induction a as [|c a IH]; [reflexivity|]. cbn [PyStr.mem_char PyStr.split_at]. intros H.
  apply orb_false_iff in H as [Hc Ha]. rewrite Ascii.eqb_sym, Hc.
  now rewrite IH.
Qed.

Lemma split_at_sep (sep : ascii) (a b : string) :
  PyStr.mem_char sep a = false ->
  PyStr.split_at sep (a +:+ String sep b) = (a, Some b).
Proof.
  induction a as [|c a IH]; intros H.
  - rewrite append_nil_l. cbn [PyStr.split_at]. now rewrite Ascii.eqb_refl.
  - cbn [PyStr.mem_char] in H. apply orb_false_iff in H as [Hc Ha].
    rewrite append_cons. cbn [PyStr.split_at]. rewrite Ascii.eqb_sym, Hc.
    now rewrite IH.
Qed.

(** The experiment path of valid names. *)
Lemma join_valid_names (i x : string) :
  Manager._valid_name i = true -> Manager._valid_name x = true ->
  PyStr.os_path_join i [x] = (if String.eqb i "" then x else i +:+ "/" +:+ x)
  /\ PyStr.split_at "/"%char (PyStr.os_path_join i [x])
     = (if String.eqb i "" then (x, None) else (i, Some x)).
Proof.
  intros Hi Hx. apply valid_name_no_sep in Hi, Hx.
  unfold PyStr.os_path_join. cbn [fold_left]. unfold PyStr.join2.
  rewrite (no_sep_starts x Hx), (no_sep_ends i Hi), orb_false_r.
  destruct (String.eqb_spec i "") as [->|Hne].
  - rewrite append_nil_l. split; [reflexivity|]. now apply split_at_no_sep.
  - split; [reflexivity|].
    change (i +:+ "/" +:+ x) with (i +:+ String "/"%char x).
    now apply split_at_sep.
Qed.

(** X6. Names that pass [_valid_name] hold no path separator, so the
    experiment path is the investigation, a slash and the experiment
    (the experiment alone when the investigation is the empty string,
    which is a valid name), and two managers with the same path have the
    same investigation and the same experiment. *)
Theorem experiment_path_injective
    (m m' : Manager.manager) (i x i' x' : string) :
  Manager._valid_name i = true -> Manager._valid_name x = true ->
  Manager._valid_name i' = true -> Manager._valid_name x' = true ->
  Manager.config m !! "investigation" = Some (PStr i) ->
  Manager.config m !! "experiment" = Some (PStr x) ->
  Manager.config m' !! "investigation" = Some (PStr i') ->
  Manager.config m' !! "experiment" = Some (PStr x') ->
  Manager.path m = Ok (if String.eqb i "" then x else i +:+ "/" +:+ x)
  /\ (Manager.path m = Manager.path m' -> i = i' /\ x = x').
Proof.
  intros Hi Hx Hi' Hx' Ci Cx Ci' Cx'.
  assert (P : forall (mm : Manager.manager) a b,
             Manager.config mm !! "investigation" = Some (PStr a) ->
             Manager.config mm !! "experiment" = Some (PStr b) ->
             Manager.path mm = Ok (PyStr.os_path_join a [b])).
  { intros mm a b Ha Hb.
    unfold Manager.path, Manager.experiment, Manager.investigation. now rewrite Ha, Hb. }
  rewrite (P m i x Ci Cx), (P m' i' x' Ci' Cx').
  destruct (join_valid_names i x Hi Hx) as [E1 D1].
  destruct (join_valid_names i' x' Hi' Hx') as [_ D2].
  split; [now rewrite E1|].
  intros E.
  assert (E' : PyStr.os_path_join i [x] = PyStr.os_path_join i' [x']) by congruence.
  rewrite E' in D1. rewrite D1 in D2.
  destruct (String.eqb_spec i "") as [->|Hne], (String.eqb_spec i' "") as [->|Hne'];
    now inversion D2.
Qed.

Lemma experiment_path_injective_witness :
  Manager.path manager0 = Ok (if String.eqb "speckle" "" then "run1" else "speckle" +:+ "/" +:+ "run1")
  /\ (Manager.path manager0 = Manager.path manager0 -> "speckle" = "speckle" /\ "run1" = "run1").
Proof.
  exact (experiment_path_injective manager0 manager0 "speckle" "run1" "speckle" "run1"
           eq_refl eq_refl eq_refl eq_refl eq_refl eq_refl eq_refl eq_refl).
Defined.

(** ** The scans found on disk *)

Lemma take_app_exact (k : nat) (a b : string) :
  String.length a = k -> PyParse.take k (a +:+ b) = a.
Proof.
  revert k. induction a as [|c a IH]; intros k H.
  - cbn in H. subst k. rewrite append_nil_l. now destruct b.
  - cbn [String.length] in H. subst k. rewrite append_cons. cbn [PyParse.take].
    now rewrite IH.
Qed.

Lemma drop_app_exact (k : nat) (a b : string) :
  String.length a = k -> PyParse.drop k (a +:+ b) = b.
Proof.
  revert k. induction a as [|c a IH]; intros k H.
  - cbn in H. subst k. rewrite append_nil_l. now destruct b.
  - cbn [String.length] in H. subst k. rewrite append_cons. cbn [PyParse.drop].
    now rewrite IH.
Qed.

Lemma length_repeat_char (c : ascii) (n : nat) :
  String.length (PyStr.repeat_char c n) = n.
Proof. induction n as [|n IH]; [reflexivity|]. cbn. now rewrite IH. Qed.

(** A scan number below a million is written on six digits, which [int]
    reads back. *)
Lemma zero_pad_6 (n : Z) :
  0 <= n < 1000000 ->
  String.length (PyStr.zero_pad 6 n) = 6%nat
  /\ PyParse.py_int (PyStr.zero_pad 6 n) = Ok n.
Proof.
  intros Hn. unfold PyStr.zero_pad.
  destruct (Z.ltb_spec n 0) as [|_]; [lia|].
  rewrite append_nil_l. cbn [String.length].
  set (ds := PyStr.str_N (Z.abs_N n)).
  assert (HL : (String.length ds <= 6)%nat).
  { apply str_N_length; [lia|]. change (10 ^ N.of_nat 6)%N with 1000000%N. lia. }
  destruct (int_body_str_N (Z.abs_N n) (0 * 10 ^ N.of_nat (6 - 0 - String.length ds))
              (0 + (6 - 0 - String.length ds)) EmptyString) as [E L].
  fold ds in E, L. rewrite append_nil_r in E.
  split.
  - rewrite length_append, length_repeat_char. lia.
  - replace (Ok n) with (Ok (Z.of_N (Z.abs_N n)) : result Z)
      by (f_equal; rewrite N2Z.inj_abs_N; lia).
    apply (py_int_digits _ (Z.abs_N n) 6).
    + rewrite all_digits_app, all_digits_zeros. apply all_digits_dec_digits.
    + intros H. apply (f_equal String.length) in H.
      rewrite length_append, length_repeat_char in H. cbn in H. lia.
    + rewrite int_body_zeros, E. cbn [PyParse.int_body]. f_equal. f_equal; lia.
    + unfold PyParse.max_str_digits. lia.
Qed.

Lemma scan_of_name_padded (n : Z) (rest : string) :
  0 <= n < 1000000 ->
  ScanDir.scan_of_name (PyStr.zero_pad 6 n +:+ String "_"%char rest) = Ok (n, rest).
Proof.
  intros Hn. destruct (zero_pad_6 n Hn) as [HL HI].
  unfold ScanDir.scan_of_name.
  rewrite (take_app_exact 6 _ _ HL), HI.
  replace (PyParse.drop 7 (PyStr.zero_pad 6 n +:+ String "_"%char rest))
    with (PyParse.drop 1 (PyParse.drop 6 (PyStr.zero_pad 6 n +:+ String "_"%char rest))).
  - now rewrite (drop_app_exact 6 _ _ HL).
  - generalize (PyStr.zero_pad 6 n +:+ String "_"%char rest). intros s.
    do 7 (destruct s as [|? s]; [reflexivity|]). reflexivity.
Qed.

(** X7. The name [start_scan] gives a scan directory is read back by
    [list_scans]: for a scan number from 0 to 999999, the first six
    characters convert to the number and the text from the eighth
    character on is the date, followed by the label if there is one. *)
Theorem scan_name_read_back
    (m m1 : Manager.manager) (n : Z) (today : string) (t0 : pyval)
    (label : option string) (localmeta : option dict) (info : dict) :
  0 <= n < 1000000 ->
  Manager.start_scan (Some n) today t0 label localmeta m = Return info m1 ->
  exists sn,
    Manager._scan_name m1 = Some sn
    /\ ScanDir.scan_of_name sn
       = Ok (n, match label with
                | Some l => today +:+ "_" +:+ l
                | None => today
                end).
Proof.
  intros Hn. unfold Manager.start_scan.
  destruct (Manager._running m) eqn:Hr; [discriminate|].
  destruct (Manager.base_path _) as [bp|]; [|discriminate].
  destruct (Manager.path _) as [p|]; [|discriminate].
  destruct (as_str bp) as [b|]; [|discriminate].
  destruct localmeta as [lm|]; [|discriminate].
  intros H. injection H as _ <-. cbn [Manager._scan_name Manager.with_dirs].
  eexists. split; [reflexivity|].
  destruct label as [l|].
  - rewrite append_assoc_str.
    change ("_" +:+ today) with (String "_"%char today).
    rewrite append_cons. now apply scan_of_name_padded.
  - change ("_" +:+ today) with (String "_"%char today). now apply scan_of_name_padded.
Qed.

Lemma scan_name_read_back_witness :
  exists sn,
    Manager._scan_name manager_scanning = Some sn
    /\ ScanDir.scan_of_name sn = Ok (3, "26-11-04" +:+ "_" +:+ "align").
Proof.
  exact (scan_name_read_back manager0 manager_scanning 3 "26-11-04" (PStr "t0")
           (Some "align") (Some ∅) (Manager.scan_info manager_scanning)
           ltac:(lia) eq_refl).
Defined.

(** From a million on the name has seven digits, and the six that are
    read are another number. *)
Example scan_number_seven_digits :
  ScanDir.scan_of_name (PyStr.zero_pad 6 1000000 +:+ "_" +:+ "26-11-04")
  = Ok (100000, "_26-11-04").
Proof. vm_compute. reflexivity. Qed.

Lemma insert_sorted_perm (x : ScanDir.scan) (l : list ScanDir.scan) :
  ScanDir.insert_sorted x l ≡ₚ x :: l.
Proof.
  induction l as [|y l IH]; [reflexivity|].
  cbn [ScanDir.insert_sorted]. destruct (ScanDir.scan_leb x y); [reflexivity|].
  rewrite IH. apply Permutation_swap.
Qed.

Lemma sorted_perm (l : list ScanDir.scan) : ScanDir.sorted l ≡ₚ l.
Proof.
  induction l as [|x l IH]; [reflexivity|].
  cbn [ScanDir.sorted]. rewrite insert_sorted_perm. now rewrite IH.
Qed.

Lemma scan_leb_true (a b : ScanDir.scan) : ScanDir.scan_leb a b = true -> fst a <= fst b.
Proof.
  unfold ScanDir.scan_leb. intros H. apply orb_true_iff in H as [H|H].
  - apply Z.ltb_lt in H. lia.
  - apply andb_true_iff in H as [H _]. apply Z.eqb_eq in H. lia.
Qed.

Lemma scan_leb_false (a b : ScanDir.scan) : ScanDir.scan_leb a b = false -> fst b <= fst a.
Proof.
  unfold ScanDir.scan_leb. intros H. apply orb_false_iff in H as [H _].
  apply Z.ltb_ge in H. exact H.
Qed.

Lemma insert_sorted_by_number (x : ScanDir.scan) (l : list ScanDir.scan) :
  StronglySorted (fun a c => fst a <= fst c) l ->
  StronglySorted (fun a c => fst a <= fst c) (ScanDir.insert_sorted x l).
Proof.
  induction 1 as [|y l Hs IH Hy]; [repeat constructor|].
  cbn [ScanDir.insert_sorted]. destruct (ScanDir.scan_leb x y) eqn:E.
  - apply scan_leb_true in E. constructor; [now constructor|].
    constructor; [exact E|].
    eapply Forall_impl; [exact Hy|]. cbn. intros z Hz. lia.
  - apply scan_leb_false in E. constructor; [exact IH|].
    rewrite insert_sorted_perm. constructor; assumption.
Qed.

Lemma sorted_by_number (l : list ScanDir.scan) :
  StronglySorted (fun a c => fst a <= fst c) (ScanDir.sorted l).
Proof.
  induction l as [|x l IH]; [constructor|].
  cbn [ScanDir.sorted]. now apply insert_sorted_by_number.
Qed.

Lemma last_sorted_max (l : list ScanDir.scan) (s x : ScanDir.scan) :
  StronglySorted (fun a c => fst a <= fst c) l ->
  last l = Some s -> x ∈ l -> fst x <= fst s.
Proof.
  induction 1 as [|y l Hs IH Hy]; intros Hl Hx; [discriminate|].
  destruct l as [|z l].
  - injection Hl as <-. apply list_elem_of_singleton in Hx. now subst.
  - change (last (y :: z :: l)) with (last (z :: l)) in Hl.
    apply elem_of_cons in Hx as [->|Hx].
    + rewrite Forall_forall in Hy. apply Hy.
      apply last_Some_elem_of in Hl. exact Hl.
    + now apply IH.
Qed.

Lemma scans_of_elem (l : list ScanDir.dirent) (ss : list ScanDir.scan) :
  ScanDir.scans_of l = Ok ss ->
  (forall f, f ∈ l -> ScanDir.visible f = true ->
     exists s, ScanDir.scan_of_name (ScanDir.d_name f) = Ok s /\ s ∈ ss)
  /\ (forall s, s ∈ ss ->
        exists f, f ∈ l /\ ScanDir.visible f = true
                  /\ ScanDir.scan_of_name (ScanDir.d_name f) = Ok s)
  /\ length ss = length (List.filter ScanDir.visible l).
Proof.
  revert ss. induction l as [|f l IH]; intros ss H.
  - injection H as <-. repeat split.
    + intros f Hf. now apply elem_of_nil in Hf.
    + intros s Hs. now apply elem_of_nil in Hs.
  - cbn [ScanDir.scans_of List.filter] in *. destruct (ScanDir.visible f) eqn:Hv.
    + destruct (ScanDir.scan_of_name (ScanDir.d_name f)) as [s0|] eqn:Hs0; [|discriminate].
      destruct (ScanDir.scans_of l) as [ss0|]; [|discriminate].
      injection H as <-. destruct (IH ss0 eq_refl) as (I1 & I2 & I3).
      repeat split.
      * intros g Hg Hvg. apply elem_of_cons in Hg as [->|Hg].
        -- exists s0. split; [exact Hs0 | left].
        -- destruct (I1 g Hg Hvg) as (s & ? & ?). exists s. split; [assumption | now right].
      * intros s Hs. apply elem_of_cons in Hs as [->|Hs].
        -- exists f. split; [left | split; assumption].
        -- destruct (I2 s Hs) as (g & ? & ? & ?). exists g. split; [now right | split; assumption].
      * cbn. now rewrite I3.
    + destruct (IH ss H) as (I1 & I2 & I3). repeat split.
      * intros g Hg Hvg. apply elem_of_cons in Hg as [->|Hg]; [congruence|].
        now apply I1.
      * intros s Hs. destruct (I2 s Hs) as (g & ? & ? & ?).
        exists g. split; [now right | split; assumption].
      * exact I3.
Qed.

(** What [list_scans] does for one experiment. *)
Lemma list_scans_one (path_exists : string -> bool)
    (scandir : string -> option (list ScanDir.dirent)) (b i x : string) (lg : bool) :
  ScanDir.list_scans path_exists scandir (PStr b) (PStr i) (PStr x) lg
  = if negb (path_exists (PyStr.os_path_join b [i])) then (ScanDir.FsRaise RuntimeError, [])
    else match scandir (PyStr.os_path_join (PyStr.os_path_join b [i]) [x]) with
         | None => (ScanDir.FsOSError, [])
         | Some l =>
             match ScanDir.scans_of l with
             | Raise ValueError => (ScanDir.FsRaise RuntimeError, [])
             | Raise e => (ScanDir.FsRaise e, [])
             | Ok ss => (ScanDir.FsOk [(x, ScanDir.sorted ss)], [])
             end
         end.
Proof.
  unfold ScanDir.list_scans. cbn [as_str].
  destruct (path_exists (PyStr.os_path_join b [i])); reflexivity.
Qed.

(** X8. For one experiment, [list_scans] returns one scan for each
    directory of the experiment path that is not hidden, and no other:
    files and hidden directories are left out. The scans are in the
    order of their numbers. *)
Theorem list_scans_of_experiment
    (path_exists : string -> bool) (scandir : string -> option (list ScanDir.dirent))
    (b i x : string) (lg : bool) (d : list (string * list ScanDir.scan))
    (w : list string) :
  ScanDir.list_scans path_exists scandir (PStr b) (PStr i) (PStr x) lg = (ScanDir.FsOk d, w) ->
  exists entries ss,
    scandir (PyStr.os_path_join (PyStr.os_path_join b [i]) [x]) = Some entries
    /\ d = [(x, ss)] /\ w = []
    /\ StronglySorted (fun a c => fst a <= fst c) ss
    /\ (forall f, f ∈ entries -> ScanDir.visible f = true ->
          exists s, ScanDir.scan_of_name (ScanDir.d_name f) = Ok s /\ s ∈ ss)
    /\ (forall s, s ∈ ss ->
          exists f, f ∈ entries /\ ScanDir.visible f = true
                    /\ ScanDir.scan_of_name (ScanDir.d_name f) = Ok s)
    /\ length ss = length (List.filter ScanDir.visible entries).
Proof.
  rewrite list_scans_one.
  destruct (negb _); [discriminate|].
  destruct (scandir _) as [entries|]; [|discriminate].
  destruct (ScanDir.scans_of entries) as [ss|e] eqn:Hs; [|destruct e; discriminate].
  intros H. injection H as <- <-.
  destruct (scans_of_elem entries ss Hs) as (I1 & I2 & I3).
  exists entries, (ScanDir.sorted ss).
  split; [reflexivity|]. split; [reflexivity|]. split; [reflexivity|].
  split; [apply sorted_by_number|].
  split; [|split].
  - intros f Hf Hv. destruct (I1 f Hf Hv) as (s & E & Hin).
    exists s. split; [exact E|]. now rewrite sorted_perm.
  - intros s Hin. rewrite sorted_perm in Hin. now apply I2.
  - now rewrite sorted_perm.
Qed.

Lemma list_scans_of_experiment_witness :
  exists entries ss,
    scandir0 (PyStr.os_path_join (PyStr.os_path_join "/data" ["speckle"]) ["run1"])
    = Some entries
    /\ [("run1", [(0, "26-11-03"); (1, "26-11-03_b")])] = [("run1", ss)]
    /\ @nil string = []
    /\ StronglySorted (fun a c => fst a <= fst c) ss
    /\ (forall f, f ∈ entries -> ScanDir.visible f = true ->
          exists s, ScanDir.scan_of_name (ScanDir.d_name f) = Ok s /\ s ∈ ss)
    /\ (forall s, s ∈ ss ->
          exists f, f ∈ entries /\ ScanDir.visible f = true
                    /\ ScanDir.scan_of_name (ScanDir.d_name f) = Ok s)
    /\ length ss = length (List.filter ScanDir.visible entries).
Proof.
  exact (list_scans_of_experiment exists0 scandir0 "/data" "speckle" "run1" true
           [("run1", [(0, "26-11-03"); (1, "26-11-03_b")])] [] eq_refl).
Defined.

(** What [next_scan] does once an experiment is chosen. *)
Lemma next_scan_one (path_exists : string -> bool)
    (scandir : string -> option (list ScanDir.dirent)) (m : Manager.manager)
    (b i x : string) :
  Manager.base_path m = Ok (PStr b) ->
  Manager.investigation m = PStr i ->
  Manager.experiment m = Ok (PStr x) ->
  ScanDir.next_scan path_exists scandir m
  = if negb (path_exists (PyStr.os_path_join b [i])) then ScanDir.FsOk None
    else match scandir (PyStr.os_path_join (PyStr.os_path_join b [i]) [x]) with
         | None => ScanDir.FsOSError
         | Some l =>
             match ScanDir.scans_of l with
             | Raise ValueError => ScanDir.FsOk None
             | Raise RuntimeError => ScanDir.FsOk None
             | Raise e => ScanDir.FsRaise e
             | Ok ss =>
                 match last (ScanDir.sorted ss) with
                 | None => ScanDir.FsOk (Some 0)
                 | Some s => ScanDir.FsOk (Some (fst s + 1))
                 end
             end
         end.
Proof.
  intros Hb Hi Hx. unfold ScanDir.next_scan. rewrite Hb, Hx, Hi, list_scans_one.
  destruct (negb _); cbn [fst]; [reflexivity|].
  destruct (scandir _) as [l|]; cbn [fst]; [|reflexivity].
  destruct (ScanDir.scans_of l) as [ss|e]; cbn [fst]; [|destruct e; reflexivity].
  cbn [ScanDir.scans_of_experiment ScanDir.assoc_get].
  now rewrite String.eqb_refl.
Qed.

(** A directory named as [start_scan] names the directory of a scan
    numbered from 0 to 999999 is one [list_scans] keeps. *)
Lemma padded_name_visible (k : Z) (rest : string) :
  0 <= k < 1000000 ->
  ScanDir.visible (ScanDir.mkEntry (PyStr.zero_pad 6 k +:+ "_" +:+ rest) true) = true.
Proof.
  intros Hk. unfold ScanDir.visible. cbn [ScanDir.is_dir ScanDir.d_name andb].
  destruct (zero_pad_6 k Hk) as [HL _].
  assert (HD : PyStr.all_digits (PyStr.zero_pad 6 k) = true).
  { unfold PyStr.zero_pad. destruct (Z.ltb_spec k 0) as [|_]; [lia|].
    rewrite append_nil_l, all_digits_app, all_digits_zeros. apply all_digits_dec_digits. }
  destruct (PyStr.zero_pad 6 k) as [|c t]; [discriminate HL|].
  rewrite append_cons. cbn [PyStr.all_digits] in HD.
  apply andb_true_iff in HD as [HD _].
  destruct c as [[] [] [] [] [] [] [] []]; try reflexivity; discriminate HD.
Qed.

(** X9. The number [next_scan] returns is larger than what [list_scans]
    reads in the first six characters of every scan directory of the
    experiment. For the directories of scans numbered from 0 to 999999,
    named as [start_scan] names them, that is the number of the scan: a
    new scan does not take the number of one of them. With no scan
    directory the number is 0. *)
Theorem next_scan_exceeds_existing
    (path_exists : string -> bool) (scandir : string -> option (list ScanDir.dirent))
    (m : Manager.manager) (b i x : string) (entries : list ScanDir.dirent) (n : Z) :
  Manager.base_path m = Ok (PStr b) ->
  Manager.investigation m = PStr i ->
  Manager.experiment m = Ok (PStr x) ->
  scandir (PyStr.os_path_join (PyStr.os_path_join b [i]) [x]) = Some entries ->
  ScanDir.next_scan path_exists scandir m = ScanDir.FsOk (Some n) ->
  (forall f, f ∈ entries -> ScanDir.visible f = true ->
     exists k label, ScanDir.scan_of_name (ScanDir.d_name f) = Ok (k, label) /\ k < n)
  /\ (forall k rest, 0 <= k < 1000000 ->
        ScanDir.mkEntry (PyStr.zero_pad 6 k +:+ "_" +:+ rest) true ∈ entries -> k < n)
  /\ ((forall f, f ∈ entries -> ScanDir.visible f = false) -> n = 0).
Proof.
  intros Hb Hi Hx Hd. rewrite (next_scan_one _ _ m b i x Hb Hi Hx), Hd.
  destruct (negb _); [discriminate|].
  destruct (ScanDir.scans_of entries) as [ss|e] eqn:Hs; [|destruct e; discriminate].
  destruct (scans_of_elem entries ss Hs) as (I1 & I2 & _).
  intros H.
  assert (Hall : forall f, f ∈ entries -> ScanDir.visible f = true ->
            exists k label,
              ScanDir.scan_of_name (ScanDir.d_name f) = Ok (k, label) /\ k < n).
  { intros f Hf Hv. destruct (I1 f Hf Hv) as ([k label] & E & Hin).
    exists k, label. split; [exact E|].
    destruct (last (ScanDir.sorted ss)) as [s|] eqn:Hl.
    + injection H as <-.
      assert (fst (k, label) <= fst s).
      { apply (last_sorted_max (ScanDir.sorted ss)); [apply sorted_by_number | exact Hl|].
        now rewrite sorted_perm. }
      cbn in *. lia.
    + apply last_None in Hl. rewrite <- (sorted_perm ss), Hl in Hin.
      now apply elem_of_nil in Hin. }
  split; [exact Hall|]. split.
  - intros k rest Hk Hin.
    destruct (Hall _ Hin (padded_name_visible k rest Hk)) as (k' & label & E & Hlt).
    cbn [ScanDir.d_name] in E.
    change ("_" +:+ rest) with (String "_"%char rest) in E.
    rewrite (scan_of_name_padded k rest Hk) in E. injection E as <- _. exact Hlt.
  - intros Hnone. destruct (last (ScanDir.sorted ss)) as [s|] eqn:Hl.
    + apply last_Some_elem_of in Hl. rewrite sorted_perm in Hl.
      destruct (I2 s Hl) as (f & Hf & Hv & _). rewrite (Hnone f Hf) in Hv. discriminate.
    + now injection H as <-.
Qed.

Lemma next_scan_exceeds_existing_witness :
  ScanDir.next_scan exists0 scandir0 manager0 = ScanDir.FsOk (Some 2)
  /\ (forall k rest, 0 <= k < 1000000 ->
        ScanDir.mkEntry (PyStr.zero_pad 6 k +:+ "_" +:+ rest) true
        ∈ [ScanDir.mkEntry "000001_26-11-03_b" true;
           ScanDir.mkEntry "000000_26-11-03" true;
           ScanDir.mkEntry ".cache" true;
           ScanDir.mkEntry "notes.txt" false] -> k < 2).
Proof.
  split; [reflexivity|].
  exact (proj1 (proj2 (next_scan_exceeds_existing exists0 scandir0 manager0 "/data" "speckle"
           "run1" _ 2 eq_refl eq_refl eq_refl eq_refl eq_refl))).
Defined.

(** From scan 1000000 on the bound does not hold: with the directories
    of the scans 999999 and 1000000 on disk, the latter named on seven
    digits, [next_scan] returns 1000000 once more. *)
Example next_scan_after_a_million :
  PyStr.zero_pad 6 1000000 +:+ "_" +:+ "26-11-03" = "1000000_26-11-03"
  /\ ScanDir.next_scan exists0 scandir_million manager0 = ScanDir.FsOk (Some 1000000).
Proof. vm_compute. split; reflexivity. Qed.

(** X10. While the experiment is unset, [next_scan] never returns a
    scan number: where [list_scans] returns its dictionary of all the
    experiments, the look-up of the key [None] raises [KeyError], and
    [status], which starts with [next_scan], raises it too. *)
Theorem next_scan_without_experiment
    (path_exists : string -> bool) (scandir : string -> option (list ScanDir.dirent))
    (m : Manager.manager) (bp : pyval) :
  Manager.base_path m = Ok bp ->
  Manager.experiment m = Ok PNone ->
  (forall n, ScanDir.next_scan path_exists scandir m <> ScanDir.FsOk (Some n))
  /\ (forall d w,
        ScanDir.list_scans path_exists scandir bp (Manager.investigation m) PNone true
        = (ScanDir.FsOk d, w) ->
        ScanDir.next_scan path_exists scandir m = ScanDir.FsRaise KeyError
        /\ ScanDir.status path_exists scandir m = ScanDir.FsRaise KeyError).
Proof.
  intros Hb Hx. unfold ScanDir.status, ScanDir.next_scan. rewrite Hb, Hx.
  split.
  - intros n.
    destruct (fst (ScanDir.list_scans path_exists scandir bp (Manager.investigation m)
                     PNone true)) as [d|e|]; [discriminate | destruct e; discriminate
                                               | discriminate].
  - intros d w ->. cbn. split; reflexivity.
Qed.

Lemma next_scan_without_experiment_witness :
  (forall n, ScanDir.next_scan exists0 scandir0 manager_no_experiment <> ScanDir.FsOk (Some n))
  /\ (forall d w,
        ScanDir.list_scans exists0 scandir0 (PStr "/data")
          (Manager.investigation manager_no_experiment) PNone true
        = (ScanDir.FsOk d, w) ->
        ScanDir.next_scan exists0 scandir0 manager_no_experiment = ScanDir.FsRaise KeyError
        /\ ScanDir.status exists0 scandir0 manager_no_experiment = ScanDir.FsRaise KeyError).
Proof.
  exact (next_scan_without_experiment exists0 scandir0 manager_no_experiment (PStr "/data")
           eq_refl eq_refl).
Defined.

(** X11. Missing directories. When the investigation directory does not
    exist, [next_scan] returns [None]. When it exists and the experiment
    directory cannot be listed, the [OSError] of [os.scandir] leaves
    [list_scans] and [next_scan]: the test that would raise
    [RuntimeError] for a missing experiment looks at the investigation
    path again. *)
Theorem next_scan_missing_directory
    (path_exists : string -> bool) (scandir : string -> option (list ScanDir.dirent))
    (m : Manager.manager) (b i x : string) :
  Manager.base_path m = Ok (PStr b) ->
  Manager.investigation m = PStr i ->
  Manager.experiment m = Ok (PStr x) ->
  (path_exists (PyStr.os_path_join b [i]) = false ->
   ScanDir.next_scan path_exists scandir m = ScanDir.FsOk None)
  /\ (path_exists (PyStr.os_path_join b [i]) = true ->
      scandir (PyStr.os_path_join (PyStr.os_path_join b [i]) [x]) = None ->
      ScanDir.next_scan path_exists scandir m = ScanDir.FsOSError
      /\ fst (ScanDir.list_scans path_exists scandir (PStr b) (PStr i) (PStr x) true)
         = ScanDir.FsOSError).
Proof.
  intros Hb Hi Hx.
  rewrite (next_scan_one _ _ m b i x Hb Hi Hx), list_scans_one.
  split.
  - intros ->. reflexivity.
  - intros -> ->. split; reflexivity.
Qed.

Lemma next_scan_missing_directory_witness :
  (exists_inv_only (PyStr.os_path_join "/data" ["speckle"]) = false ->
   ScanDir.next_scan exists_inv_only scandir_inv_only manager0 = ScanDir.FsOk None)
  /\ (exists_inv_only (PyStr.os_path_join "/data" ["speckle"]) = true ->
      scandir_inv_only (PyStr.os_path_join (PyStr.os_path_join "/data" ["speckle"]) ["run1"])
      = None ->
      ScanDir.next_scan exists_inv_only scandir_inv_only manager0 = ScanDir.FsOSError
      /\ fst (ScanDir.list_scans exists_inv_only scandir_inv_only (PStr "/data")
                (PStr "speckle") (PStr "run1") true)
         = ScanDir.FsOSError).
Proof.
  exact (next_scan_missing_directory exists_inv_only scandir_inv_only manager0
           "/data" "speckle" "run1" eq_refl eq_refl eq_refl).
Defined.

Lemma assoc_get_set {V : Type} (k k' : string) (v : V) (d : list (string * V)) :
  ScanDir.assoc_get k (ScanDir.assoc_set k' v d)
  = if String.eqb k k' then Some v else ScanDir.assoc_get k d.
Proof.
  induction d as [|[k0 v0] d IH]; cbn [ScanDir.assoc_set ScanDir.assoc_get].
  - reflexivity.
  - destruct (String.eqb_spec k' k0) as [->|Hne]; cbn [ScanDir.assoc_get].
    + destruct (String.eqb k k0); reflexivity.
    + destruct (String.eqb_spec k k0) as [->|Hne2].
      * destruct (String.eqb_spec k0 k') as [E|_]; [congruence | reflexivity].
      * exact IH.
Qed.

Lemma assoc_set_elem {V : Type} (k k' : string) (v v' : V) (d : list (string * V)) :
  (k, v) ∈ ScanDir.assoc_set k' v' d -> (k, v) = (k', v') \/ (k, v) ∈ d.
Proof.
  induction d as [|[k0 v0] d IH]; cbn [ScanDir.assoc_set].
  - intros H. apply list_elem_of_singleton in H. now left.
  - destruct (String.eqb k' k0).
    + intros H. apply elem_of_cons in H as [H|H]; [now left | right; now right].
    + intros H. apply elem_of_cons in H as [H|H]; [right; rewrite H; left|].
      destruct (IH H) as [E|E]; [now left | right; now right].
Qed.

(** X12. Listing all the experiments of an investigation agrees with
    listing one: what [list_scans] reports under an experiment when
    called without one is what it returns when called with that
    experiment. *)
Theorem list_scans_all_agrees_with_one
    (path_exists : string -> bool) (scandir : string -> option (list ScanDir.dirent))
    (b i x : string) (lg : bool) (d : list (string * list ScanDir.scan))
    (w : list string) (ss : list ScanDir.scan) :
  ScanDir.list_scans path_exists scandir (PStr b) (PStr i) PNone lg = (ScanDir.FsOk d, w) ->
  ScanDir.assoc_get x d = Some ss ->
  ScanDir.list_scans path_exists scandir (PStr b) (PStr i) (PStr x) lg
  = (ScanDir.FsOk [(x, ss)], []).
Proof.
  set (inv_path := PyStr.os_path_join b [i]).
  set (Good := fun (k : string) (v : list ScanDir.scan) =>
                 exists l ss0, scandir (PyStr.os_path_join inv_path [k]) = Some l
                               /\ ScanDir.scans_of l = Ok ss0 /\ v = ScanDir.sorted ss0).
  assert (Loop : forall all_exp sd wd d' w',
             ScanDir.scan_experiments scandir lg all_exp sd wd = (ScanDir.FsOk d', w') ->
             (forall k p, (k, p) ∈ all_exp -> p = PyStr.os_path_join inv_path [k]) ->
             (forall k v, ScanDir.assoc_get k sd = Some v -> Good k v) ->
             forall k v, ScanDir.assoc_get k d' = Some v -> Good k v).
  { induction all_exp as [|[k0 p0] r IH]; intros sd wd d' w' H Hp Hsd.
    - injection H as <- _. exact Hsd.
    - cbn [ScanDir.scan_experiments] in H.
      assert (Ep : p0 = PyStr.os_path_join inv_path [k0]) by (apply Hp; left).
      destruct (scandir p0) as [l|] eqn:Hl; [|discriminate].
      assert (Hr : forall k p, (k, p) ∈ r -> p = PyStr.os_path_join inv_path [k])
        by (intros k p Hin; apply Hp; now right).
      destruct (ScanDir.scans_of l) as [ss0|e] eqn:Hs.
      + apply (IH _ _ _ _ H Hr). intros k v. rewrite assoc_get_set.
        destruct (String.eqb_spec k k0) as [->|_]; [|apply Hsd].
        intros E. injection E as <-. exists l, ss0. rewrite <- Ep. auto.
      + destruct e; try discriminate. apply (IH _ _ _ _ H Hr Hsd). }
  assert (Fold : forall l acc,
             (forall k p, (k, p) ∈ acc -> p = PyStr.os_path_join inv_path [k]) ->
             forall k p,
               (k, p) ∈ fold_left
                          (fun d0 f =>
                             ScanDir.assoc_set (ScanDir.d_name f)
                               (PyStr.os_path_join inv_path [ScanDir.d_name f]) d0) l acc ->
               p = PyStr.os_path_join inv_path [k]).
  { induction l as [|f l IH]; intros acc Hacc k p; [apply Hacc|].
    cbn [fold_left]. apply IH. intros k' p' Hin.
    apply assoc_set_elem in Hin as [E|Hin]; [now injection E as -> ->|].
    now apply Hacc. }
  intros H Hx. rewrite list_scans_one. fold inv_path.
  unfold ScanDir.list_scans in H. cbn [as_str] in H. fold inv_path in H.
  destruct (negb (path_exists inv_path)); [discriminate|].
  destruct (scandir inv_path) as [l|]; [|discriminate].
  destruct (Loop _ _ _ _ _ H
              (Fold _ [] ltac:(intros k p Hin; now apply elem_of_nil in Hin))
              ltac:(intros k v Hk; discriminate Hk) x ss Hx)
    as (lx & ss0 & -> & -> & ->).
  reflexivity.
Qed.

Lemma list_scans_all_agrees_with_one_witness :
  ScanDir.list_scans exists0 scandir0 (PStr "/data") (PStr "speckle") (PStr "run1") true
  = (ScanDir.FsOk [("run1", [(0, "26-11-03"); (1, "26-11-03_b")])], []).
Proof.
  exact (list_scans_all_agrees_with_one exists0 scandir0 "/data" "speckle" "run1" true
           [("run1", [(0, "26-11-03"); (1, "26-11-03_b")])] []
           [(0, "26-11-03"); (1, "26-11-03_b")] eq_refl eq_refl).
Defined.

(** ** Replies of the robot *)

Lemma split_char_nonempty (sep : ascii) (s : string) : PyParse.split_char sep s <> [].
Proof.
  destruct s as [|c r]; cbn [PyParse.split_char]; [discriminate|].
  destruct (Ascii.eqb c sep); [discriminate|].
  destruct (PyParse.split_char sep r); discriminate.
Qed.

Lemma split_char_snoc (sep : ascii) (s : string) :
  PyParse.split_char sep (s +:+ String sep EmptyString)
  = (PyParse.split_char sep s ++ [EmptyString])%list.
Proof.
  induction s as [|c r IH].
  - rewrite append_nil_l. cbn [PyParse.split_char]. now rewrite Ascii.eqb_refl.
  - rewrite append_cons. cbn [PyParse.split_char]. rewrite IH.
    destruct (Ascii.eqb c sep); [reflexivity|].
    pose proof (split_char_nonempty sep r) as N.
    destruct (PyParse.split_char sep r); [contradiction|reflexivity].
Qed.

Lemma parse_replies_snoc_empty (l : list string) :
  exists e, Mecademic.parse_replies (l ++ [EmptyString]) = Raise e.
Proof.
  induction l as [|a l [e IH]].
  - exists ValueError. reflexivity.
  - cbn [app Mecademic.parse_replies]. destruct (Mecademic.parse_reply a) as [x|e'].
    + rewrite IH. now exists e.
    + now exists e'.
Qed.

(** X13. A reply that ends with the end-of-line byte is not processed:
    its split leaves an empty last part, whose unpacking into code and
    message raises, so [process_reply] raises and leaves the driver as
    it was. The empty reply raises [ValueError] in the same way. *)
Theorem process_reply_trailing_eol (reply : string) (d : Mecademic.driver) :
  (exists e,
      Mecademic.process_reply (reply +:+ String Mecademic.EOL EmptyString) d = Throw e d)
  /\ Mecademic.process_reply EmptyString d = Throw ValueError d.
Proof.
  split; [|reflexivity].
  unfold Mecademic.process_reply. rewrite split_char_snoc.
  destruct (parse_replies_snoc_empty (PyParse.split_char Mecademic.EOL reply)) as [e ->].
  now exists e.
Qed.

(** X14. [consume_buffer] never returns. The first part of the buffer
    either fails to parse or is stored, and then the test of the length
    compares a list with an integer, a [TypeError]: no callback is
    called, at most one message is stored, and the buffer is not
    emptied. *)
Theorem consume_buffer_never_returns (mon : Mecademic.monitor) :
  exists e mon',
    Mecademic.consume_buffer mon = Throw e mon'
    /\ Mecademic.recv_buffer mon' = Mecademic.recv_buffer mon
    /\ (Mecademic.messages mon' = Mecademic.messages mon
        \/ exists code msg,
             e = TypeError
             /\ Mecademic.messages mon'
                = <[code := (default [] (Mecademic.messages mon !! code) ++ [msg])%list]>
                    (Mecademic.messages mon)).
Proof.
  unfold Mecademic.consume_buffer.
  pose proof (split_char_nonempty Mecademic.EOL (Mecademic.recv_buffer mon)) as N.
  destruct (PyParse.split_char Mecademic.EOL (Mecademic.recv_buffer mon)) as [|t r];
    [contradiction|].
  cbn [Mecademic.consume_tokens]. unfold Mecademic.consume_token.
  destruct (Mecademic.parse_reply t) as [[code msg]|e].
  - cbn. eexists _, _. split; [reflexivity|]. split; [reflexivity|].
    right. exists code, msg. split; [reflexivity|]. cbn.
    destruct (Mecademic.messages mon !! code) as [[|x l]|]; reflexivity.
  - exists e, mon. split; [reflexivity|]. split; [reflexivity|]. now left.
Qed.

Lemma decode_ascii_id (s : string) :
  PyParse.all_ascii s = true -> PyParse.decode_ascii_ignore s = s.
Proof.
  induction s as [|c r IH]; [reflexivity|].
  cbn [PyParse.all_ascii PyParse.decode_ascii_ignore]. intros H.
  apply andb_true_iff in H as [H1 H2]. rewrite H1. now rewrite IH.
Qed.

Lemma all_ascii_app (a b : string) :
  PyParse.all_ascii (a +:+ b) = (PyParse.all_ascii a && PyParse.all_ascii b)%bool.
Proof.
  induction a as [|c a IH]; [now rewrite append_nil_l|].
  rewrite append_cons. cbn [PyParse.all_ascii]. rewrite IH. now rewrite andb_assoc.
Qed.

Lemma rstrip_app_stripped (chars x t : string) :
  PyParse.rstrip chars t = EmptyString ->
  PyParse.rstrip chars (x +:+ t) = PyParse.rstrip chars x.
Proof.
  intros Ht. induction x as [|c x IH]; [now rewrite append_nil_l|].
  rewrite append_cons. cbn [PyParse.rstrip]. now rewrite IH.
Qed.

Lemma rstrip_app_fixed (chars p s : string) :
  PyParse.rstrip chars s = s -> s <> EmptyString ->
  PyParse.rstrip chars (p +:+ s) = p +:+ s.
Proof.
  intros Hs Hne. induction p as [|c p IH]; [now rewrite append_nil_l|].
  rewrite append_cons. cbn [PyParse.rstrip]. rewrite IH.
  destruct (p +:+ s) eqn:E; [|reflexivity].
  destruct p; [rewrite append_nil_l in E; contradiction | rewrite append_cons in E; discriminate].
Qed.

Lemma split_pair_digits (a b : ascii) (c : string) (rest : string) :
  PyStr.mem_char a c = false ->
  PyParse.split_pair a b (c +:+ String a (String b rest))
  = c :: PyParse.split_pair a b rest.
Proof.
  induction c as [|x c IH]; intros H.
  - rewrite append_nil_l. cbn [PyParse.split_pair]. now rewrite !Ascii.eqb_refl.
  - cbn [PyStr.mem_char] in H. apply orb_false_iff in H as [H1 H2].
    rewrite append_cons. cbn [PyParse.split_pair].
    destruct (c +:+ String a (String b rest)) as [|y r] eqn:E.
    { destruct c; [rewrite append_nil_l in E | rewrite append_cons in E]; discriminate. }
    rewrite (Ascii.eqb_sym x a), H1. cbn [andb]. rewrite (IH H2). reflexivity.
Qed.

Lemma dec_digits_no_char (a : ascii) (fuel : nat) (n : N) :
  PyStr.is_digit a = false -> PyStr.mem_char a (PyStr.dec_digits fuel n) = false.
Proof.
  intros Ha.
  assert (G : forall s, PyStr.all_digits s = true -> PyStr.mem_char a s = false).
  { induction s as [|c r IH]; [reflexivity|].
    cbn [PyStr.all_digits PyStr.mem_char]. intros H.
    apply andb_true_iff in H as [H1 H2]. rewrite (IH H2), orb_false_r.
    destruct (Ascii.eqb_spec a c) as [->|]; [congruence | reflexivity]. }
  apply G, all_digits_dec_digits.
Qed.

Lemma str_N_digits (n : N) : PyStr.all_digits (PyStr.str_N n) = true.
Proof. apply all_digits_dec_digits. Qed.

Lemma str_N_ascii (n : N) : PyParse.all_ascii (PyStr.str_N n) = true.
Proof. apply all_digits_ascii, str_N_digits. Qed.

(** The text between the outer brackets of [[code][message]]. *)
Lemma strip_bracketed (code : N) (msg : string) :
  msg <> EmptyString -> PyParse.rstrip "[]" msg = msg ->
  PyParse.strip "[]" ("[" +:+ PyStr.str_N code +:+ "][" +:+ msg +:+ "]")
  = PyStr.str_N code +:+ "][" +:+ msg.
Proof.
  intros Hne Hfix. unfold PyParse.strip.
  change ("[" +:+ PyStr.str_N code +:+ "][" +:+ msg +:+ "]")
    with (String "["%char (PyStr.str_N code +:+ "][" +:+ msg +:+ "]")).
  cbn [PyParse.lstrip PyStr.mem_char]. rewrite Ascii.eqb_refl. cbn [orb].
  destruct (int_body_str_N code 0 0 EmptyString) as [_ L].
  pose proof (str_N_digits code) as D.
  destruct (PyStr.str_N code) as [|c0 cs] eqn:E; [cbn in L; lia|].
  rewrite append_cons. cbn [PyParse.lstrip PyStr.mem_char].
  cbn [PyStr.all_digits] in D. apply andb_true_iff in D as [D0 _].
  assert (B : (Ascii.eqb c0 "["%char || (Ascii.eqb c0 "]"%char || false))%bool = false).
  { destruct (Ascii.eqb_spec c0 "["%char) as [->|]; [discriminate D0|].
    destruct (Ascii.eqb_spec c0 "]"%char) as [->|]; [discriminate D0|]. reflexivity. }
  rewrite B. rewrite <- append_cons.
  replace (String c0 cs +:+ "][" +:+ msg +:+ "]")
    with ((String c0 cs +:+ "][" +:+ msg) +:+ "]")
    by now rewrite !append_assoc_str.
  rewrite rstrip_app_stripped by reflexivity.
  rewrite <- append_assoc_str. now apply rstrip_app_fixed.
Qed.

(** A reply [[code][message]] parses to its code and message when the
    message is ASCII text that [split] and [strip] leave whole. *)
Lemma parse_reply_bracketed_ok (code : Z) (msg : string) :
  0 <= code ->
  (String.length (PyStr.str_int code) <= PyParse.max_str_digits)%nat ->
  PyParse.all_ascii msg = true ->
  PyParse.split_pair "]" "[" msg = [msg] ->
  msg <> EmptyString -> PyParse.rstrip "[]" msg = msg ->
  Mecademic.parse_reply ("[" +:+ PyStr.str_int code +:+ "][" +:+ msg +:+ "]")
  = Ok (code, msg).
Proof.
  intros Hc Hl Ha Hs Hne Hfix. unfold PyStr.str_int in *.
  destruct (Z.ltb_spec code 0) as [|_]; [lia|].
  unfold Mecademic.parse_reply.
  rewrite decode_ascii_id.
  2:{ rewrite !all_ascii_app, Ha, str_N_ascii. reflexivity. }
  rewrite strip_bracketed by assumption.
  change ("][" +:+ msg) with (String "]"%char (String "["%char msg)).
  rewrite split_pair_digits by (apply dec_digits_no_char; reflexivity).
  rewrite Hs, (py_int_str_N _ Hl), N2Z.inj_abs_N, Z.abs_eq by lia. reflexivity.
Qed.

(** X15. Parsing of one reply. A reply [[code][message]] with a
    non-negative code gives back the code and the message when the
    message is ASCII text that is not empty, holds no closing bracket
    followed by an opening one and does not end with a bracket. With an empty message, [strip] also removes the
    brackets of the message, one part is left, and the unpacking raises
    [ValueError]. *)
Theorem parse_reply_bracketed (code : Z) (msg : string) :
  0 <= code ->
  (String.length (PyStr.str_int code) <= PyParse.max_str_digits)%nat ->
  PyParse.all_ascii msg = true ->
  PyParse.split_pair "]" "[" msg = [msg] ->
  msg <> EmptyString -> PyParse.rstrip "[]" msg = msg ->
  Mecademic.parse_reply ("[" +:+ PyStr.str_int code +:+ "][" +:+ msg +:+ "]")
  = Ok (code, msg)
  /\ Mecademic.parse_reply ("[" +:+ PyStr.str_int code +:+ "][" +:+ "" +:+ "]")
     = Raise ValueError.
Proof.
  intros Hc Hl Ha Hs Hne Hfix. split; [now apply parse_reply_bracketed_ok|].
  unfold PyStr.str_int in *. destruct (Z.ltb_spec code 0) as [|_]; [lia|].
  unfold Mecademic.parse_reply.
  rewrite decode_ascii_id
    by (rewrite !all_ascii_app, str_N_ascii; reflexivity).
  assert (S0 : PyParse.strip "[]" ("[" +:+ PyStr.str_N (Z.abs_N code) +:+ "][" +:+ "" +:+ "]")
               = PyStr.str_N (Z.abs_N code)).
  { unfold PyParse.strip.
    change ("[" +:+ PyStr.str_N (Z.abs_N code) +:+ "][" +:+ "" +:+ "]")
      with (String "["%char (PyStr.str_N (Z.abs_N code) +:+ "][]")).
    cbn [PyParse.lstrip PyStr.mem_char]. rewrite Ascii.eqb_refl. cbn [orb].
    destruct (int_body_str_N (Z.abs_N code) 0 0 EmptyString) as [_ L].
    pose proof (str_N_digits (Z.abs_N code)) as D.
    assert (R : forall s, PyStr.all_digits s = true -> s <> EmptyString ->
                  PyParse.rstrip "[]" s = s).
    { induction s as [|c r IH]; [reflexivity|]. intros Hd _.
      cbn [PyStr.all_digits] in Hd. apply andb_true_iff in Hd as [Hd0 Hd1].
      cbn [PyParse.rstrip]. destruct r as [|c' r'].
      - cbn [PyParse.rstrip PyStr.mem_char].
        destruct (Ascii.eqb_spec c "["%char) as [->|]; [discriminate Hd0|].
        destruct (Ascii.eqb_spec c "]"%char) as [->|]; [discriminate Hd0|]. reflexivity.
      - rewrite (IH Hd1) by discriminate. reflexivity. }
    destruct (PyStr.str_N (Z.abs_N code)) as [|c0 cs] eqn:E; [cbn in L; lia|].
    rewrite append_cons. cbn [PyParse.lstrip PyStr.mem_char].
    pose proof D as D'. cbn [PyStr.all_digits] in D'. apply andb_true_iff in D' as [D0 _].
    assert (B : (Ascii.eqb c0 "["%char || (Ascii.eqb c0 "]"%char || false))%bool = false).
    { destruct (Ascii.eqb_spec c0 "["%char) as [->|]; [discriminate D0|].
      destruct (Ascii.eqb_spec c0 "]"%char) as [->|]; [discriminate D0|]. reflexivity. }
    rewrite B. rewrite <- append_cons.
    rewrite rstrip_app_stripped by reflexivity. apply R; [exact D | discriminate]. }
  rewrite S0.
  assert (P : forall s, PyStr.all_digits s = true -> PyParse.split_pair "]" "[" s = [s]).
  { induction s as [|c r IH]; [reflexivity|]. intros Hd.
    cbn [PyStr.all_digits] in Hd. apply andb_true_iff in Hd as [Hd0 Hd1].
    cbn [PyParse.split_pair]. destruct r as [|c' r']; [reflexivity|].
    destruct (Ascii.eqb_spec c "]"%char) as [->|]; [discriminate Hd0|].
    cbn [andb]. now rewrite (IH Hd1). }
  rewrite P by apply str_N_digits. reflexivity.
Qed.

Lemma parse_reply_bracketed_witness :
  Mecademic.parse_reply ("[" +:+ PyStr.str_int 2007 +:+ "][" +:+ "1,0,1" +:+ "]")
  = Ok (2007, "1,0,1")
  /\ Mecademic.parse_reply ("[" +:+ PyStr.str_int 2007 +:+ "][" +:+ "" +:+ "]")
     = Raise ValueError.
Proof.
  exact (parse_reply_bracketed 2007 "1,0,1" ltac:(lia)
           ltac:(apply Nat.leb_le; reflexivity) eq_refl eq_refl ltac:(discriminate) eq_refl).
Defined.

Lemma classify_spec (l : list (Z * string)) :
  forall (r0 : option (Z * string)) (d : Mecademic.driver),
    fst (Mecademic.classify l r0 d)
    = match last (List.filter
                    (fun r => ((2000 <=? fst r)%Z && (fst r <=? 2999)%Z
                               && negb (fst r =? 2042)%Z)%bool) l) with
      | Some x => Some x
      | None => r0
      end
    /\ Mecademic.last_error (snd (Mecademic.classify l r0 d))
       = match last (List.filter (fun r => (fst r <? 2000)%Z) l) with
         | Some x => Some x
         | None => Mecademic.last_error d
         end
    /\ Mecademic.motion_paused (snd (Mecademic.classify l r0 d))
       = (Mecademic.motion_paused d || existsb (fun r => (fst r =? 2042)%Z) l)%bool.
Proof.
  induction l as [|[code msg] l IH]; intros r0 d.
  - cbn. now rewrite orb_false_r.
  - cbn [Mecademic.classify List.filter existsb fst].
    destruct (Z.eqb_spec code 2042) as [->|Hn].
    + cbn [andb negb orb Z.leb Z.ltb Z.compare Pos.compare Pos.compare_cont].
      destruct (IH r0 (Mecademic.mkDriver (Mecademic.last_error d) true
                         (Mecademic.log d))) as (I1 & I2 & I3).
      rewrite I1, I2, I3. cbn [Mecademic.last_error Mecademic.motion_paused].
      now rewrite orb_true_r.
    + cbn [orb negb]. rewrite andb_true_r.
      destruct (Z.ltb_spec code 2000) as [Hlt|Hge].
      * replace (2000 <=? code)%Z with false by (symmetry; apply Z.leb_gt; lia).
        cbn [andb].
        match goal with
        | |- context [Mecademic.classify l r0 ?d1] =>
            destruct (IH r0 d1) as (I1 & I2 & I3)
        end.
        rewrite I1, I2, I3, last_cons.
        cbn [Mecademic.last_error Mecademic.motion_paused Mecademic.logged].
        split; [reflexivity|]. split; [|reflexivity].
        destruct (last (List.filter (fun r : Z * string => (fst r <? 2000)%Z) l));
          reflexivity.
      * replace (2000 <=? code)%Z with true by (symmetry; apply Z.leb_le; lia).
        cbn [andb]. destruct (Z.ltb_spec 2999 code) as [Hgt|Hle].
        -- replace (code <=? 2999)%Z with false by (symmetry; apply Z.leb_gt; lia).
           match goal with
           | |- context [Mecademic.classify l r0 ?d1] =>
               destruct (IH r0 d1) as (I1 & I2 & I3)
           end.
           rewrite I1, I2, I3.
           cbn [Mecademic.last_error Mecademic.motion_paused Mecademic.logged].
           repeat split.
        -- replace (code <=? 2999)%Z with true by (symmetry; apply Z.leb_le; lia).
           match goal with
           | |- context [Mecademic.classify l (Some (code, msg)) ?d1] =>
               destruct (IH (Some (code, msg)) d1) as (I1 & I2 & I3)
           end.
           rewrite I1, I2, I3, last_cons.
           split;
             [destruct (last (List.filter
                                (fun r : Z * string =>
                                   ((2000 <=? fst r)%Z && (fst r <=? 2999)%Z
                                    && negb (fst r =? 2042)%Z)%bool) l));
              reflexivity|].
           split; destruct r0 as [[c0 m0]|]; reflexivity.
Qed.

(** X16. What [process_reply] returns for replies that parse. The
    result is the last reply with a code from 2000 to 2999 other than
    2042, or [None] if there is none; [last_error] becomes the last
    reply with a code below 2000 and is kept if there is none;
    [motion_paused] is set by a reply of code 2042 and never cleared. *)
Theorem process_reply_classification
    (reply : string) (d : Mecademic.driver) (l : list (Z * string)) :
  Mecademic.parse_replies (PyParse.split_char Mecademic.EOL reply) = Ok l ->
  exists d',
    Mecademic.process_reply reply d
    = Return
        (last (List.filter
                 (fun r => ((2000 <=? fst r)%Z && (fst r <=? 2999)%Z && negb (fst r =? 2042)%Z)%bool)
                 l)) d'
    /\ Mecademic.last_error d'
       = match last (List.filter (fun r => (fst r <? 2000)%Z) l) with
         | Some x => Some x
         | None => Mecademic.last_error d
         end
    /\ Mecademic.motion_paused d'
       = (Mecademic.motion_paused d || existsb (fun r => (fst r =? 2042)%Z) l)%bool.
Proof.
  intros H. unfold Mecademic.process_reply. rewrite H.
  destruct (classify_spec l None d) as (I1 & I2 & I3).
  destruct (Mecademic.classify l None d) as [r d'] eqn:E. cbn [fst snd] in *.
  exists d'. subst r. split; [|split; assumption].
  destruct (last _); reflexivity.
Qed.

Lemma process_reply_classification_witness :
  exists d',
    Mecademic.process_reply reply_batch driver0
    = Return
        (last (List.filter
                 (fun r => ((2000 <=? fst r)%Z && (fst r <=? 2999)%Z
                            && negb (fst r =? 2042)%Z)%bool)
                 parsed_batch)) d'
    /\ Mecademic.last_error d'
       = match last (List.filter (fun r => (fst r <? 2000)%Z) parsed_batch) with
         | Some x => Some x
         | None => Mecademic.last_error driver0
         end
    /\ Mecademic.motion_paused d'
       = (Mecademic.motion_paused driver0
          || existsb (fun r => (fst r =? 2042)%Z) parsed_batch)%bool.
Proof.
  exact (process_reply_classification reply_batch driver0 parsed_batch eq_refl).
Defined.

(** ** The frame management thread *)

Lemma frame_management_loop_S
    (writer_store streamer_store : Camera.frame -> loc -> option exn)
    (k : nat) (s : FrameLoop.consumer) :
  FrameLoop.frame_management_loop writer_store streamer_store (S k) s
  = match FrameLoop.frame_management_turn writer_store streamer_store s with
    | Return Camera.Continue s' =>
        FrameLoop.frame_management_loop writer_store streamer_store k s'
    | r => r
    end.
Proof. reflexivity. Qed.

Lemma frame_loop_from (writer_store streamer_store : Camera.frame -> loc -> option exn)
    (q : list (Camera.frame * loc)) :
  forall (c : Camera.camera) (m : option Manager.manager) (t : list Camera.event)
         (dl : list FrameLoop.delivery),
    Camera.frame_queue c = q ->
    (forall data meta, (data, meta) ∈ q ->
       (Camera.rolling c = false -> writer_store data meta = None)
       /\ (Camera.do_broadcast (Camera.config c) = true -> streamer_store data meta = None)) ->
    FrameLoop.frame_management_loop writer_store streamer_store (S (length q))
      (FrameLoop.mkConsumer (Camera.mkWorld c m t) dl)
    = Return (if Camera.closing c then Camera.Break else Camera.Idle)
        (FrameLoop.mkConsumer
           (Camera.mkWorld
              (Camera.with_frame_queue_empty_flag true (Camera.with_frame_queue [] c)) m t)
           (dl ++ flat_map (FrameLoop.deliveries_of c) q)).
Proof.
  induction q as [|[data meta] rest IH]; intros c m t dl Hq Hst.
  - destruct c. cbn in Hq. subst. cbn. rewrite app_nil_r. destruct closing; reflexivity.
  - destruct (Hst data meta ltac:(left)) as [Hw Hs].
    assert (Hrest : forall d0 m0, (d0, m0) ∈ rest ->
               (Camera.rolling c = false -> writer_store d0 m0 = None)
               /\ (Camera.do_broadcast (Camera.config c) = true
                   -> streamer_store d0 m0 = None))
      by (intros d0 m0 Hin; apply Hst; now right).
    destruct c. cbn in Hq, Hw, Hs, Hrest. subst.
    cbn [length]. rewrite frame_management_loop_S.
    unfold FrameLoop.frame_management_turn, FrameLoop.on_camera, FrameLoop.deliver.
    cbn [FrameLoop.world_of FrameLoop.delivered Camera.cam Camera.man Camera.trace
         Camera.frame_queue Camera.with_frame_queue Camera.rolling Camera.config
         Camera.with_frame_queue_empty_flag].
    destruct rolling; cbn [negb];
      [|rewrite (Hw eq_refl)];
      cbn [FrameLoop.world_of FrameLoop.delivered Camera.cam Camera.man Camera.trace
           Camera.config];
      (destruct (Camera.do_broadcast config) eqn:Hb; [rewrite (Hs eq_refl)|]);
      cbn [FrameLoop.world_of FrameLoop.delivered Camera.cam Camera.man Camera.trace
           Camera.frame_queue Camera.with_frame_queue_empty_flag];
      destruct rest as [|r0 rest'];
      (erewrite IH;
       [|reflexivity
        |intros d0 m0 Hin; destruct (Hrest d0 m0 Hin) as [A B]; cbn; split; intros Hx;
         [apply A | apply B]; solve [reflexivity | congruence | exact Hx]]);
      cbn; unfold FrameLoop.deliveries_of; cbn; rewrite Hb; rewrite <- ?app_assoc;
      reflexivity.
Qed.

(** X17. The frame management thread empties the queue. With a writer
    and a streamer that accept the queued frames, it hands each frame
    over once, in the order of the queue — to the file writer unless
    the camera is rolling, then to the streamer if broadcasting is on —
    and stops waiting with the queue empty and the queue-empty flag set.
    While the camera is rolling nothing goes to the file writer. *)
Theorem frame_loop_delivers_in_order
    (writer_store streamer_store : Camera.frame -> loc -> option exn)
    (s : FrameLoop.consumer) :
  let c := Camera.cam (FrameLoop.world_of s) in
  (forall data meta, (data, meta) ∈ Camera.frame_queue c ->
     (Camera.rolling c = false -> writer_store data meta = None)
     /\ (Camera.do_broadcast (Camera.config c) = true -> streamer_store data meta = None)) ->
  exists s',
    FrameLoop.frame_management_loop writer_store streamer_store
      (S (length (Camera.frame_queue c))) s
    = Return (if Camera.closing c then Camera.Break else Camera.Idle) s'
    /\ Camera.frame_queue (Camera.cam (FrameLoop.world_of s')) = []
    /\ Camera.frame_queue_empty_flag (Camera.cam (FrameLoop.world_of s')) = true
    /\ FrameLoop.delivered s'
       = (FrameLoop.delivered s
          ++ flat_map (FrameLoop.deliveries_of c) (Camera.frame_queue c))%list
    /\ (Camera.rolling c = true ->
        forall data meta,
          FrameLoop.WriterStore data meta ∈ FrameLoop.delivered s' ->
          FrameLoop.WriterStore data meta ∈ FrameLoop.delivered s)
    /\ Camera.trace (FrameLoop.world_of s') = Camera.trace (FrameLoop.world_of s).
Proof.
  intros c Hst. destruct s as [[c0 m t] dl]. cbn in c. subst c.
  cbn [FrameLoop.world_of Camera.cam FrameLoop.delivered Camera.trace] in *.
  eexists. split; [apply frame_loop_from; [reflexivity | exact Hst]|].
  cbn [FrameLoop.world_of Camera.cam FrameLoop.delivered Camera.trace].
  split; [now destruct c0|]. split; [now destruct c0|]. split; [reflexivity|].
  split; [|reflexivity].
  intros Hr data meta Hin. apply elem_of_app in Hin as [Hin|Hin]; [exact Hin|].
  apply list_elem_of_In, in_flat_map in Hin as (item & _ & Hin).
  unfold FrameLoop.deliveries_of in Hin. rewrite Hr in Hin.
  destruct (Camera.do_broadcast (Camera.config c0)); cbn in Hin;
    [destruct Hin as [Hin|[]]; discriminate Hin | destruct Hin].
Qed.

Lemma frame_loop_delivers_in_order_witness :
  exists s',
    FrameLoop.frame_management_loop store_ok store_ok 2 consumer0 = Return Camera.Idle s'
    /\ Camera.frame_queue (Camera.cam (FrameLoop.world_of s')) = []
    /\ Camera.frame_queue_empty_flag (Camera.cam (FrameLoop.world_of s')) = true
    /\ FrameLoop.delivered s'
       = [FrameLoop.WriterStore [0%N] 1%positive; FrameLoop.StreamerStore [0%N] 1%positive]
    /\ (Camera.rolling (Camera.cam (FrameLoop.world_of consumer0)) = true ->
        forall data meta,
          FrameLoop.WriterStore data meta ∈ FrameLoop.delivered s' ->
          FrameLoop.WriterStore data meta ∈ FrameLoop.delivered consumer0)
    /\ Camera.trace (FrameLoop.world_of s') = Camera.trace (FrameLoop.world_of consumer0).
Proof.
  exact (frame_loop_delivers_in_order store_ok store_ok consumer0
           (fun _ _ _ => conj (fun _ => eq_refl) (fun _ => eq_refl))).
Defined.

(** ** [snap], whatever the trigger does *)

Lemma build_filename_ext (c1 c2 : Camera.camera) (p q : option string) :
  Camera.BASE_PATH c1 = Camera.BASE_PATH c2 ->
  Camera.counter (Camera.config c1) = Camera.counter (Camera.config c2) ->
  Camera.file_format (Camera.config c1) = Camera.file_format (Camera.config c2) ->
  Camera._build_filename c1 p q = Camera._build_filename c2 p q.
Proof. intros H1 H2 H3. unfold Camera._build_filename. now rewrite H1, H2, H3. Qed.

Lemma wait_acquire_done_S (trig : nat -> Camera.trigger_outcome) (js : option exn)
    (k : nat) (w : Camera.world) :
  Camera.wait_acquire_done trig js (S k) w
  = if Camera.acquire_done (Camera.cam w) then Return tt w
    else match Camera.loop_future (Camera.cam w) with
         | Some Camera.Alive =>
             match Camera.thread_turn trig js w with
             | Return Camera.Idle w' => Blocked w'
             | Return _ w' => Camera.wait_acquire_done trig js k w'
             | Throw e w' => Throw e w'
             | Blocked w' => Blocked w'
             end
         | _ => Blocked w
         end.
Proof.
  cbn [Camera.wait_acquire_done]. unfold Camera.bind, Camera.get, Camera.ret, Camera.blocked.
  destruct (Camera.acquire_done (Camera.cam w)); [reflexivity|].
  destruct (Camera.loop_future (Camera.cam w)) as [[|]|]; try reflexivity.
  destruct (Camera.thread_turn trig js w) as [[| |] w'|e w'|w']; reflexivity.
Qed.



(** X19. A failed trigger on a camera that was armed by hand. [snap]
    returns, but the acquisition thread has ended while the camera is
    still armed: no later [snap] returns, since nothing is left to set
    [acquire_done] (it raises if the file name cannot be built, and
    waits for ever otherwise). *)
Theorem snap_after_failed_trigger_hangs
    (trig : nat -> Camera.trigger_outcome) (js : option exn) (k : nat)
    (w : Camera.world) (m : Manager.manager) (f : string) (e : exn) :
  let c := Camera.cam w in
  Camera.rolling c = false -> Camera.armed c = true ->
  Camera.loop_future c = Some Camera.Alive ->
  Camera.acquire_done c = false -> Camera.enqueue_lock c = false ->
  Camera.man w = Some m -> Manager.scan_path m = Ok None ->
  Camera._build_filename
    (Camera.with_config
       (Camera.cfg_with_counter (Camera.counter (Camera.config c) + 1) (Camera.config c)) c)
    (Camera.file_prefix (Camera.config c)) (Camera.save_path (Camera.config c)) = Ok f ->
  Camera.raises (trig (Camera.ntrig c)) = Some e ->
  exists w1,
    Camera.snap trig js (S (S k)) None None w = Return tt w1
    /\ Camera.armed (Camera.cam w1) = true
    /\ Camera.loop_future (Camera.cam w1) = Some Camera.Finished
    /\ (forall fuel exp_time exp_num w2,
          Camera.snap trig js fuel exp_time exp_num w1 <> Return tt w2).
Proof.
  intros c Hroll Harm Hfut Hacq Hlock Hman Hp Hf Hraise. subst c.
  destruct w as [c m0 t]. destruct c. destruct config.
  cbn in Hroll, Harm, Hfut, Hacq, Hlock, Hman, Hf, Hraise. subst.
  unfold Camera.snap at 1.
  unfold Camera.in_scan, Camera.set_counter, Camera.get_manager,
    Camera.lift, Camera.bind, Camera.get, Camera.modify, Camera.when, Camera.emit,
    Camera.ret, Camera.raise.
  cbn -[Camera.wait_acquire_done Camera._build_filename Camera.disarm Camera.snap].
  rewrite Hp.
  cbn -[Camera.wait_acquire_done Camera._build_filename Camera.disarm Camera.snap].
  match goal with |- context [Camera._build_filename ?c1 ?p ?q] =>
    match type of Hf with Camera._build_filename ?c2 _ _ = _ =>
      rewrite (build_filename_ext c1 c2 p q eq_refl eq_refl eq_refl), Hf end end.
  cbn -[Camera.wait_acquire_done Camera.disarm Camera.snap].
  rewrite wait_acquire_done_S.
  cbn [Camera.cam Camera.acquire_done Camera.loop_future].
  unfold Camera.thread_turn, Camera.bind, Camera.try_except, Camera.when, Camera.modify,
    Camera.ret.
  match goal with |- context [Camera.loop_iteration trig js ?W] =>
    destruct (loop_iteration_spec trig js W eq_refl eq_refl) as (h & md & lm & q & fl & E)
  end.
  cbv zeta in E.
  cbn [Camera.cam Camera.man Camera.trace Camera.ntrig Camera.rolling Camera.auto_armed
       Camera.filename] in E.
  rewrite E, Hraise. clear E.
  cbn -[Camera.wait_acquire_done Camera.disarm Camera.snap].
  rewrite wait_acquire_done_S.
  cbn -[Camera.disarm Camera.snap].
  eexists. split; [reflexivity|]. split; [reflexivity|]. split; [reflexivity|].
  intros fuel exp_time exp_num w2.
  unfold Camera.snap, Camera.in_scan, Camera.set_counter, Camera.get_manager,
    Camera.lift, Camera.bind, Camera.get, Camera.modify, Camera.when, Camera.emit,
    Camera.ret, Camera.raise.
  cbn -[Camera.wait_acquire_done Camera._build_filename Camera.disarm].
  rewrite Hp.
  cbn -[Camera.wait_acquire_done Camera._build_filename Camera.disarm].
  match goal with |- context [Camera._build_filename ?c1 ?p ?q] =>
    destruct (Camera._build_filename c1 p q) as [f2|e2] end; [|discriminate].
  cbn -[Camera.wait_acquire_done Camera.disarm].
  destruct fuel as [|fuel]; [cbn; discriminate|].
  rewrite wait_acquire_done_S. cbn. discriminate.
Qed.

Lemma snap_after_failed_trigger_hangs_witness :
  exists w1,
    Camera.snap trigger_failing None 2 None None world_armed = Return tt w1
    /\ Camera.armed (Camera.cam w1) = true
    /\ Camera.loop_future (Camera.cam w1) = Some Camera.Finished
    /\ (forall fuel exp_time exp_num w2,
          Camera.snap trigger_failing None fuel exp_time exp_num w1 <> Return tt w2).
Proof.
  exact (snap_after_failed_trigger_hangs trigger_failing None 0 world_armed manager0
           "/data/snaps/snap_000001.h5" RuntimeError
           eq_refl eq_refl eq_refl eq_refl eq_refl eq_refl eq_refl eq_refl eq_refl).
Defined.

(** ** Rolling *)

(** [roll_on(fps)] on an idle camera, for a frame rate that is not
    zero. *)
Lemma roll_on_idle_spec
    (trig : nat -> Camera.trigger_outcome) (js : option exn) (k : nat)
    (w : Camera.world) (f : float) :
  let c := Camera.cam w in
  Camera.rolling c = false -> Camera.armed c = false ->
  (f =? 0)%float = false ->
  match Camera.man w with
  | Some m => exists p, Manager.scan_path m = Ok p
  | None => True
  end ->
  exists w',
    let c' := Camera.cam w' in
    Camera.roll_on trig js (S k) (Some f) w = Return tt w'
    /\ Camera.rolling c' = true
    /\ Camera.armed c' = true
    /\ Camera.do_acquire c' = true
    /\ Camera.loop_future c' = Some Camera.Alive
    /\ Camera.roll_fps (Camera.config c')
       = (if (Camera.MAX_FPS c <? f)%float then Camera.MAX_FPS c else f)
    /\ Camera.exposure_time c' = (1 / f)%float
    /\ Camera.exposure_number c' = 100
    /\ Camera._exposure_time_before_roll c' = Some (Camera.exposure_time c)
    /\ Camera._exposure_number_before_roll c' = Some (Camera.exposure_number c)
    /\ Camera.do_broadcast (Camera.config c') = true
    /\ Camera.filename c' = None
    /\ Camera.enqueue_lock c' = Camera.enqueue_lock c
    /\ Camera.man w' = Camera.man w.
Proof.
  intros c Hroll Harm Hf Hman. subst c.
  destruct w as [c m0 t]. destruct c. destruct config.
  cbn in Hroll, Harm, Hman. subst.
  cbn [Camera.roll_on]. unfold Camera.truthy_float. cbn [default]. rewrite Hf. cbn [negb].
  unfold Camera.set_roll_fps_with, Camera.live_on, Camera.is_live, Camera.arm,
    Camera.set_exposure_time, Camera.set_exposure_number, Camera.get_manager,
    Camera.lift, Camera.bind, Camera.get, Camera.modify, Camera.when, Camera.emit,
    Camera.try_except, Camera.ret, Camera.raise.
  cbn.
  destruct (MAX_FPS <? f)%float; cbn; rewrite Hf;
    destruct do_broadcast; cbn;
    (destruct m0 as [m|]; [destruct Hman as [p Hp]; rewrite ?Hp|]);
    cbn; eexists; (split; [reflexivity|]); cbn; repeat split.
Qed.

(** X20. [roll_on(fps)] on an idle camera, for a frame rate that is not
    zero. The camera ends rolling, armed and broadcasting, with a first
    acquisition requested, the exposure number at 100 and the former
    exposure settings kept for [roll_off]. The [roll_fps] entry is
    capped at [MAX_FPS], but the exposure time is one over the rate
    that was asked for, capped or not. *)
Theorem roll_on_idle_camera
    (trig : nat -> Camera.trigger_outcome) (js : option exn) (k : nat)
    (w : Camera.world) (f : float) :
  let c := Camera.cam w in
  Camera.rolling c = false -> Camera.armed c = false ->
  (f =? 0)%float = false ->
  match Camera.man w with
  | Some m => exists p, Manager.scan_path m = Ok p
  | None => True
  end ->
  exists w',
    let c' := Camera.cam w' in
    Camera.roll_on trig js (S k) (Some f) w = Return tt w'
    /\ Camera.rolling c' = true
    /\ Camera.armed c' = true
    /\ Camera.do_acquire c' = true
    /\ Camera.loop_future c' = Some Camera.Alive
    /\ Camera.roll_fps (Camera.config c')
       = (if (Camera.MAX_FPS c <? f)%float then Camera.MAX_FPS c else f)
    /\ Camera.exposure_time c' = (1 / f)%float
    /\ Camera.exposure_number c' = 100
    /\ Camera._exposure_time_before_roll c' = Some (Camera.exposure_time c)
    /\ Camera._exposure_number_before_roll c' = Some (Camera.exposure_number c)
    /\ Camera.do_broadcast (Camera.config c') = true
    /\ Camera.filename c' = None.
Proof.
  intros c Hroll Harm Hf Hman.
  destruct (roll_on_idle_spec trig js k w f Hroll Harm Hf Hman)
    as (w' & H1 & H2 & H3 & H4 & H5 & H6 & H7 & H8 & H9 & H10 & H11 & H12 & _).
  exists w'. cbv zeta. repeat split; assumption.
Qed.

Lemma roll_on_idle_camera_witness :
  exists w',
    let c' := Camera.cam w' in
    Camera.roll_on trigger_ok None 1 (Some 8%float) world0 = Return tt w'
    /\ Camera.rolling c' = true
    /\ Camera.armed c' = true
    /\ Camera.do_acquire c' = true
    /\ Camera.loop_future c' = Some Camera.Alive
    /\ Camera.roll_fps (Camera.config c')
       = (if (Camera.MAX_FPS (Camera.cam world0) <? 8)%float
          then Camera.MAX_FPS (Camera.cam world0) else 8%float)
    /\ Camera.exposure_time c' = (1 / 8)%float
    /\ Camera.exposure_number c' = 100
    /\ Camera._exposure_time_before_roll c' = Some (Camera.exposure_time (Camera.cam world0))
    /\ Camera._exposure_number_before_roll c'
       = Some (Camera.exposure_number (Camera.cam world0))
    /\ Camera.do_broadcast (Camera.config c') = true
    /\ Camera.filename c' = None.
Proof.
  exact (roll_on_idle_camera trigger_ok None 0 world0 8%float eq_refl eq_refl eq_refl
           (ex_intro _ None eq_refl)).
Defined.

(** The rate asked for above is over [MAX_FPS]: the entry is capped at
    5, the exposure time is an eighth of a second. *)
Example roll_on_over_max_fps :
  let c := Camera.cam (state_of (Camera.roll_on trigger_ok None 1 (Some 8%float) world0)) in
  Camera.roll_fps (Camera.config c) = 5%float /\ Camera.exposure_time c = (1 / 8)%float.
Proof. vm_compute. split; reflexivity. Qed.

Lemma roll_off_in_thread_exposure (js : option exn) (W : Camera.world) :
  Camera.rolling (Camera.cam W) = true ->
  exists w',
    (Camera.roll_off_with (Camera.disarm_with (Camera.join_self js) 2) W = Return tt w'
     \/ exists e, Camera.roll_off_with (Camera.disarm_with (Camera.join_self js) 2) W
                  = Throw e w')
    /\ exposure_kept W w'.
Proof.
  intros Hroll. destruct W as [c m t]. destruct c. destruct config. cbn in Hroll. subst.
  unfold exposure_kept. run_camera.
  destruct loop_future as [th|]; [destruct js as [[]|]|]; cbn;
    destruct (Camera.truthy_float _exposure_time_before_roll) eqn:TQ; cbn;
    destruct (Camera.truthy_Z _exposure_number_before_roll) eqn:TZ; cbn;
    eexists;
    (split; [first [left; reflexivity | right; eexists; reflexivity]|]);
    cbn; repeat split; auto.
Qed.

Lemma thread_turn_stopping_exposure (trig : nat -> Camera.trigger_outcome)
    (js : option exn) (w : Camera.world) :
  Camera.rolling (Camera.cam w) = true ->
  Camera.stop_rolling_flag (Camera.cam w) = true ->
  Camera.end_acquisition (Camera.cam w) = true ->
  Camera.enqueue_lock (Camera.cam w) = false ->
  exists w',
    Camera.thread_turn trig js w = Return Camera.Break w'
    /\ exposure_kept w w'.
Proof.
  intros Hroll Hstop Hend Hlock.
  destruct (Camera.do_acquire (Camera.cam w)) eqn:Hdo.
  - destruct (loop_iteration_spec trig js w Hdo Hlock) as (h & md & lm & q & fl & E).
    cbv zeta in E. rewrite Hroll, Hstop in E.
    unfold Camera.thread_turn, Camera.bind, Camera.try_except, Camera.when,
      Camera.modify, Camera.ret.
    rewrite E. clear E.
    destruct w as [c m t]. destruct c. destruct config.
    cbn in Hroll, Hstop, Hend, Hlock, Hdo. subst.
    cbn [Camera.cam Camera.man Camera.trace Camera.ntrig].
    destruct (Camera.raises (trig ntrig)) as [e|].
    + match goal with |- context [Camera.roll_off_with ?d ?W] =>
        destruct (roll_off_in_thread_exposure js W eq_refl) as (w' & Hout & Hk) end.
      exists (Camera.mkWorld (Camera.with_loop_future (Some Camera.Finished) (Camera.cam w'))
                (Camera.man w') (Camera.trace w')).
      split; [destruct Hout as [-> | (e' & ->)]; reflexivity|].
      unfold exposure_kept in *. cbn in Hk. destruct w' as [[] ? ?]. cbn in *. exact Hk.
    + eexists. split; [reflexivity|]. unfold exposure_kept. cbn. repeat split; auto.
  - destruct w as [c m t]. destruct c. destruct config.
    cbn in Hroll, Hstop, Hend, Hlock, Hdo. subst.
    eexists. split; [reflexivity|]. unfold exposure_kept. cbn. repeat split; auto.
Qed.

(** [roll_off] from the callers' thread, with what it restores. *)
Lemma roll_off_restores (trig : nat -> Camera.trigger_outcome) (js : option exn)
    (k : nat) (w : Camera.world) :
  Camera.rolling (Camera.cam w) = true ->
  Camera.enqueue_lock (Camera.cam w) = false ->
  let c := Camera.cam w in
  exists w',
    let c' := Camera.cam w' in
    Camera.roll_off trig js (S k) w = Return tt w'
    /\ Camera.rolling c' = false
    /\ Camera.armed c' = false
    /\ Camera.exposure_time c'
       = (if Camera.truthy_float (Camera._exposure_time_before_roll c)
          then default 0%float (Camera._exposure_time_before_roll c)
          else Camera.exposure_time c)
    /\ Camera.exposure_number c'
       = (if Camera.truthy_Z (Camera._exposure_number_before_roll c)
          then default 0 (Camera._exposure_number_before_roll c)
          else Camera.exposure_number c)
    /\ Camera.roll_fps (Camera.config c') = Camera.roll_fps (Camera.config c)
    /\ Camera.do_broadcast (Camera.config c') = Camera.do_broadcast (Camera.config c)
    /\ Camera.man w' = Camera.man w.
Proof.
  intros Hroll Hlock c. subst c.
  destruct w as [c m t]. destruct c. destruct config. cbn in Hroll, Hlock. subst.
  assert (Hjoin : forall W,
    Camera.rolling (Camera.cam W) = true ->
    Camera.stop_rolling_flag (Camera.cam W) = true ->
    Camera.end_acquisition (Camera.cam W) = true ->
    Camera.enqueue_lock (Camera.cam W) = false ->
    exists w',
      Camera.try_except (Camera.join_main trig js (S k))
        (fun e => match e with AttributeError => Some (Camera.ret tt) | _ => None end) W
      = Return tt w'
      /\ exposure_kept W w').
  { intros W H1 H2 H3 H4.
    assert (Hself : exposure_kept W W) by (unfold exposure_kept; repeat split; auto).
    unfold Camera.try_except, Camera.join_main, Camera.bind, Camera.get.
    destruct (Camera.loop_future (Camera.cam W)) as [[|]|] eqn:Hf.
    - cbn [Camera.run_loop]. unfold Camera.bind.
      destruct (thread_turn_stopping_exposure trig js W H1 H2 H3 H4) as (w' & -> & Hk).
      exists w'. split; [reflexivity | exact Hk].
    - exists W. split; [reflexivity | exact Hself].
    - exists W. split; [reflexivity | exact Hself]. }
  unfold Camera.roll_off, Camera.roll_off_with, Camera.disarm, Camera.disarm_with,
    Camera.disarm_body.
  unfold Camera.bind at 1. unfold Camera.emit at 1. cbv beta iota.
  unfold Camera.bind at 1. unfold Camera.get at 1. cbv beta iota.
  cbn [Camera.cam Camera.rolling negb].
  unfold Camera.bind at 1. unfold Camera.modify at 1. cbv beta iota.
  unfold Camera.bind at 1. unfold Camera.bind at 1. unfold Camera.get at 1.
  cbn [Camera.cam Camera.man Camera.trace Camera.with_stop_rolling_flag Camera.rolling
       Camera.stop_rolling_flag negb andb].
  unfold Camera.bind at 1. unfold Camera.modify at 1. cbv beta iota.
  cbn [Camera.cam Camera.man Camera.trace Camera.with_end_acquisition].
  unfold Camera.bind at 1.
  match goal with |- context [Camera.try_except ?j ?h ?W] =>
    destruct (Hjoin W eq_refl eq_refl eq_refl eq_refl) as (w' & -> & Hk) end.
  clear Hjoin. unfold exposure_kept in Hk. cbn in Hk.
  destruct Hk as (K1 & K2 & K3 & K4 & K5 & K6 & K7 & K8).
  destruct w' as [c' m' t']. destruct c'. destruct config. cbn in K1, K2, K3, K4, K5, K6, K7, K8.
  subst.
  unfold Camera.set_exposure_time, Camera.set_exposure_number, Camera.bind,
    Camera.get, Camera.modify, Camera.when, Camera.emit, Camera.ret.
  cbn.
  destruct (Camera.truthy_float _exposure_time_before_roll) eqn:TQ; cbn;
    destruct (Camera.truthy_Z _exposure_number_before_roll) eqn:TZ; cbn;
    eexists; (split; [reflexivity|]); cbn;
    repeat split;
    try (destruct K3 as [K3|[K3 K3']]; congruence);
    try (destruct K4 as [K4|[K4 K4']]; congruence).
Qed.

(** X21. [roll_on] followed by [roll_off] on an idle camera. Both
    return, and the camera is idle again. The exposure time and the
    exposure number are the ones from before the rolling, except a
    former value of zero, which [roll_off] takes for no value: then the
    rolling value stays (one over the frame rate, 100). Broadcasting,
    which [roll_on] switched on, stays on, and [roll_fps] stays at the
    capped rate. *)
Theorem roll_on_roll_off_round_trip
    (trig : nat -> Camera.trigger_outcome) (js : option exn) (k k' : nat)
    (w : Camera.world) (f : float) :
  let c := Camera.cam w in
  Camera.rolling c = false -> Camera.armed c = false ->
  Camera.enqueue_lock c = false ->
  (f =? 0)%float = false ->
  match Camera.man w with
  | Some m => exists p, Manager.scan_path m = Ok p
  | None => True
  end ->
  exists w1 w2,
    let c2 := Camera.cam w2 in
    Camera.roll_on trig js (S k) (Some f) w = Return tt w1
    /\ Camera.roll_off trig js (S k') w1 = Return tt w2
    /\ Camera.rolling c2 = false
    /\ Camera.armed c2 = false
    /\ Camera.exposure_time c2
       = (if (Camera.exposure_time c =? 0)%float then (1 / f)%float
          else Camera.exposure_time c)
    /\ Camera.exposure_number c2
       = (if (Camera.exposure_number c =? 0)%Z then 100 else Camera.exposure_number c)
    /\ Camera.do_broadcast (Camera.config c2) = true
    /\ Camera.roll_fps (Camera.config c2)
       = (if (Camera.MAX_FPS c <? f)%float then Camera.MAX_FPS c else f).
Proof.
  intros c Hroll Harm Hlock Hf Hman. subst c.
  destruct (roll_on_idle_spec trig js k w f Hroll Harm Hf Hman)
    as (w1 & E1 & R1 & _ & _ & _ & F1 & T1 & N1 & BT & BN & B1 & _ & L1 & _).
  cbv zeta in *.
  destruct (roll_off_restores trig js k' w1 R1 ltac:(congruence))
    as (w2 & E2 & R2 & A2 & T2 & N2 & F2 & B2 & _).
  cbv zeta in *.
  exists w1, w2. split; [exact E1|]. split; [exact E2|]. split; [exact R2|].
  split; [exact A2|].
  rewrite T2, N2, BT, BN, F2, B2, T1, N1. unfold Camera.truthy_float, Camera.truthy_Z.
  cbn [default].
  split; [destruct (Camera.exposure_time (Camera.cam w) =? 0)%float; reflexivity|].
  split; [destruct (Camera.exposure_number (Camera.cam w) =? 0)%Z; reflexivity|].
  split; [exact B1 | exact F1].
Qed.

Lemma roll_on_roll_off_round_trip_witness :
  exists w1 w2,
    let c2 := Camera.cam w2 in
    Camera.roll_on trigger_ok None 1 (Some 8%float) world0 = Return tt w1
    /\ Camera.roll_off trigger_ok None 1 w1 = Return tt w2
    /\ Camera.rolling c2 = false
    /\ Camera.armed c2 = false
    /\ Camera.exposure_time c2
       = (if (Camera.exposure_time (Camera.cam world0) =? 0)%float then (1 / 8)%float
          else Camera.exposure_time (Camera.cam world0))
    /\ Camera.exposure_number c2
       = (if (Camera.exposure_number (Camera.cam world0) =? 0)%Z then 100
          else Camera.exposure_number (Camera.cam world0))
    /\ Camera.do_broadcast (Camera.config c2) = true
    /\ Camera.roll_fps (Camera.config c2)
       = (if (Camera.MAX_FPS (Camera.cam world0) <? 8)%float
          then Camera.MAX_FPS (Camera.cam world0) else 8%float).
Proof.
  exact (roll_on_roll_off_round_trip trigger_ok None 0 0 world0 8%float
           eq_refl eq_refl eq_refl eq_refl (ex_intro _ None eq_refl)).
Defined.

(** ** The status of the robot *)

Lemma mem_char_app (x : ascii) (a b : string) :
  PyStr.mem_char x (a +:+ b) = (PyStr.mem_char x a || PyStr.mem_char x b)%bool.
Proof.
  induction a as [|c a IH]; [now rewrite append_nil_l|].
  rewrite append_cons. cbn [PyStr.mem_char]. rewrite IH. now rewrite orb_assoc.
Qed.

Lemma split_char_none (sep : ascii) (s : string) :
  PyStr.mem_char sep s = false -> PyParse.split_char sep s = [s].
Proof.
  induction s as [|c r IH]; [reflexivity|].
  cbn [PyStr.mem_char PyParse.split_char]. intros H.
  apply orb_false_iff in H as [H1 H2]. rewrite Ascii.eqb_sym, H1, (IH H2). reflexivity.
Qed.

Lemma split_pair_none (a b : ascii) (s : string) :
  PyStr.mem_char a s = false -> PyParse.split_pair a b s = [s].
Proof.
  induction s as [|c r IH]; [reflexivity|].
  cbn [PyStr.mem_char PyParse.split_pair]. intros H.
  apply orb_false_iff in H as [H1 H2].
  destruct r as [|d r']; [reflexivity|].
  rewrite (Ascii.eqb_sym c a), H1. cbn [andb]. rewrite (IH H2). reflexivity.
Qed.

Lemma rstrip_brackets_none (s : string) :
  PyStr.mem_char "["%char s = false -> PyStr.mem_char "]"%char s = false ->
  PyParse.rstrip "[]" s = s.
Proof.
  induction s as [|c r IH]; [reflexivity|].
  cbn [PyStr.mem_char]. intros H1 H2.
  apply orb_false_iff in H1 as [H1 H1']. apply orb_false_iff in H2 as [H2 H2'].
  cbn [PyParse.rstrip]. rewrite (IH H1' H2').
  destruct r; [|reflexivity].
  cbn [PyStr.mem_char]. rewrite (Ascii.eqb_sym c "["%char), H1.
  rewrite (Ascii.eqb_sym c "]"%char), H2. reflexivity.
Qed.

Lemma status_text_chars (x : ascii) (rest : list bool) :
  x <> "0"%char -> x <> "1"%char -> x <> ","%char ->
  forall b, PyStr.mem_char x (status_text b rest) = false.
Proof.
  intros H0 H1 Hc.
  apply Ascii.eqb_neq in H0. apply Ascii.eqb_neq in H1. apply Ascii.eqb_neq in Hc.
  induction rest as [|b' r IH]; intros b; cbn [status_text PyStr.mem_char].
  - destruct b; cbn [flag_char]; rewrite ?H0, ?H1; reflexivity.
  - rewrite IH, Hc. destruct b; cbn [flag_char]; rewrite ?H0, ?H1; reflexivity.
Qed.

Lemma status_text_ascii (rest : list bool) :
  forall b, PyParse.all_ascii (status_text b rest) = true.
Proof.
  induction rest as [|b' r IH]; intros b; cbn [status_text PyParse.all_ascii].
  - destruct b; reflexivity.
  - rewrite IH. destruct b; reflexivity.
Qed.

Lemma status_text_ints (rest : list bool) :
  forall b,
    Mecademic.ints_of (PyParse.split_char ","%char (status_text b rest))
    = Ok (map (fun x : bool => if x then 1 else 0) (b :: rest)).
Proof.
  induction rest as [|b' r IH]; intros b.
  - destruct b; reflexivity.
  - cbn [status_text].
    assert (E : PyParse.split_char ","%char
                  (String (flag_char b) (String ","%char (status_text b' r)))
                = String (flag_char b) EmptyString
                  :: PyParse.split_char ","%char (status_text b' r))
      by (destruct b; reflexivity).
    rewrite E. cbn [Mecademic.ints_of]. rewrite IH.
    destruct b; reflexivity.
Qed.

(** X22. [get_status] reads the flags of a status reply: for an answer
    [[code][f1,f2,...]] of ones and zeros, with a code from 2000 to
    2999 other than 2042, it returns the list of the flags as booleans
    and leaves the driver as it was. *)
Theorem get_status_reads_flags
    (code : Z) (b : bool) (rest : list bool) (d : Mecademic.driver) :
  2000 <= code <= 2999 -> code <> 2042 ->
  Mecademic.get_status
    ("[" +:+ PyStr.str_int code +:+ "][" +:+ status_text b rest +:+ "]") d
  = Return (Some (b :: rest)) d.
Proof.
  intros Hc Hn.
  assert (Hlen : (String.length (PyStr.str_int code) <= PyParse.max_str_digits)%nat).
  { unfold PyStr.str_int. destruct (Z.ltb_spec code 0); [lia|].
    etransitivity; [apply (str_N_length _ 4); [lia|]|].
    - change (10 ^ N.of_nat 4)%N with 10000%N. lia.
    - unfold PyParse.max_str_digits. lia. }
  assert (Hne : status_text b rest <> EmptyString) by (destruct rest; discriminate).
  assert (Hch : forall x : ascii,
             x <> "0"%char -> x <> "1"%char -> x <> ","%char ->
             PyStr.mem_char x (status_text b rest) = false)
    by (intros x H0 H1 H2; now apply status_text_chars).
  pose proof (parse_reply_bracketed_ok code (status_text b rest) ltac:(lia) Hlen
                (status_text_ascii rest b)
                (split_pair_none "]"%char "["%char _
                   (Hch "]"%char ltac:(discriminate) ltac:(discriminate)
                      ltac:(discriminate)))
                Hne
                (rstrip_brackets_none _
                   (Hch "["%char ltac:(discriminate) ltac:(discriminate)
                      ltac:(discriminate))
                   (Hch "]"%char ltac:(discriminate) ltac:(discriminate)
                      ltac:(discriminate)))) as P.
  unfold Mecademic.get_status, Mecademic.process_reply.
  rewrite split_char_none.
  2:{ unfold PyStr.str_int. destruct (Z.ltb_spec code 0); [lia|].
      rewrite !mem_char_app. unfold PyStr.str_N.
      rewrite dec_digits_no_char by reflexivity.
      rewrite (Hch Mecademic.EOL) by discriminate. reflexivity. }
  cbn [Mecademic.parse_replies]. rewrite P. cbn [Mecademic.classify].
  replace (code =? 2042)%Z with false by (symmetry; apply Z.eqb_neq; lia).
  replace (code <? 2000)%Z with false by (symmetry; apply Z.ltb_ge; lia).
  replace (2999 <? code)%Z with false by (symmetry; apply Z.ltb_ge; lia).
  rewrite status_text_ints. f_equal. f_equal. clear.
  induction (b :: rest) as [|x r IH]; [reflexivity|]. cbn [map]. rewrite IH. now destruct x.
Qed.

Lemma get_status_reads_flags_witness :
  Mecademic.get_status
    ("[" +:+ PyStr.str_int 2007 +:+ "][" +:+ status_text true [true; false; false] +:+ "]")
    driver0
  = Return (Some [true; true; false; false]) driver0.
Proof.
  exact (get_status_reads_flags 2007 true [true; false; false] driver0
           ltac:(lia) ltac:(discriminate)).
Defined.

(** ** The tags of the data logger *)

(** X23. The tags [get_tags] gives a measurement. Without a manager the
    host is the only tag. With a manager whose investigation and
    experiment are [None] or texts there are four tags: the
    investigation, the experiment and the name of the running scan,
    each replaced by the text [undefined] when it is [None] or empty
    (so is the scan name when no scan runs), and the host. The host is
    [THIS_HOST] as it is in both cases: it is not replaced when it is
    [None] or empty. *)
Theorem get_tags_defined (this_host : pyval) (m : Manager.manager) (ex : pyval) :
  let shown (v : pyval) : pyval :=
    match v with
    | PStr s => if String.eqb s "" then PStr "undefined" else PStr s
    | _ => PStr "undefined"
    end in
  DataLogger.get_tags this_host None = Ok {["host" := this_host]}
  /\ (Manager.experiment m = Ok ex ->
      (Manager.investigation m = PNone \/ exists s, Manager.investigation m = PStr s) ->
      (ex = PNone \/ exists s, ex = PStr s) ->
      exists tags,
        DataLogger.get_tags this_host (Some m) = Ok tags
        /\ dom tags = ({["investigation"; "experiment"; "scan_name"; "host"]} : gset string)
        /\ tags !! "host" = Some this_host
        /\ tags !! "investigation" = Some (shown (Manager.investigation m))
        /\ tags !! "experiment" = Some (shown ex)
        /\ tags !! "scan_name"
           = Some (match Manager.scan_name m with
                   | Some n => shown (PStr n)
                   | None => PStr "undefined"
                   end)
        /\ (Manager._running m = false -> tags !! "scan_name" = Some (PStr "undefined"))).
Proof.
  intros shown. split; [reflexivity|].
  intros Hex Hinv Hx. unfold DataLogger.get_tags. rewrite Hex.
  assert (Hu : forall v, (v = PNone \/ exists s, v = PStr s) ->
                 DataLogger.or_undefined v = Ok (shown v)).
  { intros v [-> | [s ->]]; [reflexivity|]. cbn. now destruct (String.eqb s ""). }
  rewrite (Hu _ Hinv), (Hu _ Hx).
  eexists. split; [reflexivity|].
  split; [rewrite !dom_insert_L, dom_empty_L; set_solver|].
  split; [now rewrite !lookup_insert_ne by discriminate; rewrite lookup_insert_eq|].
  split; [now rewrite lookup_insert_eq|].
  split; [now rewrite lookup_insert_ne by discriminate; rewrite lookup_insert_eq|].
  assert (Hsn : forall v : pyval,
            (<["investigation" := shown (Manager.investigation m)]>
               (<["experiment" := shown ex]>
                  (<["scan_name" := v]> (<["host" := this_host]> ∅))) : dict)
            !! "scan_name" = Some v).
  { intros v. now rewrite !lookup_insert_ne by discriminate; rewrite lookup_insert_eq. }
  split.
  - rewrite Hsn. f_equal. destruct (Manager.scan_name m) as [n|]; [|reflexivity].
    cbn. now destruct (String.eqb n "").
  - intros Hr. rewrite Hsn. unfold Manager.scan_name. now rewrite Hr.
Qed.

Lemma get_tags_defined_witness :
  exists tags,
    DataLogger.get_tags PNone (Some manager0) = Ok tags
    /\ tags !! "host" = Some PNone
    /\ tags !! "investigation" = Some (PStr "speckle")
    /\ tags !! "experiment" = Some (PStr "run1")
    /\ tags !! "scan_name" = Some (PStr "undefined").
Proof.
  destruct (proj2 (get_tags_defined PNone manager0 (PStr "run1")) eq_refl
              (or_intror (ex_intro _ "speckle" eq_refl))
              (or_intror (ex_intro _ "run1" eq_refl)))
    as (tags & E & _ & Hh & Hi & He & _ & Hs).
  exists tags. split; [exact E|]. split; [exact Hh|]. split; [exact Hi|].
  split; [exact He|]. exact (Hs eq_refl).
Defined.

(** A manager whose investigation and experiment were never set: both
    tags read [undefined]. *)
Example get_tags_unset :
  DataLogger.get_tags (PStr "lab-pc")
    (Some (Manager.with_config (<["experiment" := PNone]> ∅) manager0))
  = Ok (<["investigation" := PStr "undefined"]>
          (<["experiment" := PStr "undefined"]>
             (<["scan_name" := PStr "undefined"]> (<["host" := PStr "lab-pc"]> ∅)))).
Proof. reflexivity. Qed.

(** ** The file names of a scan *)

Lemma mem_char_append (c : ascii) (a b : string) :
  PyStr.mem_char c (a +:+ b) = (PyStr.mem_char c a || PyStr.mem_char c b)%bool.
Proof.
  induction a as [|x a IH]; [reflexivity|].
  rewrite append_cons. cbn [PyStr.mem_char]. now rewrite IH, orb_assoc.
Qed.

Lemma no_braces_append (a b : string) :
  PyStr.no_braces (a +:+ b) = (PyStr.no_braces a && PyStr.no_braces b)%bool.
Proof.
  unfold PyStr.no_braces. rewrite !mem_char_append.
  destruct (PyStr.mem_char "{" a), (PyStr.mem_char "}" a),
    (PyStr.mem_char "{" b), (PyStr.mem_char "}" b); reflexivity.
Qed.

Lemma all_digits_no_braces (s : string) :
  PyStr.all_digits s = true -> PyStr.no_braces s = true.
Proof.
  induction s as [|c s IH]; [reflexivity|].
  cbn [PyStr.all_digits]. intros H. apply andb_true_iff in H as [Hc Hs].
  specialize (IH Hs). unfold PyStr.no_braces in *. cbn [PyStr.mem_char].
  apply andb_true_iff in IH as [I1 I2].
  apply negb_true_iff in I1, I2. rewrite I1, I2.
  destruct c as [[] [] [] [] [] [] [] []]; try reflexivity; discriminate Hc.
Qed.

Lemma zero_pad_no_braces (w : nat) (z : Z) : PyStr.no_braces (PyStr.zero_pad w z) = true.
Proof.
  unfold PyStr.zero_pad. rewrite !no_braces_append.
  rewrite (all_digits_no_braces _ (all_digits_zeros _)).
  unfold PyStr.str_N. rewrite (all_digits_no_braces _ (all_digits_dec_digits _ _)).
  now destruct (z <? 0)%Z.
Qed.

(** The prefix [next_prefix] builds from a scan name without braces. *)
Lemma format_base_file_name (sn : string) (z : Z) :
  PyStr.no_braces sn = true ->
  PyStr.format (sn +:+ Manager.counter_field) z = Ok (sn +:+ "_" +:+ PyStr.zero_pad 6 z).
Proof.
  intros H. unfold PyStr.format. rewrite format_go_text by assumption.
  rewrite format_go_counter_field. cbn [PyStr.prepend_str]. now rewrite append_nil_r.
Qed.

Lemma next_prefix_returns (m : Manager.manager) (sn : string) :
  Manager._running m = true ->
  Manager._base_file_name m = Some (sn +:+ Manager.counter_field) ->
  PyStr.no_braces sn = true ->
  Manager.next_prefix m
  = Return (sn +:+ "_" +:+ PyStr.zero_pad 6 (Manager.counter m))
      (Manager.with_counter (Manager.counter m + 1) m).
Proof.
  intros Hr Hb Hs. unfold Manager.next_prefix.
  now rewrite Hr, Hb, (format_base_file_name _ _ Hs).
Qed.

Lemma append_cancel_r (a b e : string) : a +:+ e = b +:+ e -> a = b.
Proof.
  revert b. induction a as [|x a IH]; intros b H.
  - destruct b as [|y b]; [reflexivity|].
    apply (f_equal String.length) in H. rewrite append_nil_l, append_cons in H.
    cbn [String.length] in H. rewrite length_append in H. lia.
  - destruct b as [|y b].
    + apply (f_equal String.length) in H. rewrite append_nil_l, append_cons in H.
      cbn [String.length] in H. rewrite length_append in H. lia.
    + rewrite !append_cons in H. injection H as -> H. f_equal. now apply IH.
Qed.

Lemma append_cancel_l (a b e : string) : e +:+ a = e +:+ b -> a = b.
Proof.
  induction e as [|x e IH]; [now rewrite !append_nil_l|].
  rewrite !append_cons. intros H. injection H as H. now apply IH.
Qed.

(** Two prefixes of one scan end the same path only if they are the
    same prefix. *)
Lemma join_prefix_inj (base dir sn a b : string) :
  PyStr.os_path_join base [dir; sn +:+ "_" +:+ a]
  = PyStr.os_path_join base [dir; sn +:+ "_" +:+ b] -> a = b.
Proof.
  unfold PyStr.os_path_join. cbn [fold_left].
  generalize (PyStr.join2 base dir). intros d. unfold PyStr.join2.
  assert (Hs : PyStr.starts_with_sep (sn +:+ "_" +:+ a)
               = PyStr.starts_with_sep (sn +:+ "_" +:+ b)).
  { destruct sn as [|c sn]; [reflexivity|]. now rewrite !append_cons. }
  rewrite <- Hs.
  destruct (PyStr.starts_with_sep _);
    [|destruct (String.eqb d "" || PyStr.ends_with_sep d)%bool];
    intros H; repeat apply append_cancel_l in H; exact H.
Qed.

(** [snap()] on an idle camera while a scan runs whose name holds no
    brace: the file is named after the next prefix of the scan, in the
    directory of the scan; the counter of the manager goes up by one and
    the camera is idle again. *)
Lemma snap_in_scan
    (trig : nat -> Camera.trigger_outcome) (js : option exn) (k : nat)
    (w : Camera.world) (m : Manager.manager) (sn sp : string) :
  let c := Camera.cam w in
  Camera.rolling c = false -> Camera.armed c = false -> Camera.enqueue_lock c = false ->
  Camera.man w = Some m ->
  Manager._running m = true ->
  Manager._base_file_name m = Some (sn +:+ Manager.counter_field) ->
  PyStr.no_braces sn = true ->
  Manager.scan_path m = Ok (Some sp) ->
  Camera.config_ok (Camera.config c) ->
  exists w',
    let c' := Camera.cam w' in
    Camera.snap trig js (S (S k)) None None w = Return tt w'
    /\ Camera.filename c'
       = Some (PyStr.os_path_join (Camera.BASE_PATH c)
                 [sp; sn +:+ "_" +:+ PyStr.zero_pad 6 (Manager.counter m)]
               +:+ (if String.eqb (Camera.file_format (Camera.config c)) "hdf5"
                    then ".h5" else ".tif"))
    /\ Camera.man w' = Some (Manager.with_counter (Manager.counter m + 1) m)
    /\ Camera.rolling c' = false
    /\ Camera.armed c' = false
    /\ Camera.enqueue_lock c' = false
    /\ Camera.config c' = Camera.config c
    /\ Camera.BASE_PATH c' = Camera.BASE_PATH c
    /\ Camera.ntrig c' = S (Camera.ntrig c).
Proof.
  intros c Hroll Harm Hlock Hman Hrun Hbase Hsn Hp Hok. subst c.
  pose proof (next_prefix_returns m sn Hrun Hbase Hsn) as Hnext.
  set (prefix := sn +:+ "_" +:+ PyStr.zero_pad 6 (Manager.counter m)) in *.
  assert (Hpre : PyStr.no_braces prefix = true).
  { subst prefix. rewrite !no_braces_append, Hsn, zero_pad_no_braces. reflexivity. }
  destruct w as [c m0 t]. destruct c. destruct config.
  cbn in Hroll, Harm, Hlock, Hman, Hok. subst.
  assert (Hbf : forall cc,
    Camera.BASE_PATH cc = BASE_PATH ->
    Camera.file_format (Camera.config cc) = file_format ->
    Camera._build_filename cc (Some prefix) (Some sp)
    = Ok (PyStr.os_path_join BASE_PATH [sp; prefix]
          +:+ (if String.eqb file_format "hdf5" then ".h5" else ".tif"))).
  { intros cc H1 H2. unfold Camera._build_filename.
    rewrite (format_no_braces _ _ Hpre), H1, H2.
    destruct Hok as [_ Hf]. cbn in Hf.
    apply elem_of_cons in Hf as [->|Hf]; [reflexivity|].
    apply list_elem_of_singleton in Hf as ->. reflexivity. }
  unfold Camera.snap, Camera.arm, Camera.in_scan, Camera.man_next_prefix,
    Camera.get_manager,
    Camera.lift, Camera.bind, Camera.get, Camera.modify, Camera.when, Camera.emit,
    Camera.ret, Camera.raise.
  cbn -[Camera.wait_acquire_done Camera._build_filename Camera.disarm].
  rewrite Hp.
  cbn -[Camera.wait_acquire_done Camera._build_filename Camera.disarm].
  rewrite Hp.
  cbn -[Camera.wait_acquire_done Camera._build_filename Camera.disarm].
  rewrite Hnext.
  cbn -[Camera.wait_acquire_done Camera._build_filename Camera.disarm].
  match goal with |- context [Camera._build_filename ?c1 ?p ?q] =>
    rewrite (Hbf c1 eq_refl eq_refl) end.
  cbn -[Camera.wait_acquire_done Camera.disarm].
  rewrite wait_acquire_done_S.
  cbn [Camera.cam Camera.acquire_done Camera.loop_future].
  unfold Camera.thread_turn, Camera.bind, Camera.try_except, Camera.when, Camera.modify,
    Camera.ret.
  match goal with |- context [Camera.loop_iteration trig js ?W] =>
    destruct (loop_iteration_spec trig js W eq_refl eq_refl) as (h & md & lm & q & fl & E)
  end.
  cbv zeta in E.
  cbn [Camera.cam Camera.man Camera.trace Camera.ntrig Camera.rolling Camera.auto_armed
       Camera.filename] in E.
  rewrite E. clear E.
  destruct (Camera.raises (trig ntrig)) as [e|];
    cbn -[Camera.wait_acquire_done Camera.disarm];
    rewrite wait_acquire_done_S;
    cbn -[Camera.disarm];
    unfold Camera.disarm, Camera.disarm_with, Camera.disarm_body, Camera.join_main,
      Camera.bind, Camera.get, Camera.modify, Camera.when, Camera.emit,
      Camera.try_except, Camera.ret, Camera.raise;
    cbn;
    (eexists; split; [reflexivity|]); cbn;
    repeat split.
Qed.

(** What [start_scan] leaves when the date and the label hold no
    brace: a running scan whose name holds none. *)
Lemma start_scan_name_no_braces ns today t0 label localmeta m0 info m :
  Manager.start_scan ns today t0 label localmeta m0 = Return info m ->
  PyStr.no_braces today = true ->
  PyStr.no_braces (default "" label) = true ->
  exists sn,
    Manager._running m = true
    /\ Manager._base_file_name m = Some (sn +:+ Manager.counter_field)
    /\ PyStr.no_braces sn = true
    /\ Manager.counter m = 0.
Proof.
  unfold Manager.start_scan.
  destruct (Manager._running m0) eqn:Hr; [discriminate|].
  destruct ns as [n|]; [|discriminate].
  destruct (Manager.base_path _) as [bp|]; [|discriminate].
  destruct (Manager.path _) as [p|]; [|discriminate].
  destruct (as_str bp) as [b|]; [|discriminate].
  destruct localmeta as [lm|]; [|discriminate].
  intros H Ht Hl. injection H as _ <-.
  cbn [Manager._running Manager._base_file_name Manager.counter Manager.with_dirs].
  eexists. split; [reflexivity|]. split; [reflexivity|]. split; [|reflexivity].
  destruct label as [l|].
  - change (PyStr.no_braces l = true) in Hl.
    rewrite !no_braces_append, zero_pad_no_braces, Ht, Hl. reflexivity.
  - rewrite !no_braces_append, zero_pad_no_braces, Ht. reflexivity.
Qed.




(** ** A manager whose scan number was never assigned *)

(** When the [next_scan()] of [__init__] raises, [_scan_number] is left
    unassigned. Outside a scan [get_meta] then raises [AttributeError]
    at [self._scan_number], and keeps doing so until a [start_scan]
    assigns the attribute, whatever [next_scan()] returns to it. *)
Example get_meta_unassigned_scan_number :
  let m := Manager.mkManager (Manager.config manager0) false None None None
             Manager.Unassigned 0 ∅ ∅ ∅ in
  ManagerOps.get_meta m = Raise AttributeError
  /\ ManagerOps.scan_number m = Ok None
  /\ ManagerOps.get_meta
       (state_of (Manager.start_scan None "26-11-04" (PStr "t0") None (Some ∅) m))
     = Ok (<["investigation" := PStr "speckle"]>
             (<["experiment" := PStr "run1"]> (<["last_scan" := PNone]> ∅))).
Proof. split; [reflexivity | split; reflexivity]. Qed.
